(** * Sweet-surprise reminders: date normaliser and reminder store client

    A shallow embedding of the parts of the application that carry data
    contracts:

    - [formatDateForDisplay]            (src/utils/helpers.js)
    - [addReminder], [getReminders], [updateReminder], [deleteReminder]
                                         (src/services/reminderService.js)
    - [formatDateToYYYYMMDD], the effect that fills the form ([populate]),
      [validate], [handleSubmit]        (src/components/ReminderForm.jsx)
    - [handleEditClick]                 (src/components/ReminderItem.jsx)
    - [fetchReminders], [handleOpenEditModal], [handleDeleteReminder],
      [handleFormSubmit]                (src/pages/DashboardPage.jsx)
    - [loginUser], [logoutUser]         (src/services/authService.js)
    - [mapAuthErrorToMessage], [login], [logout]
                                         (src/contexts/AuthContext.jsx)
    - [handleSubmit] of the login page  (src/pages/LoginPage.jsx)

    together with the pieces of ECMAScript (strings, Number conversion, the
    Date object) and of the Firestore client (paths of collections and
    documents, [collection], [doc], [addDoc], [getDocs], [updateDoc],
    [deleteDoc], [Timestamp]) these functions call.  Effects (the document
    database, the console, thrown exceptions) are explicit: a function of the
    program is a state-and-exception computation over a [world].

    The modules are named as the imports of the application name them.  In
    the source tree the helpers module is the last document of
    vite.config.js, the reminder service is the second document of
    src/services/authService.js, and the reminder form is the file
    unnamed/part_002; the reminder item is the third document of
    src/components/ReminderList.jsx. *)

From Stdlib Require Import ZArith String Ascii List Lia DecimalString DecimalZ.
From stdpp Require Import gmap strings list sorting pretty.

Local Open Scope string_scope.
Local Open Scope Z_scope.

(* ================================================================== *)
(** * ECMAScript: numbers and strings *)
(* ================================================================== *)

(** The Number values this program computes with: integers (time values,
    calendar fields, digit strings converted by [Number]) and NaN.  Every
    integer met here is far below 2^53, so Number arithmetic is exact. *)
Inductive number :=
  | NaN
  | Int (z : Z).

Definition isNaN (n : number) : bool :=
  match n with NaN => true | Int _ => false end.

(** [a + b] and [a - b] on Numbers. *)
Definition number_add (a b : number) : number :=
  match a, b with
  | Int x, Int y => Int (x + y)
  | _, _ => NaN
  end.

Definition number_sub (a b : number) : number :=
  match a, b with
  | Int x, Int y => Int (x - y)
  | _, _ => NaN
  end.

(** Strings are sequences of code units; the embedding keeps the code units
    below 256.  WhiteSpace and LineTerminator code units in that range:
    TAB, LF, VT, FF, CR, SP and NBSP. *)
Definition is_white_space (c : ascii) : bool :=
  let n := nat_of_ascii c in
  ((9 <=? n) && (n <=? 13))%nat || (n =? 32)%nat || (n =? 160)%nat.

Fixpoint trimStart (s : string) : string :=
  match s with
  | EmptyString => EmptyString
  | String c s' => if is_white_space c then trimStart s' else s
  end.

Fixpoint trimEnd (s : string) : string :=
  match s with
  | EmptyString => EmptyString
  | String c s' =>
      match trimEnd s' with
      | EmptyString => if is_white_space c then EmptyString else String c EmptyString
      | r => String c r
      end
  end.

(** [String.prototype.trim]. *)
Definition trim (s : string) : string := trimEnd (trimStart s).

(** [String.prototype.split] with a one-code-unit separator. *)
Fixpoint split (sep : ascii) (s : string) : list string :=
  match s with
  | EmptyString => [EmptyString]
  | String c s' =>
      if Ascii.eqb c sep then EmptyString :: split sep s'
      else match split sep s' with
           | h :: t => String c h :: t
           | [] => [String c EmptyString]
           end
  end.

Fixpoint repeat_char (c : ascii) (n : nat) : string :=
  match n with
  | O => EmptyString
  | S n' => String c (repeat_char c n')
  end.

(** [String.prototype.padStart] with a one-code-unit filler. *)
Definition padStart (targetLength : nat) (fill : ascii) (s : string) : string :=
  repeat_char fill (targetLength - String.length s) +:+ s.

(** [Number.prototype.toString] (radix 10) and the string conversion of a
    template literal, on the integers below 10^21 (no exponent form). *)
Definition Number_toString (n : number) : string :=
  match n with
  | NaN => "NaN"
  | Int z => NilZero.string_of_int (Z.to_int z)
  end.

(** [Number(s)] (StringToNumber) on strings of decimal digits: surrounding
    white space is dropped, the empty string is 0, a run of decimal digits is
    its value.  The embedding goes no further: signs, fractions, exponents,
    radix prefixes and [Infinity], which [Number] also reads, are given as
    NaN here, so this definition stands for [Number] on the empty string and
    on runs of digits only.  These are the strings it is applied to in what
    follows: the parts of a date of the form's pattern, or of a display
    string, cut at the minus signs. *)
Definition Number_of_string (s : string) : number :=
  match NilEmpty.uint_of_string (trim s) with
  | Some u => Int (Z.of_uint u)
  | None => NaN
  end.

Definition is_digit (c : ascii) : bool :=
  let n := nat_of_ascii c in ((48 <=? n) && (n <=? 57))%nat.

Fixpoint string_forall (p : ascii -> bool) (s : string) : bool :=
  match s with
  | EmptyString => true
  | String c s' => p c && string_forall p s'
  end.

(** A regular expression that is a fixed sequence of one-code-unit atoms,
    anchored at both ends: enough for [/^\d{4}-\d{2}-\d{2}$/]. *)
Inductive atom :=
  | Digit
  | Lit (c : ascii).

Definition atom_matches (a : atom) (c : ascii) : bool :=
  match a with
  | Digit => is_digit c
  | Lit l => Ascii.eqb c l
  end.

Fixpoint regex_test (pattern : list atom) (s : string) : bool :=
  match pattern, s with
  | [], EmptyString => true
  | a :: pattern', String c s' => atom_matches a c && regex_test pattern' s'
  | _, _ => false
  end.

(* ================================================================== *)
(** * ECMAScript: the Date object *)
(* ================================================================== *)

Definition msPerDay : Z := 86400000.

(** The host's local time zone adjustment, in milliseconds.  The embedding
    covers the hosts whose offset from UTC is constant, such as a host at
    UTC: on a host whose zone has transitions (daylight saving time, a change
    of the zone's rules) the offset depends on the time, and a local midnight
    can be skipped or repeated; such hosts are outside the embedding, and
    what is proved of local dates below is proved of constant offsets only.
    The offset is, as for every zone, shorter than a day. *)
Class HostEnvironment := {
  LocalTZA : Z;
  LocalTZA_bound : - msPerDay < LocalTZA < msPerDay
}.

Definition Day (t : Z) : Z := t / msPerDay.
Definition TimeWithinDay (t : Z) : Z := t mod msPerDay.

Definition is_leap_year (y : Z) : bool :=
  ((y mod 4 =? 0) && negb (y mod 100 =? 0)) || (y mod 400 =? 0).

Definition DaysInYear (y : Z) : Z := if is_leap_year y then 366 else 365.

Definition DayFromYear (y : Z) : Z :=
  365 * (y - 1970) + (y - 1969) / 4 - (y - 1901) / 100 + (y - 1601) / 400.

Definition TimeFromYear (y : Z) : Z := msPerDay * DayFromYear y.

(** The largest [y] with [TimeFromYear y <= t], found from the mean length of
    the Gregorian year and one step of correction
    (see [YearFromTime_spec]). *)
Definition YearFromTime (t : Z) : Z :=
  let d := Day t in
  let y := 1970 + (d * 400) / 146097 in
  if d <? DayFromYear y then y - 1
  else if DayFromYear (y + 1) <=? d then y + 1
  else y.

Definition InLeapYear (t : Z) : Z :=
  if is_leap_year (YearFromTime t) then 1 else 0.

Definition DayWithinYear (t : Z) : Z := Day t - DayFromYear (YearFromTime t).

Definition MonthFromTime (t : Z) : Z :=
  let d := DayWithinYear t in
  let l := InLeapYear t in
  if d <? 31 then 0
  else if d <? 59 + l then 1
  else if d <? 90 + l then 2
  else if d <? 120 + l then 3
  else if d <? 151 + l then 4
  else if d <? 181 + l then 5
  else if d <? 212 + l then 6
  else if d <? 243 + l then 7
  else if d <? 273 + l then 8
  else if d <? 304 + l then 9
  else if d <? 334 + l then 10
  else 11.

Definition DateFromTime (t : Z) : Z :=
  let d := DayWithinYear t in
  let l := InLeapYear t in
  match MonthFromTime t with
  | 0 => d + 1
  | 1 => d - 30
  | 2 => d - 58 - l
  | 3 => d - 89 - l
  | 4 => d - 119 - l
  | 5 => d - 150 - l
  | 6 => d - 180 - l
  | 7 => d - 211 - l
  | 8 => d - 242 - l
  | 9 => d - 272 - l
  | 10 => d - 303 - l
  | _ => d - 333 - l
  end.

(** Day number, within its year, of the first day of month [mn] (0-based). *)
Definition month_start (mn : Z) (leap : Z) : Z :=
  match mn with
  | 0 => 0
  | 1 => 31
  | 2 => 59 + leap
  | 3 => 90 + leap
  | 4 => 120 + leap
  | 5 => 151 + leap
  | 6 => 181 + leap
  | 7 => 212 + leap
  | 8 => 243 + leap
  | 9 => 273 + leap
  | 10 => 304 + leap
  | _ => 334 + leap
  end.

(** [MakeDay]: the day number of the first of month [month mod 12] of year
    [year + floor(month / 12)], plus [date - 1]. *)
Definition MakeDay (year month date : Z) : Z :=
  let ym := year + month / 12 in
  let mn := month mod 12 in
  DayFromYear ym + month_start mn (if is_leap_year ym then 1 else 0) + date - 1.

Definition MakeTime (hour min sec ms : Z) : Z :=
  hour * 3600000 + min * 60000 + sec * 1000 + ms.

Definition MakeDate (day time : Z) : Z := day * msPerDay + time.

Definition maxTimeValue : Z := 8640000000000000.

Definition TimeClip (t : Z) : number :=
  if maxTimeValue <? Z.abs t then NaN else Int t.

(** A Date object: its time value, in milliseconds since the epoch (UTC), or
    NaN for an invalid date. *)
Record Date := mkDate { getTime : number }.

Section HostDate.
Context {host : HostEnvironment}.

Definition LocalTime (t : Z) : Z := t + LocalTZA.
Definition UTC (t : Z) : Z := t - LocalTZA.

(** [new Date(value)] for a Number. *)
Definition Date_of_number (v : number) : Date :=
  match v with
  | NaN => mkDate NaN
  | Int t => mkDate (TimeClip t)
  end.

(** [new Date(year, monthIndex, day)]: local midnight of that day; a year
    from 0 to 99 stands for 1900 + year. *)
Definition Date_of_fields (year month date : number) : Date :=
  match year, month, date with
  | Int y, Int m, Int dt =>
      let yr := if (0 <=? y) && (y <=? 99) then 1900 + y else y in
      mkDate (TimeClip (UTC (MakeDate (MakeDay yr m dt) (MakeTime 0 0 0 0))))
  | _, _, _ => mkDate NaN
  end.

Definition local_field (f : Z -> Z) (d : Date) : number :=
  match getTime d with
  | NaN => NaN
  | Int t => Int (f (LocalTime t))
  end.

Definition getFullYear : Date -> number := local_field YearFromTime.
Definition getMonth : Date -> number := local_field MonthFromTime.
Definition getDate : Date -> number := local_field DateFromTime.

End HostDate.

Definition utc_host : HostEnvironment :=
  {| LocalTZA := 0; LocalTZA_bound := conj eq_refl eq_refl |}.

(** A host five and a half hours east of Greenwich. *)
Definition east_host : HostEnvironment :=
  {| LocalTZA := 19800000; LocalTZA_bound := conj eq_refl eq_refl |}.

(** A host eight hours west of Greenwich. *)
Definition west_host : HostEnvironment :=
  {| LocalTZA := -28800000; LocalTZA_bound := conj eq_refl eq_refl |}.

(* ================================================================== *)
(** * Run-time values *)
(* ================================================================== *)

(** [Timestamp] of firebase/firestore.  The embedding keeps whole
    milliseconds, which is all [Timestamp.fromDate] produces. *)
Record Timestamp := mkTimestamp { toMillis : Z }.

Inductive exn :=
  | TypeError (message : string)
  | FirestoreError (code : string)
  | Error (message : string).

(** The values a function of this program can be handed: primitives, Date
    and Timestamp instances, plain objects carrying data properties, and
    duck-typed objects whose only property is a [toDate] method, described
    by what a call to it does. *)
#[warnings="-register-all"]
Inductive value :=
  | VUndefined
  | VNull
  | VBoolean (b : bool)
  | VNumber (n : number)
  | VString (s : string)
  | VDate (d : Date)
  | VTimestamp (ts : Timestamp)
  | VObject (props : gmap string value)
  | VDuck (toDate : completion)
with completion :=
  | Throws (e : exn)
  | Returns (v : value).

Definition typeof (v : value) : string :=
  match v with
  | VUndefined => "undefined"
  | VBoolean _ => "boolean"
  | VNumber _ => "number"
  | VString _ => "string"
  | VNull | VDate _ | VTimestamp _ | VObject _ | VDuck _ => "object"
  end.

(** ToBoolean. *)
Definition truthy (v : value) : bool :=
  match v with
  | VUndefined | VNull => false
  | VBoolean b => b
  | VNumber NaN => false
  | VNumber (Int z) => negb (z =? 0)
  | VString s => negb (String.eqb s "")
  | VDate _ | VTimestamp _ | VObject _ | VDuck _ => true
  end.

(** [v == null]. *)
Definition is_nullish (v : value) : bool :=
  match v with
  | VUndefined | VNull => true
  | _ => false
  end.

(** Reading a data property ([v.key]) of a non-nullish value; used for the
    keys [text], [date] and [code], which only plain objects can carry. *)
Definition get (v : value) (key : string) : value :=
  match v with
  | VObject props => default VUndefined (props !! key)
  | _ => VUndefined
  end.

(** [key in v] for an object [v] and one of the keys above. *)
Definition has_property (v : value) (key : string) : bool :=
  match v with
  | VObject props => bool_decide (is_Some (props !! key))
  | _ => false
  end.

(** [Object.keys(v).length] for an object [v]. *)
Definition Object_keys_length (v : value) : nat :=
  match v with
  | VObject props => size props
  | VTimestamp _ => 2
  | VDuck _ => 1
  | _ => 0
  end.

Definition instanceof_Date (v : value) : bool :=
  match v with VDate _ => true | _ => false end.

Definition instanceof_Timestamp (v : value) : bool :=
  match v with VTimestamp _ => true | _ => false end.

(* ================================================================== *)
(** * The document database behind the Firestore client *)
(* ================================================================== *)

(** Stored field values (the scalar kinds). *)
Inductive fsvalue :=
  | FNull
  | FBoolean (b : bool)
  | FNumber (n : number)
  | FTimestamp (ts : Timestamp)
  | FString (s : string).

(** What [docSnap.data()] hands back for a stored field. *)
Definition fromFirestore (v : fsvalue) : value :=
  match v with
  | FNull => VNull
  | FBoolean b => VBoolean b
  | FNumber n => VNumber n
  | FTimestamp ts => VTimestamp ts
  | FString s => VString s
  end.

(** ** Paths

    A document lives at a path of segments, as in [users/u1/reminders/r1]: a
    path with an odd number of segments names a collection, a path with an
    even number the document, of the collection named by all but the last
    segment, whose identifier is the last segment.  [collection] and [doc]
    of the client build the path from the components they are given, and
    each component is cut at its slashes. *)

(** [path.indexOf('//') >= 0] *)
Fixpoint has_double_slash (path : string) : bool :=
  match path with
  | String c1 ((String c2 _) as rest) =>
      (Ascii.eqb c1 "/" && Ascii.eqb c2 "/") || has_double_slash rest
  | _ => false
  end.

(** [path.split('/').filter(segment => segment.length > 0)] *)
Definition path_segments (path : string) : list string :=
  List.filter (fun segment => negb (String.eqb segment "")) (split "/" path).

(** [ResourcePath.fromString(...pathComponents)]: the segments of the
    components, in order.  [None] stands for the [FirestoreError]
    (invalid-argument) thrown for a component with two slashes in a row. *)
Definition ResourcePath_fromString (pathComponents : list string) : option (list string) :=
  if existsb has_double_slash pathComponents then None
  else Some (flat_map path_segments pathComponents).

(** The path of [collection(db, ...pathComponents)], which must have an odd
    number of segments; [None] stands for the [FirestoreError]
    (invalid-argument) thrown otherwise. *)
Definition collection_path (pathComponents : list string) : option (list string) :=
  match ResourcePath_fromString pathComponents with
  | Some absolutePath =>
      if Nat.even (length absolutePath) then None else Some absolutePath
  | None => None
  end.

(** The collection and the identifier of [doc(db, ...pathComponents)],
    whose path must have an even number of segments; [None] stands for the
    [FirestoreError] (invalid-argument) thrown otherwise.  (The path is
    never empty here: the first component is the literal ['users'].) *)
Definition document_path (pathComponents : list string) : option (list string * string) :=
  match ResourcePath_fromString pathComponents with
  | Some absolutePath =>
      if Nat.even (length absolutePath) then
        match reverse absolutePath with
        | id :: parent => Some (reverse parent, id)
        | [] => None
        end
      else None
  | None => None
  end.

(** ** The store *)

(** A request sent to the database, for the collection at [collectionPath]
    or its document [id]. *)
Inductive request :=
  | AddDocTo (collectionPath : list string) (payload : gmap string fsvalue)
  | GetDocsOf (collectionPath : list string)
  | UpdateDocAt (collectionPath : list string) (id : string) (fields : gmap string fsvalue)
  | DeleteDocAt (collectionPath : list string) (id : string).

Inductive log_level := Warn | Err.

(** The state the program runs against: the documents, keyed by the path of
    their collection and then by document id; the requests sent so far; the
    console.  The database answers every request the client sends: an
    outage, a refusal by security rules or by the limits the server sets on
    identifiers are outside the embedding. *)
Record world := mkWorld {
  db : gmap (list string) (gmap string (gmap string fsvalue));
  requests : list request;
  console : list (log_level * string)
}.

Definition empty_world : world :=
  {| db := ∅; requests := []; console := [] |}.

(** How a computation ends. *)
Inductive outcome (A : Type) :=
  | Return (a : A)
  | Throw (e : exn).
Arguments Return {A} a.
Arguments Throw {A} e.

(** Computations: state passing over [world], with exceptions. *)
Definition M (A : Type) : Type := world -> outcome A * world.

Definition ret {A} (a : A) : M A := fun w => (Return a, w).

Definition throw {A} (e : exn) : M A := fun w => (Throw e, w).

Definition bind {A B} (m : M A) (k : A -> M B) : M B :=
  fun w =>
    match m w with
    | (Return a, w') => k a w'
    | (Throw e, w') => (Throw e, w')
    end.

Definition try_catch {A} (m : M A) (handler : exn -> M A) : M A :=
  fun w =>
    match m w with
    | (Return a, w') => (Return a, w')
    | (Throw e, w') => handler e w'
    end.

Notation "'let*' x ':=' m 'in' k" := (bind m (fun x => k))
  (at level 10, x name, m at level 100, k at level 200).
Notation "m ';;;' k" := (bind m (fun _ => k))
  (at level 100, k at level 200, right associativity).

Definition console_log (level : log_level) (message : string) : M unit :=
  fun w =>
    (Return tt,
     {| db := db w; requests := requests w;
        console := console w ++ [(level, message)] |}).

Definition console_warn : string -> M unit := console_log Warn.
Definition console_error : string -> M unit := console_log Err.

Definition send (r : request) : M unit :=
  fun w =>
    (Return tt,
     {| db := db w; requests := requests w ++ [r]; console := console w |}).

(** [collection(db, ...pathComponents)]: the reference to a collection,
    which is its path. *)
Definition collection (pathComponents : list string) : M (list string) :=
  match collection_path pathComponents with
  | Some absolutePath => ret absolutePath
  | None => throw (FirestoreError "invalid-argument")
  end.

(** [doc(db, ...pathComponents)]: the reference to a document, which is the
    path of its collection and its identifier. *)
Definition doc (pathComponents : list string) : M (list string * string) :=
  match document_path pathComponents with
  | Some key => ret key
  | None => throw (FirestoreError "invalid-argument")
  end.

Definition set_collection (collectionPath : list string)
    (c : gmap string (gmap string fsvalue)) : M unit :=
  fun w =>
    (Return tt,
     {| db := <[collectionPath := c]> (db w); requests := requests w;
        console := console w |}).

(** The documents of a collection, by identifier. *)
Definition documents (collectionPath : list string) : M (gmap string (gmap string fsvalue)) :=
  fun w => (Return (default ∅ (db w !! collectionPath)), w).

(** [addDoc]: the client picks an identifier unused in the collection. *)
Definition addDoc (reference : list string) (payload : gmap string fsvalue) : M string :=
  send (AddDocTo reference payload) ;;;
  let* c := documents reference in
  let id := fresh (dom c) in
  set_collection reference (<[id := payload]> c) ;;;
  ret id.

(** [updateDoc]: the given fields replace or extend those of an existing
    document; a missing document is an error. *)
Definition updateDoc (reference : list string * string) (fields : gmap string fsvalue)
    : M unit :=
  send (UpdateDocAt reference.1 reference.2 fields) ;;;
  let* c := documents reference.1 in
  match c !! reference.2 with
  | Some d => set_collection reference.1 (<[reference.2 := fields ∪ d]> c)
  | None => throw (FirestoreError "not-found")
  end.

(** [deleteDoc]: removing a missing document is not an error. *)
Definition deleteDoc (reference : list string * string) : M unit :=
  send (DeleteDocAt reference.1 reference.2) ;;;
  let* c := documents reference.1 in
  set_collection reference.1 (delete reference.2 c).

(** Firestore's order on field values: by kind first (null, booleans,
    numbers with NaN first, timestamps, strings), then within the kind. *)
Definition kind_rank (v : fsvalue) : Z :=
  match v with
  | FNull => 0
  | FBoolean _ => 1
  | FNumber _ => 2
  | FTimestamp _ => 3
  | FString _ => 4
  end.

Definition fs_leb (a b : fsvalue) : bool :=
  match a, b with
  | FBoolean x, FBoolean y => implb x y
  | FNumber NaN, FNumber _ => true
  | FNumber (Int _), FNumber NaN => false
  | FNumber (Int x), FNumber (Int y) => x <=? y
  | FTimestamp s, FTimestamp t => toMillis s <=? toMillis t
  | FString s, FString t => String.leb s t
  | _, _ => kind_rank a <=? kind_rank b
  end.

Definition date_field (d : gmap string fsvalue) : fsvalue :=
  default FNull (d !! "date").

(** The order of a query [orderBy('date', 'asc')]: by the [date] field, and
    by document id among equal dates. *)
Definition snapshot_leb (x y : string * gmap string fsvalue) : bool :=
  let a := date_field x.2 in
  let b := date_field y.2 in
  if fs_leb a b then (if fs_leb b a then String.leb x.1 y.1 else true) else false.

Definition snapshot_le (x y : string * gmap string fsvalue) : Prop :=
  Is_true (snapshot_leb x y).

(** [getDocs(query(collection, orderBy('date', 'asc')))]: the documents of
    the collection that have a [date] field, in the order of the query. *)
Definition getDocs_orderBy_date (reference : list string)
    : M (list (string * gmap string fsvalue)) :=
  send (GetDocsOf reference) ;;;
  let* c := documents reference in
  ret (merge_sort snapshot_le
         (filter (fun p => is_Some (p.2 !! "date")) (map_to_list c))).

Definition MIN_SECONDS : Z := -62135596800.
Definition MAX_SECONDS : Z := 253402300800.

(** [Timestamp.fromDate] on a date whose time value is [ms]: the
    constructor refuses seconds outside years 1 to 9999. *)
Definition Timestamp_fromMillis (ms : Z) : M Timestamp :=
  let seconds := ms / 1000 in
  if (seconds <? MIN_SECONDS) || (MAX_SECONDS <=? seconds)
  then throw (FirestoreError "invalid-argument")
  else ret (mkTimestamp ms).

Definition Timestamp_toDate (ts : Timestamp) : Date :=
  Date_of_number (Int (toMillis ts)).

(* ================================================================== *)
(** * src/utils/helpers.js *)
(* ================================================================== *)

Section Program.
Context {host : HostEnvironment}.

(** [typeof dateInput.toDate === 'function'], with what calling the method
    does: a Timestamp converts itself; a duck-typed object does whatever its
    method does. *)
Definition toDate_method (v : value) : option (M value) :=
  match v with
  | VTimestamp ts => Some (ret (VDate (Timestamp_toDate ts)))
  | VDuck (Returns r) => Some (ret r)
  | VDuck (Throws e) => Some (throw e)
  | _ => None
  end.

(** Step 6 of [formatDateForDisplay]: the three fields of a valid date. *)
Definition format_fields (dateObject : Date) : string :=
  let year := getFullYear dateObject in
  let month := padStart 2 "0" (Number_toString (number_add (getMonth dateObject) (Int 1))) in
  let day := padStart 2 "0" (Number_toString (getDate dateObject)) in
  Number_toString year +:+ "-" +:+ month +:+ "-" +:+ day.

(** Step 5 and 6: validate the resolved object, then format it. *)
Definition format_resolved (dateObject : value) : M string :=
  match dateObject with
  | VDate d =>
      if isNaN (getTime d) then
        console_warn "formatDateForDisplay: Input resolved to an invalid Date object." ;;;
        ret ""
      else
        try_catch (ret (format_fields d))
          (fun formatError =>
             console_error "formatDateForDisplay: Unexpected error during date formatting:" ;;;
             ret "")
  | _ =>
      console_warn "formatDateForDisplay: Input resolved to an invalid Date object." ;;;
      ret ""
  end.

Definition formatDateForDisplay (dateInput : value) : M string :=
  if is_nullish dateInput then ret ""
  else
    match toDate_method dateInput with
    | Some call_toDate =>
        let* resolved :=
          try_catch
            (let* dateObject := call_toDate in
             if negb (instanceof_Date dateObject) then
               console_warn "formatDateForDisplay: input.toDate() did not return a Date object." ;;;
               ret None
             else ret (Some dateObject))
            (fun error =>
               console_error "formatDateForDisplay: Error calling toDate() on input:" ;;;
               ret None) in
        match resolved with
        | Some dateObject => format_resolved dateObject
        | None => ret ""
        end
    | None =>
        if instanceof_Date dateInput then format_resolved dateInput
        else
          console_warn "formatDateForDisplay: Received invalid input type." ;;;
          ret ""
    end.

(* ================================================================== *)
(** * src/services/reminderService.js *)
(* ================================================================== *)

(** A reminder as [getReminders] returns it. *)
Record Reminder := mkReminder {
  id : string;
  text : value;
  date : Date
}.

(** Returns the validated string, which the callers go on to use. *)
Definition validateNonEmptyString (v : value) (argName : string) : M string :=
  match v with
  | VString s =>
      if String.eqb (trim s) "" then
        throw (TypeError (argName +:+ " must be a non-empty string."))
      else ret s
  | _ => throw (TypeError (argName +:+ " must be a non-empty string."))
  end.

Definition addReminder (userId reminderData : value) : M string :=
  try_catch
    (let* uid := validateNonEmptyString userId "userId" in
     if negb (truthy reminderData) || negb (String.eqb (typeof reminderData) "object") then
       throw (TypeError "reminderData must be an object.")
     else
       let* text := validateNonEmptyString (get reminderData "text") "reminderData.text" in
       match get reminderData "date" with
       | VDate d =>
           match getTime d with
           | NaN => throw (TypeError "reminderData.date must be a valid Date object.")
           | Int ms =>
               let* ts := Timestamp_fromMillis ms in
               let reminderPayload : gmap string fsvalue :=
                 <["text" := FString text]> (<["date" := FTimestamp ts]> ∅) in
               let* remindersColRef := collection ["users"; uid; "reminders"] in
               addDoc remindersColRef reminderPayload
           end
       | _ => throw (TypeError "reminderData.date must be a valid Date object.")
       end)
    (fun error =>
       match error with
       | TypeError message => console_error ("Validation Error in addReminder: " +:+ message)
       | _ => ret tt
       end ;;;
       throw error).

(** The body of the [forEach] callback of [getReminders], with the array
    under construction passed along. *)
Definition push_reminder (uid : string) (reminders : list Reminder)
    (docSnap : string * gmap string fsvalue) : M (list Reminder) :=
  let data := VObject (fromFirestore <$> docSnap.2) in
  let well_formed :=
    truthy (get data "text") && truthy (get data "date")
    && instanceof_Timestamp (get data "date") in
  match well_formed, get data "date" with
  | true, VTimestamp ts =>
      ret (reminders ++ [ {| id := docSnap.1; text := get data "text";
                             date := Timestamp_toDate ts |} ])%list
  | _, _ =>
      console_warn ("Reminder document " +:+ docSnap.1 +:+ " for user " +:+ uid
                    +:+ " has invalid structure or missing fields.") ;;;
      ret reminders
  end.

Fixpoint forEach_push (uid : string) (reminders : list Reminder)
    (snapshot : list (string * gmap string fsvalue)) : M (list Reminder) :=
  match snapshot with
  | [] => ret reminders
  | docSnap :: rest =>
      let* reminders' := push_reminder uid reminders docSnap in
      forEach_push uid reminders' rest
  end.

Definition getReminders (userId : value) : M (list Reminder) :=
  try_catch
    (let* uid := validateNonEmptyString userId "userId" in
     let* remindersColRef := collection ["users"; uid; "reminders"] in
     let* querySnapshot := getDocs_orderBy_date remindersColRef in
     forEach_push uid [] querySnapshot)
    (fun error =>
       match error with
       | TypeError message => console_error ("Validation Error in getReminders: " +:+ message)
       | _ => ret tt
       end ;;;
       throw error).

(** [updatedData.hasOwnProperty(key)]: the inherited method, unless the
    object carries a data property of that name, which is not callable. *)
Definition hasOwnProperty (v : value) (key : string) : M bool :=
  match v with
  | VObject props =>
      match props !! "hasOwnProperty" with
      | Some _ => throw (TypeError "updatedData.hasOwnProperty is not a function")
      | None => ret (bool_decide (is_Some (props !! key)))
      end
  | _ => ret false
  end.

Definition updateReminder (userId reminderId updatedData : value) : M unit :=
  try_catch
    (let* uid := validateNonEmptyString userId "userId" in
     let* rid := validateNonEmptyString reminderId "reminderId" in
     if negb (truthy updatedData) || negb (String.eqb (typeof updatedData) "object")
        || Nat.eqb (Object_keys_length updatedData) 0 then
       throw (TypeError "updatedData must be a non-empty object with fields to update.")
     else
       let dataToUpdate : gmap string fsvalue := ∅ in
       let* has_text := hasOwnProperty updatedData "text" in
       let* dataToUpdate :=
         if has_text then
           match get updatedData "text" with
           | VString s =>
               if String.eqb (trim s) "" then
                 throw (TypeError "updatedData.text, if provided, must be a non-empty string.")
               else ret (<["text" := FString s]> dataToUpdate)
           | _ => throw (TypeError "updatedData.text, if provided, must be a non-empty string.")
           end
         else ret dataToUpdate in
       let* has_date := hasOwnProperty updatedData "date" in
       let* dataToUpdate :=
         if has_date then
           match get updatedData "date" with
           | VDate d =>
               match getTime d with
               | NaN => throw (TypeError "updatedData.date, if provided, must be a valid Date object.")
               | Int ms =>
                   let* ts := Timestamp_fromMillis ms in
                   ret (<["date" := FTimestamp ts]> dataToUpdate)
               end
           | _ => throw (TypeError "updatedData.date, if provided, must be a valid Date object.")
           end
         else ret dataToUpdate in
       if Nat.eqb (size dataToUpdate) 0 then
         throw (TypeError "updatedData object did not contain any valid fields to update (text or date).")
       else
         let* reminderDocRef := doc ["users"; uid; "reminders"; rid] in
         updateDoc reminderDocRef dataToUpdate)
    (fun error =>
       match error with
       | TypeError message => console_error ("Validation Error in updateReminder: " +:+ message)
       | _ => ret tt
       end ;;;
       throw error).

Definition deleteReminder (userId reminderId : value) : M unit :=
  try_catch
    (let* uid := validateNonEmptyString userId "userId" in
     let* rid := validateNonEmptyString reminderId "reminderId" in
     let* reminderDocRef := doc ["users"; uid; "reminders"; rid] in
     deleteDoc reminderDocRef)
    (fun error =>
       match error with
       | TypeError message => console_error ("Validation Error in deleteReminder: " +:+ message)
       | _ => ret tt
       end ;;;
       throw error).

(* ================================================================== *)
(** * src/components/ReminderForm.jsx *)
(* ================================================================== *)

(** The [errors] object of the form: one optional message per field. *)
Record FormErrors := mkFormErrors {
  errors_text : option string;
  errors_date : option string
}.

(** What the form hands to [onSubmit]. *)
Record FormData := mkFormData {
  form_text : string;
  form_date : string
}.

(** [/^\d{4}-\d{2}-\d{2}$/] *)
Definition dateRegex : list atom :=
  [Digit; Digit; Digit; Digit; Lit "-"; Digit; Digit; Lit "-"; Digit; Digit].

(** [validate], as the [newErrors] object it builds from the form state. *)
Definition validate (text date : string) : FormErrors :=
  {| errors_text :=
       if String.eqb (trim text) "" then Some "Reminder text cannot be empty."
       else None;
     errors_date :=
       if String.eqb date "" then Some "Please select a date."
       else if negb (regex_test dateRegex date) then Some "Invalid date format selected."
       else None |}.

(** [Object.keys(newErrors).length === 0] *)
Definition no_errors (newErrors : FormErrors) : bool :=
  match errors_text newErrors, errors_date newErrors with
  | None, None => true
  | _, _ => false
  end.

(** [handleSubmit]: the errors shown, and what [onSubmit] answered when the
    form was valid. *)
Definition handleSubmit {R} (text date : string) (onSubmit : FormData -> M R)
    : M (FormErrors * option R) :=
  let newErrors := validate text date in
  if no_errors newErrors then
    let* r := onSubmit {| form_text := trim text; form_date := date |} in
    ret (newErrors, Some r)
  else ret (newErrors, None).

(* ================================================================== *)
(** * src/pages/DashboardPage.jsx *)
(* ================================================================== *)

(** How a submission ends for the user. *)
Inductive submit_result :=
  | AuthenticationError
  | InvalidFormData
  | InvalidDateFormat
  | ReminderAdded
  | ReminderUpdated
  | SaveFailed (errorMessage : string).

(** Lines 217-218: the display string back to a Date object (for a string
    made of digits and minus signs, see [Number_of_string]). *)
Definition parse_display_date (s : string) : Date :=
  let dateParts := map Number_of_string (split "-" s) in
  Date_of_fields (nth 0 dateParts NaN)
                 (number_sub (nth 1 dateParts NaN) (Int 1))
                 (nth 2 dateParts NaN).

(** [err.message].  Of an error of the Firestore client the embedding
    keeps the code only: the code stands here for the text of its message,
    which nothing below depends on. *)
Definition exn_message (e : exn) : string :=
  match e with
  | TypeError message => message
  | FirestoreError code => code
  | Error message => message
  end.

(** What a refresh leaves on the page: the [reminders] state or the page's
    [error] state. *)
Inductive fetch_result :=
  | NotAuthenticated
  | Fetched (fetchedReminders : list Reminder)
  | FetchFailed (errorMessage : string).

(** [fetchReminders]; [currentUser] is the uid of the signed-in user, if
    any. *)
Definition fetchReminders (currentUser : option string) : M fetch_result :=
  match currentUser with
  | None => ret NotAuthenticated
  | Some uid =>
      if String.eqb uid "" then ret NotAuthenticated
      else
        try_catch
          (let* fetchedReminders := getReminders (VString uid) in
           ret (Fetched fetchedReminders))
          (fun err =>
             console_error "Error fetching reminders:" ;;;
             ret (FetchFailed
                    (if String.eqb (exn_message err) ""
                     then "Failed to fetch reminders. Please try refreshing."
                     else exn_message err)))
  end.

(** [handleFormSubmit]; [currentUser] is the uid of the signed-in user, if
    any, and [selectedReminder] the reminder being edited, if any.  The
    refresh that follows a successful save is started without [await]; it is
    run here right after the save. *)
Definition handleFormSubmit (currentUser : option string)
    (selectedReminder : option Reminder) (formData : FormData) : M submit_result :=
  match currentUser with
  | None => ret AuthenticationError
  | Some uid =>
      if String.eqb uid "" then ret AuthenticationError
      else if String.eqb (form_text formData) "" || String.eqb (form_date formData) "" then
        ret InvalidFormData
      else
        let dateObject := parse_display_date (form_date formData) in
        if isNaN (getTime dateObject) then ret InvalidDateFormat
        else
          let dataForService :=
            VObject (<["text" := VString (form_text formData)]>
                       (<["date" := VDate dateObject]> ∅)) in
          try_catch
            (let* saved :=
               match selectedReminder with
               | Some reminder =>
                   if String.eqb (id reminder) "" then
                     throw (Error "Invalid reminder state: Missing ID for update.")
                   else
                     updateReminder (VString uid) (VString (id reminder)) dataForService ;;;
                     ret ReminderUpdated
               | None =>
                   addReminder (VString uid) dataForService ;;;
                   ret ReminderAdded
               end in
             fetchReminders currentUser ;;;
             ret saved)
            (fun err =>
               console_error "Error saving reminder:" ;;;
               let errorMessage :=
                 if String.eqb (exn_message err) "" then "Failed to save reminder. Please try again."
                 else exn_message err in
               ret (SaveFailed errorMessage))
  end.

(** The form as the dashboard mounts it:
    [<ReminderForm onSubmit={handleFormSubmit} ... />]. *)
Definition submit_form (currentUser : option string)
    (selectedReminder : option Reminder) (text date : string)
    : M (FormErrors * option submit_result) :=
  handleSubmit text date (handleFormSubmit currentUser selectedReminder).

(* ================================================================== *)
(** * src/contexts/AuthContext.jsx *)
(* ================================================================== *)

(** [error.code === literal] *)
Definition code_is (code : value) (literal : string) : bool :=
  match code with
  | VString c => String.eqb c literal
  | _ => false
  end.

Definition mapAuthErrorToMessage (error : value) : M string :=
  if truthy error && String.eqb (typeof error) "object" && has_property error "code" then
    let code := get error "code" in
    if code_is code "auth/invalid-credential"
       || code_is code "auth/user-not-found"
       || code_is code "auth/wrong-password" then
      ret "Invalid email or password. Please check your credentials and try again."
    else if code_is code "auth/too-many-requests" then
      ret "Access temporarily disabled due to too many failed login attempts. Please reset your password or try again later."
    else if code_is code "auth/network-request-failed" then
      ret "Network error. Please check your internet connection and try again."
    else if code_is code "auth/email-already-in-use" then
      ret "This email address is already associated with an account."
    else if code_is code "auth/weak-password" then
      ret "Password is too weak. Please choose a stronger password."
    else if code_is code "auth/invalid-email" then
      ret "Invalid email format. Please enter a valid email address."
    else
      console_error "Unhandled Firebase Auth Error:" ;;;
      ret "An unexpected authentication error occurred. Please try again later."
  else
    console_error "Generic Auth Error:" ;;;
    ret "An unexpected error occurred. Please try again.".

End Program.

(* ================================================================== *)
(** * Specification vocabulary *)
(* ================================================================== *)

(** A string that is one path segment: not empty and without a slash.  The
    identifiers that the authentication service gives to users and the
    database to documents are of this kind. *)
Definition single_segment (s : string) : bool :=
  negb (String.eqb s "") && string_forall (fun c => negb (Ascii.eqb c "/")) s.

(** The path of the collection that holds the reminders of [owner]. *)
Definition reminders_of (owner : string) : list string :=
  ["users"; owner; "reminders"].

(** The document [rid] of the collection at [collectionPath], if any. *)
Definition stored_at (w : world) (collectionPath : list string) (rid : string)
    : option (gmap string fsvalue) :=
  db w !! collectionPath ≫= fun c => c !! rid.

(** The stored document [users/{owner}/reminders/{rid}], if any, for an
    owner and a record identifier that are single path segments; no document
    goes by another name. *)
Definition stored (w : world) (owner rid : string) : option (gmap string fsvalue) :=
  if single_segment owner && single_segment rid
  then stored_at w (reminders_of owner) rid
  else None.

(** The requests of the service for the reminders of [owner]. *)
Definition AddDoc (owner : string) (payload : gmap string fsvalue) : request :=
  AddDocTo (reminders_of owner) payload.
Definition GetDocs (owner : string) : request :=
  GetDocsOf (reminders_of owner).
Definition UpdateDoc (owner rid : string) (fields : gmap string fsvalue) : request :=
  UpdateDocAt (reminders_of owner) rid fields.
Definition DeleteDoc (owner rid : string) : request :=
  DeleteDocAt (reminders_of owner) rid.

(** A computation that did no storage input or output: the documents and
    the list of requests sent are as before. *)
Definition no_storage_io (w w' : world) : Prop :=
  db w' = db w /\ requests w' = requests w.

(** A computation failed on its arguments (the [TypeError] the service
    throws is its InvalidArgument) before any storage access. *)
Definition fails_invalid_argument {A} (r : outcome A * world) (w : world) : Prop :=
  exists message w', r = (Throw (TypeError message), w') /\ no_storage_io w w'.

(** An argument that is not a string, or is a string that is empty once
    trimmed (the empty string included). *)
Definition not_non_empty_string (v : value) : Prop :=
  forall s, v = VString s -> trim s = "".

(** A value that resolves to a valid moment in time: a Date object whose
    time value is a number. *)
Definition valid_moment (v : value) : Prop :=
  exists ms, v = VDate (mkDate (Int ms)).

(** A property of every stored document, of every collection. *)
Definition every_document (P : gmap string fsvalue -> Prop) (w : world) : Prop :=
  forall collectionPath rid d, stored_at w collectionPath rid = Some d -> P d.

(** The stored-text invariant: every stored reminder has a [text] field
    that is a string, not empty and not made of white space only. *)
Definition stored_text_invariant (w : world) : Prop :=
  every_document
    (fun d => exists s, d !! "text" = Some (FString s) /\ trim s <> "") w.

(** Every stored timestamp is one the database can hold (years 1 to 9999). *)
Definition valid_timestamp (ts : Timestamp) : Prop :=
  MIN_SECONDS <= toMillis ts / 1000 < MAX_SECONDS.

Definition stored_timestamps_valid (w : world) : Prop :=
  every_document
    (fun d => forall k ts, d !! k = Some (FTimestamp ts) -> valid_timestamp ts) w.

(** A call to the reminder store client. *)
Inductive call :=
  | Create (userId reminderData : value)
  | List (userId : value)
  | Update (userId reminderId updatedData : value)
  | Delete (userId reminderId : value).

Definition run_call (c : call) (w : world) : world :=
  match c with
  | Create userId reminderData => (addReminder userId reminderData w).2
  | List userId => (getReminders userId w).2
  | Update userId reminderId updatedData => (updateReminder userId reminderId updatedData w).2
  | Delete userId reminderId => (deleteReminder userId reminderId w).2
  end.

Definition run_calls (cs : list call) (w : world) : world :=
  foldl (fun w c => run_call c w) w cs.

(** The provider codes of a failed sign-in that must not be told apart. *)
Definition credential_codes : list string :=
  ["auth/invalid-credential"; "auth/user-not-found"; "auth/wrong-password"].

(** A well-formed stored text: a string that is not empty. *)
Definition well_formed_text (v : option fsvalue) : Prop :=
  exists s, v = Some (FString s) /\ s <> "".

(** C4 as the specification words it: whatever List returns, a stored record
    whose [text] is missing or malformed is not in it. *)
Definition List_skips_malformed_text (w : world) (uid : string) : Prop :=
  forall reminders w',
    getReminders (VString uid) w = (Return reminders, w') ->
    forall rid d, stored w uid rid = Some d -> ~ well_formed_text (d !! "text") ->
    forall r, r ∈ reminders -> id r <> rid.

(** Two valid dates, the first not after the second. *)
Definition date_le (d1 d2 : Date) : Prop :=
  exists t1 t2, getTime d1 = Int t1 /\ getTime d2 = Int t2 /\ t1 <= t2.

(** A store holding, for one owner, a record whose [text] is a number and a
    well-formed record. *)
Definition corrupt_world : world :=
  {| db := {[["users"; "u1"; "reminders"] :=
                {["r1" := {["text" := FNumber (Int 42);
                            "date" := FTimestamp (mkTimestamp 1735689600000)]};
                  "r2" := {["text" := FString "Buy flowers";
                            "date" := FTimestamp (mkTimestamp 1735776000000)]}]}]};
     requests := []; console := [] |}.

(** ** Dates and display strings *)

(** A string made of decimal digits only. *)
Definition all_digits (s : string) : bool := string_forall is_digit s.

(** The month and day fields of the display string, for the number [n]. *)
Definition pad2 (n : Z) : string := padStart 2 "0" (Number_toString (Int n)).

(** The check run over 0..99: [pad2 n] is two digits that read back as [n]. *)
Definition pad2_ok (n : Z) : bool :=
  regex_test [Digit; Digit] (pad2 n)
  && all_digits (pad2 n)
  && match Number_of_string (pad2 n) with
     | Int m => m =? n
     | NaN => false
     end.

(** The check run over 1000..9999: the year prints as four digits. *)
Definition year4_ok (y : Z) : bool :=
  regex_test [Digit; Digit; Digit; Digit] (Number_toString (Int y)).

Definition digit_chars : list ascii :=
  ["0"; "1"; "2"; "3"; "4"; "5"; "6"; "7"; "8"; "9"]%char.

Definition digit_strings_2 : list string :=
  flat_map (fun c1 => map (fun c2 => String c1 (String c2 "")) digit_chars) digit_chars.

Definition digit_strings_4 : list string :=
  flat_map (fun c1 =>
    flat_map (fun c2 =>
      flat_map (fun c3 =>
        map (fun c4 => String c1 (String c2 (String c3 (String c4 "")))) digit_chars)
        digit_chars) digit_chars) digit_chars.

(** The check run over the strings above: [s] is digits only and [Number]
    reads it as a number from 0 to [bound]. *)
Definition number_within (bound : Z) (s : string) : bool :=
  all_digits s
  && match Number_of_string s with
     | Int n => (0 <=? n) && (n <=? bound)
     | NaN => false
     end.

(** The Date an input of [formatDateForDisplay] resolves to: itself for a
    Date, the result of [toDate] for a Timestamp and for a duck-typed object
    whose method returns a Date; nothing for null, undefined, another shape,
    a method that throws or one that returns something else. *)
Definition resolved_date (v : value) : option Date :=
  match v with
  | VDate d => Some d
  | VTimestamp ts => Some (Timestamp_toDate ts)
  | VDuck (Returns (VDate d)) => Some d
  | _ => None
  end.

(** Its time value, when it is a valid point in time. *)
Definition resolved_time (v : value) : option Z :=
  match resolved_date v with
  | Some d => match getTime d with Int t => Some t | NaN => None end
  | None => None
  end.

Section DateVocabulary.
Context {host : HostEnvironment}.

(** [s] displays the time value [t]: the local year in decimal, then the
    month and the day as two digits each, with minus signs between; the whole
    has the form of [dateRegex] when the year has four digits. *)
Definition display_of (t : Z) (s : string) : Prop :=
  exists mm dd,
    s = Number_toString (Int (YearFromTime (LocalTime t))) +:+ "-" +:+ mm +:+ "-" +:+ dd
    /\ regex_test [Digit; Digit] mm = true
    /\ Number_of_string mm = Int (MonthFromTime (LocalTime t) + 1)
    /\ regex_test [Digit; Digit] dd = true
    /\ Number_of_string dd = Int (DateFromTime (LocalTime t))
    /\ (1000 <= YearFromTime (LocalTime t) <= 9999 -> regex_test dateRegex s = true).

(** Two valid dates on the same local calendar day. *)
Definition same_calendar_day (d1 d2 : Date) : Prop :=
  exists t1 t2,
    getTime d1 = Int t1 /\ getTime d2 = Int t2
    /\ YearFromTime (LocalTime t1) = YearFromTime (LocalTime t2)
    /\ MonthFromTime (LocalTime t1) = MonthFromTime (LocalTime t2)
    /\ DateFromTime (LocalTime t1) = DateFromTime (LocalTime t2).

(** From a submitted display string to the date handed to the service: the
    date check of [validate] (which does not look at the text), then lines
    217-223 of [handleFormSubmit]. *)
Definition fromDisplayString (s : string) : option Date :=
  match errors_date (validate "" s) with
  | Some _ => None
  | None =>
      let dateObject := parse_display_date s in
      if isNaN (getTime dateObject) then None else Some dateObject
  end.

End DateVocabulary.

(** [wp m Q w]: running [m] from [w] ends in an outcome and a world that
    satisfy [Q]. *)
Definition wp {A} (m : M A) (Q : outcome A -> world -> Prop) (w : world) : Prop :=
  Q (m w).1 (m w).2.

(** The stored fields [updateReminder] derives from a patch with the
    properties [props]: nothing but [text] and [date], each present exactly
    when the patch has it, and then valid. *)
Definition written_fields (props : gmap string value) (fields : gmap string fsvalue) : Prop :=
  (forall k, k <> "text" -> k <> "date" -> fields !! k = None)
  /\ match props !! "text" with
     | None => fields !! "text" = None
     | Some v => exists s, v = VString s /\ trim s <> "" /\ fields !! "text" = Some (FString s)
     end
  /\ match props !! "date" with
     | None => fields !! "date" = None
     | Some v => exists ts, v = VDate (mkDate (Int (toMillis ts))) /\ valid_timestamp ts
                            /\ fields !! "date" = Some (FTimestamp ts)
     end.

(** What a call of [updateReminder] from [w] can end in. *)
Definition update_post (userId reminderId updatedData : value) (w : world)
    (r : outcome unit) (w' : world) : Prop :=
  match r with
  | Throw _ => db w' = db w
  | Return _ =>
      exists uid rid props fields d c i,
        userId = VString uid /\ reminderId = VString rid
        /\ updatedData = VObject props
        /\ trim uid <> "" /\ trim rid <> ""
        /\ document_path ["users"; uid; "reminders"; rid] = Some (c, i)
        /\ stored_at w c i = Some d
        /\ written_fields props fields
        /\ db w' = <[c := <[i := fields ∪ d]> (default ∅ (db w !! c))]> (db w)
        /\ requests w' = (requests w ++ [UpdateDocAt c i fields])%list
  end.

(** What a call of [addReminder] from [w] can end in. *)
Definition add_post (userId reminderData : value) (w : world)
    (r : outcome string) (w' : world) : Prop :=
  match r with
  | Throw e =>
      no_storage_io w w'
      /\ ((exists message, e = TypeError message)
          \/ (exists s ms, get reminderData "text" = VString s /\ trim s <> ""
                           /\ get reminderData "date" = VDate (mkDate (Int ms))))
  | Return rid =>
      exists uid s ms c,
        userId = VString uid /\ trim uid <> ""
        /\ get reminderData "text" = VString s /\ trim s <> ""
        /\ get reminderData "date" = VDate (mkDate (Int ms))
        /\ valid_timestamp (mkTimestamp ms)
        /\ collection_path ["users"; uid; "reminders"] = Some c
        /\ stored_at w c rid = None
        /\ let payload : gmap string fsvalue :=
             <["text" := FString s]> (<["date" := FTimestamp (mkTimestamp ms)]> ∅) in
           db w' = <[c := <[rid := payload]> (default ∅ (db w !! c))]> (db w)
           /\ requests w' = (requests w ++ [AddDocTo c payload])%list
  end.

(** What a call of [deleteReminder] from [w] can end in. *)
Definition delete_post (userId reminderId : value) (w : world)
    (r : outcome unit) (w' : world) : Prop :=
  match r with
  | Throw _ => no_storage_io w w'
  | Return _ =>
      exists uid rid c i,
        userId = VString uid /\ reminderId = VString rid
        /\ document_path ["users"; uid; "reminders"; rid] = Some (c, i)
        /\ db w' = <[c := delete i (default ∅ (db w !! c))]> (db w)
        /\ requests w' = (requests w ++ [DeleteDocAt c i])%list
  end.

(** The reminder [getReminders] makes of a document of the snapshot, if it
    keeps it: the pure content of [push_reminder]. *)
Definition to_reminder (docSnap : string * gmap string fsvalue) : option Reminder :=
  match docSnap.2 !! "text", docSnap.2 !! "date" with
  | Some t, Some (FTimestamp ts) =>
      if truthy (fromFirestore t) then
        Some {| id := docSnap.1; text := fromFirestore t; date := Timestamp_toDate ts |}
      else None
  | _, _ => None
  end.

(** The snapshot of the query of [getReminders] over a collection. *)
Definition query_snapshot (c : gmap string (gmap string fsvalue))
    : list (string * gmap string fsvalue) :=
  merge_sort snapshot_le (filter (fun p => is_Some (p.2 !! "date")) (map_to_list c)).

(** What a call of [getReminders] from [w] can end in. *)
Definition get_post (userId : value) (w : world)
    (r : outcome (list Reminder)) (w' : world) : Prop :=
  match r with
  | Throw _ =>
      no_storage_io w w'
      /\ (not_non_empty_string userId
          \/ exists uid, userId = VString uid
                         /\ collection_path ["users"; uid; "reminders"] = None)
  | Return reminders =>
      exists uid c,
        userId = VString uid /\ trim uid <> ""
        /\ collection_path ["users"; uid; "reminders"] = Some c
        /\ db w' = db w
        /\ requests w' = (requests w ++ [GetDocsOf c])%list
        /\ reminders = omap to_reminder (query_snapshot (default ∅ (db w !! c)))
  end.

(* ================================================================== *)
(** * src/components/ReminderForm.jsx: the date of the form *)
(* ================================================================== *)

Section FormDate.
Context {host : HostEnvironment}.

(** [formatDateToYYYYMMDD] *)
Definition formatDateToYYYYMMDD (dateObject : value) : string :=
  match dateObject with
  | VDate d => if isNaN (getTime d) then "" else format_fields d
  | _ => ""
  end.

(** What [Date.parse] makes of a string is for the most part left to the
    host by the standard; the form is embedded for any such function. *)
Variable Date_parse : string -> number.

(** The effect that fills the form from [initialData]: the [text] and the
    [date] it sets. *)
Definition populate (initialData : value) : M (value * string) :=
  if truthy initialData then
    let text :=
      if truthy (get initialData "text") then get initialData "text" else VString "" in
    let date := get initialData "date" in
    let* parsedDateObject :=
      if instanceof_Date date then ret date
      else
        match (if truthy date then toDate_method date else None) with
        | Some call_toDate =>
            try_catch call_toDate
              (fun e =>
                 console_error "Error converting Firestore Timestamp to Date:" ;;;
                 ret VNull)
        | None =>
            match date with
            | VString s =>
                let parsed := mkDate (Date_parse s) in
                if negb (isNaN (getTime parsed)) then ret (VDate parsed)
                else
                  console_warn ("Could not parse date string from initialData: " +:+ s) ;;;
                  ret VNull
            | _ => ret VNull
            end
        end in
    let formattedDate := formatDateToYYYYMMDD parsedDateObject in
    (if String.eqb formattedDate "" && truthy date
     then console_warn "Failed to format initial date:"
     else ret tt) ;;;
    ret (text, formattedDate)
  else ret (VString "", "").

End FormDate.

(* ================================================================== *)
(** * src/components/ReminderItem.jsx and the handlers of the dashboard *)
(* ================================================================== *)

Section Dashboard.
Context {host : HostEnvironment}.

(** [handleEditClick] of a reminder item: the [onEdit] callback is handed
    the identifier of the reminder. *)
Definition handleEditClick {R} (reminder : Reminder) (onEdit : value -> M R) : M R :=
  onEdit (VString (id reminder)).

(** How a request to open the editor ends: refused with an error toast, or
    the modal open on [selectedReminder]. *)
Inductive edit_modal :=
  | EditRefused
  | EditOpened (selectedReminder : value).

(** [handleOpenEditModal] *)
Definition handleOpenEditModal (reminder : value) : M edit_modal :=
  if negb (truthy reminder) || String.eqb (typeof (get reminder "id")) "undefined" then
    console_error "handleOpenEditModal called with invalid reminder:" ;;;
    ret EditRefused
  else ret (EditOpened reminder).

(** How a deletion ends for the user. *)
Inductive delete_result :=
  | DeleteAuthenticationError
  | DeleteInvalidReminder
  | ReminderDeleted
  | DeletionFailed (error toastDescription : string).

(** [handleDeleteReminder]; the refresh that follows a deletion is started
    without [await] and is run here right after it. *)
Definition handleDeleteReminder (currentUser : option string) (reminderId : string)
    : M delete_result :=
  match currentUser with
  | None => ret DeleteAuthenticationError
  | Some uid =>
      if String.eqb uid "" then ret DeleteAuthenticationError
      else if String.eqb reminderId "" then
        console_error "handleDeleteReminder called with invalid reminderId" ;;;
        ret DeleteInvalidReminder
      else
        try_catch
          (deleteReminder (VString uid) (VString reminderId) ;;;
           fetchReminders currentUser ;;;
           ret ReminderDeleted)
          (fun err =>
             console_error ("Error deleting reminder " +:+ reminderId +:+ ":") ;;;
             ret (DeletionFailed
                    (if String.eqb (exn_message err) ""
                     then "Failed to delete reminder. Please try again."
                     else exn_message err)
                    (if String.eqb (exn_message err) ""
                     then "Could not delete the reminder. Please try again."
                     else exn_message err)))
  end.

End Dashboard.

(* ================================================================== *)
(** * Vocabulary: calendar dates and their strings *)
(* ================================================================== *)

(** The number of days of month [m] (1 to 12) of year [y]. *)
Definition DaysInMonth (y m : Z) : Z :=
  match m with
  | 2 => if is_leap_year y then 29 else 28
  | 4 | 6 | 9 | 11 => 30
  | _ => 31
  end.

(** The year field of a four-digit date string. *)
Definition pad4 (y : Z) : string := padStart 4 "0" (Number_toString (Int y)).

(** The check run over 0..999, where padding is needed: [pad4 y] is four
    digits that read back as [y]. *)
Definition pad4_ok (y : Z) : bool :=
  regex_test [Digit; Digit; Digit; Digit] (pad4 y)
  && all_digits (pad4 y)
  && match Number_of_string (pad4 y) with
     | Int n => n =? y
     | NaN => false
     end.

(** The zero-padded YYYY-MM-DD string of year [y], month [m] (1 to 12) and
    day [d]. *)
Definition date_string (y m d : Z) : string :=
  pad4 y +:+ "-" +:+ pad2 m +:+ "-" +:+ pad2 d.

(* ================================================================== *)
(** * src/services/authService.js, the provider of
      src/contexts/AuthContext.jsx and src/pages/LoginPage.jsx *)
(* ================================================================== *)

(** How a promise of the authentication layer settles; a rejection carries
    the error object. *)
Inductive settled (A : Type) :=
  | Fulfilled (a : A)
  | Rejected (reason : value).
Arguments Fulfilled {A} a.
Arguments Rejected {A} reason.

(** [new TypeError(message)], as the data an error handler can look at:
    its [name] and [message], and no [code]. *)
Definition TypeError_object (message : string) : value :=
  VObject (<["name" := VString "TypeError"]> (<["message" := VString message]> ∅)).

(** The state the provider keeps: [currentUser], [loading] and [error]. *)
Record AuthState := mkAuthState {
  auth_currentUser : value;
  auth_loading : bool;
  auth_error : option string
}.

Section Auth.

(** What the authentication backend answers to a sign-in with an email and
    a password, and to a sign-out.  The embedding covers any backend. *)
Variable signInWithEmailAndPassword : string -> string -> settled value.
Variable signOut : settled unit.

(** [loginUser] *)
Definition loginUser (email password : value) : settled value :=
  match email with
  | VString e =>
      if String.eqb (trim e) "" then
        Rejected (TypeError_object "Email must be a non-empty string.")
      else
        match password with
        | VString p =>
            if String.eqb (trim p) "" then
              Rejected (TypeError_object "Password must be a non-empty string.")
            else signInWithEmailAndPassword e p
        | _ => Rejected (TypeError_object "Password must be a non-empty string.")
        end
  | _ => Rejected (TypeError_object "Email must be a non-empty string.")
  end.

(** [logoutUser] *)
Definition logoutUser : settled unit := signOut.

(** [login] of the provider: the state it leaves.  The current user is set
    by the listener of [onAuthStateChanged], not here. *)
Definition login (email password : value) (state : AuthState) : M AuthState :=
  match loginUser email password with
  | Fulfilled _ =>
      ret {| auth_currentUser := auth_currentUser state;
             auth_loading := false; auth_error := None |}
  | Rejected err =>
      let* friendlyError := mapAuthErrorToMessage err in
      ret {| auth_currentUser := auth_currentUser state;
             auth_loading := false; auth_error := Some friendlyError |}
  end.

(** [logout] of the provider. *)
Definition logout (state : AuthState) : M AuthState :=
  match logoutUser with
  | Fulfilled _ =>
      ret {| auth_currentUser := auth_currentUser state;
             auth_loading := false; auth_error := None |}
  | Rejected err =>
      console_error "Logout failed:" ;;;
      ret {| auth_currentUser := auth_currentUser state;
             auth_loading := false;
             auth_error := Some "Logout failed. Please try again." |}
  end.

(** The errors the login page shows under its two fields. *)
Record LoginErrors := mkLoginErrors {
  emailError : string;
  passwordError : string
}.

(** [handleSubmit] of the login page, on the [email] and [password] typed:
    the field errors it sets and the state of the provider afterwards. *)
Definition LoginPage_handleSubmit (email password : string) (state : AuthState)
    : M (LoginErrors * AuthState) :=
  let errors :=
    {| emailError := if String.eqb (trim email) "" then "Email is required." else "";
       passwordError :=
         if String.eqb (trim password) "" then "Password is required." else "" |} in
  let isValid := negb (String.eqb (trim email) "") && negb (String.eqb (trim password) "") in
  if negb isValid then ret (errors, state)
  else
    try_catch
      (let* state' := login (VString email) (VString password) state in
       ret (errors, state'))
      (fun err =>
         console_error "Login attempt failed in LoginPage handler:" ;;;
         ret (errors, state)).

End Auth.

(** The messages [mapAuthErrorToMessage] can return. *)
Definition auth_messages : list string :=
  ["Invalid email or password. Please check your credentials and try again.";
   "Access temporarily disabled due to too many failed login attempts. Please reset your password or try again later.";
   "Network error. Please check your internet connection and try again.";
   "This email address is already associated with an account.";
   "Password is too weak. Please choose a stronger password.";
   "Invalid email format. Please enter a valid email address.";
   "An unexpected authentication error occurred. Please try again later.";
   "An unexpected error occurred. Please try again."].

(** The codes [mapAuthErrorToMessage] knows. *)
Definition known_auth_codes : list string :=
  ["auth/invalid-credential"; "auth/user-not-found"; "auth/wrong-password";
   "auth/too-many-requests"; "auth/network-request-failed";
   "auth/email-already-in-use"; "auth/weak-password"; "auth/invalid-email"].

(* ================================================================== *)
(** * Vocabulary: the service, its callers and the console *)
(* ================================================================== *)


(** A document as the service writes it: a [text] that is a string, not
    blank, and a [date] that is a timestamp the database can hold. *)
Definition written_by_service (d : gmap string fsvalue) : Prop :=
  (exists s, d !! "text" = Some (FString s) /\ trim s <> "")
  /\ (exists ts, d !! "date" = Some (FTimestamp ts) /\ valid_timestamp ts).

(** What a failed call of the function [fname] of the service has added to
    the console: one error line for an InvalidArgument failure, nothing for
    an error of the database. *)
Definition logged_failure (fname : string) (e : exn) : list (log_level * string) :=
  match e with
  | TypeError message => [(Err, "Validation Error in " +:+ fname +:+ ": " +:+ message)]
  | _ => []
  end.

(** The console after a call of the function [fname] from [w]. *)
Definition console_post {A} (fname : string) (quiet : bool) (w : world)
    (r : outcome A) (w' : world) : Prop :=
  match r with
  | Return _ => if quiet then console w' = console w else True
  | Throw e => console w' = (console w ++ logged_failure fname e)%list
  end.

(** A string that is empty or starts with something other than white
    space. *)
Definition starts_clean (s : string) : Prop :=
  match s with
  | EmptyString => True
  | String c _ => is_white_space c = false
  end.

(* ================================================================== *)
(** * The computation monad *)
(* ================================================================== *)

Lemma bind_Return {A B} (m : M A) (k : A -> M B) w a w' :
  m w = (Return a, w') -> bind m k w = k a w'.
Proof. unfold bind. intros ->. reflexivity. Qed.

Lemma bind_Throw {A B} (m : M A) (k : A -> M B) w e w' :
  m w = (Throw e, w') -> bind m k w = (Throw e, w').
Proof. unfold bind. intros ->. reflexivity. Qed.

Lemma try_catch_Return {A} (m : M A) h w a w' :
  m w = (Return a, w') -> try_catch m h w = (Return a, w').
Proof. unfold try_catch. intros ->. reflexivity. Qed.

Lemma try_catch_Throw {A} (m : M A) h w e w' :
  m w = (Throw e, w') -> try_catch m h w = h e w'.
Proof. unfold try_catch. intros ->. reflexivity. Qed.

Lemma no_storage_io_refl w : no_storage_io w w.
Proof. split; reflexivity. Qed.

Lemma no_storage_io_trans w1 w2 w3 :
  no_storage_io w1 w2 -> no_storage_io w2 w3 -> no_storage_io w1 w3.
Proof. intros [? ?] [? ?]. split; congruence. Qed.

Lemma console_log_no_io level message w :
  exists w', console_log level message w = (Return tt, w') /\ no_storage_io w w'.
Proof. eexists. split; [reflexivity|]. split; reflexivity. Qed.

(** The [catch] block of the four service functions: a [TypeError] is
    logged and thrown again. *)
Lemma rethrow_TypeError {A} (m : M A) (fname message : string) w w1 :
  m w = (Throw (TypeError message), w1) -> no_storage_io w w1 ->
  fails_invalid_argument
    (try_catch m
       (fun error =>
          match error with
          | TypeError message => console_error (fname +:+ message)
          | _ => ret tt
          end ;;;
          throw error) w) w.
Proof.
  intros Hm Hio. rewrite (try_catch_Throw _ _ _ _ _ Hm).
  exists message. eexists. split; [reflexivity|].
  destruct Hio as [Hdb Hreq]. split; simpl; assumption.
Qed.

(* ================================================================== *)
(** * [validateNonEmptyString] *)
(* ================================================================== *)

Lemma validateNonEmptyString_ok s argName w :
  trim s <> "" -> validateNonEmptyString (VString s) argName w = (Return s, w).
Proof.
  intros H. unfold validateNonEmptyString.
  destruct (String.eqb_spec (trim s) ""); [contradiction|reflexivity].
Qed.

Lemma validateNonEmptyString_fail v argName w :
  not_non_empty_string v ->
  validateNonEmptyString v argName w
  = (Throw (TypeError (argName +:+ " must be a non-empty string.")), w).
Proof.
  intros H. unfold validateNonEmptyString.
  destruct v; try reflexivity.
  rewrite (H s eq_refl). reflexivity.
Qed.

Lemma validateNonEmptyString_cases v argName w :
  (exists s, v = VString s /\ trim s <> ""
             /\ validateNonEmptyString v argName w = (Return s, w))
  \/ (not_non_empty_string v
      /\ validateNonEmptyString v argName w
         = (Throw (TypeError (argName +:+ " must be a non-empty string.")), w)).
Proof.
  destruct v; try (right; split; [intros ? [=]|reflexivity]).
  destruct (String.eqb_spec (trim s) "") as [E|E].
  - right. split.
    + intros s' [= <-]. exact E.
    + apply validateNonEmptyString_fail. intros s' [= <-]. exact E.
  - left. exists s. split; [reflexivity|]. split; [exact E|].
    apply validateNonEmptyString_ok, E.
Qed.

(* ================================================================== *)
(** * Reasoning rules for computations *)
(* ================================================================== *)

Lemma wp_ret {A} (a : A) Q w : Q (Return a) w -> wp (ret a) Q w.
Proof. exact (fun H => H). Qed.

Lemma wp_throw {A} (e : exn) (Q : outcome A -> world -> Prop) w :
  Q (Throw e) w -> wp (throw e) Q w.
Proof. exact (fun H => H). Qed.

Lemma wp_bind {A B} (m : M A) (k : A -> M B) Q w :
  wp m (fun r w1 => match r with
                    | Return a => wp (k a) Q w1
                    | Throw e => Q (Throw e) w1
                    end) w ->
  wp (bind m k) Q w.
Proof. unfold wp, bind. destruct (m w) as [[a|e] w1]; exact (fun H => H). Qed.

Lemma wp_try_catch {A} (m : M A) (h : exn -> M A) Q w :
  wp m (fun r w1 => match r with
                    | Return a => Q (Return a) w1
                    | Throw e => wp (h e) Q w1
                    end) w ->
  wp (try_catch m h) Q w.
Proof. unfold wp, try_catch. destruct (m w) as [[a|e] w1]; exact (fun H => H). Qed.

Lemma wp_mono {A} (m : M A) (Q Q' : outcome A -> world -> Prop) w :
  wp m Q w -> (forall r w1, Q r w1 -> Q' r w1) -> wp m Q' w.
Proof. unfold wp. intros H HQ. apply HQ, H. Qed.

Lemma wp_run {A} (m : M A) Q w r w' : wp m Q w -> m w = (r, w') -> Q r w'.
Proof. unfold wp. intros H E. rewrite E in H. exact H. Qed.

Lemma wp_console_log level message Q w :
  Q (Return tt) {| db := db w; requests := requests w;
                   console := console w ++ [(level, message)] |} ->
  wp (console_log level message) Q w.
Proof. exact (fun H => H). Qed.

(** The [catch] block of a service function, entered with [e]. *)
Ltac wp_handler :=
  apply wp_bind;
  first [apply wp_console_log | apply wp_ret];
  apply wp_throw.

Lemma wp_validateNonEmptyString v argName Q w :
  (forall s, v = VString s -> trim s <> "" -> Q (Return s) w) ->
  (not_non_empty_string v ->
   Q (Throw (TypeError (argName +:+ " must be a non-empty string."))) w) ->
  wp (validateNonEmptyString v argName) Q w.
Proof.
  intros Hok Hfail. unfold wp.
  destruct (validateNonEmptyString_cases v argName w)
    as [(s & Hv & Hs & ->)|[Hn ->]]; simpl; auto.
Qed.

Lemma wp_Timestamp_fromMillis ms Q w :
  (valid_timestamp (mkTimestamp ms) -> Q (Return (mkTimestamp ms)) w) ->
  Q (Throw (FirestoreError "invalid-argument")) w ->
  wp (Timestamp_fromMillis ms) Q w.
Proof.
  intros Hok Hfail. unfold wp, Timestamp_fromMillis.
  destruct (_ || _) eqn:E; [exact Hfail|].
  apply Hok. apply orb_false_iff in E as [E1 E2].
  unfold valid_timestamp. cbn. lia.
Qed.

(* ================================================================== *)
(** * Paths *)
(* ================================================================== *)

Lemma split_without_slash s :
  string_forall (fun c => negb (Ascii.eqb c "/")) s = true -> split "/" s = [s].
Proof.
  induction s as [|c s IH]; [reflexivity|]. cbn. intros H.
  apply andb_true_iff in H as [Hc Hs]. apply negb_true_iff in Hc.
  rewrite Hc, (IH Hs). reflexivity.
Qed.

Lemma has_double_slash_without_slash s :
  string_forall (fun c => negb (Ascii.eqb c "/")) s = true -> has_double_slash s = false.
Proof.
  induction s as [|c s IH]; [reflexivity|]. cbn [string_forall]. intros H.
  apply andb_true_iff in H as [Hc Hs]. apply negb_true_iff in Hc.
  destruct s as [|c' s]; [reflexivity|].
  cbn [has_double_slash]. rewrite Hc. cbn [andb orb]. apply IH, Hs.
Qed.

(** A component that is a single segment is the one segment of its path. *)
Lemma single_segment_path s :
  single_segment s = true -> has_double_slash s = false /\ path_segments s = [s].
Proof.
  unfold single_segment. intros H. apply andb_true_iff in H as [Hne Hs].
  split; [apply has_double_slash_without_slash, Hs|].
  unfold path_segments. rewrite (split_without_slash s Hs). cbn [List.filter].
  rewrite Hne. reflexivity.
Qed.

Lemma single_segment_not_empty s : single_segment s = true -> s <> "".
Proof. intros H ->. discriminate H. Qed.

Lemma ResourcePath_of_segments (l : list string) :
  Forall (fun s => single_segment s = true) l -> ResourcePath_fromString l = Some l.
Proof.
  intros Hl. unfold ResourcePath_fromString.
  assert (H : existsb has_double_slash l = false /\ flat_map path_segments l = l).
  { induction Hl as [|s l Hs _ [IH1 IH2]]; [split; reflexivity|].
    destruct (single_segment_path s Hs) as [H1 H2].
    cbn [existsb flat_map]. rewrite H1, H2, IH1, IH2. split; reflexivity. }
  destruct H as [-> ->]. reflexivity.
Qed.

Lemma collection_path_reminders uid :
  single_segment uid = true ->
  collection_path ["users"; uid; "reminders"] = Some (reminders_of uid).
Proof.
  intros Huid. unfold collection_path.
  rewrite ResourcePath_of_segments by (repeat constructor; assumption).
  reflexivity.
Qed.

Lemma document_path_reminder uid rid :
  single_segment uid = true -> single_segment rid = true ->
  document_path ["users"; uid; "reminders"; rid] = Some (reminders_of uid, rid).
Proof.
  intros Huid Hrid. unfold document_path.
  rewrite ResourcePath_of_segments by (repeat constructor; assumption).
  reflexivity.
Qed.

Lemma reminders_of_inj o1 o2 : reminders_of o1 = reminders_of o2 -> o1 = o2.
Proof. intros [= ->]. reflexivity. Qed.


(** The client accepts the path of a reminder only when the segments of the
    two identifiers number even in total. *)
Lemma document_path_parity uid rid key :
  document_path ["users"; uid; "reminders"; rid] = Some key ->
  Nat.even (length (path_segments uid) + length (path_segments rid)) = true.
Proof.
  unfold document_path, ResourcePath_fromString.
  destruct (existsb has_double_slash _); [discriminate|].
  cbn [flat_map]. change (path_segments "users") with ["users"].
  change (path_segments "reminders") with ["reminders"]. rewrite app_nil_r.
  cbn [app length]. rewrite length_app. cbn [length].
  rewrite Nat.add_succ_r, Nat.even_succ_succ.
  destruct (Nat.even _); [reflexivity|discriminate].
Qed.

(** The identifier [addDoc] picks is a single segment. *)
Lemma search_infinite_pretty (xs : list string) (n : nat) acc :
  exists k : nat,
    @Fix_F nat _ (fun _ => string) (search_infinite_go pretty xs) n acc = pretty k.
Proof.
  revert n acc. fix FIX 2. intros n [acc]. cbn. unfold search_infinite_go at 1.
  destruct (decide _); [apply FIX | eexists; reflexivity].
Qed.

Lemma pretty_N_go_segment x s :
  single_segment s = true -> single_segment (pretty_N_go x s) = true.
Proof.
  revert s. induction (N.lt_wf_0 x) as [x _ IH]; intros s Hs.
  assert (x = 0 \/ 0 < x)%N as [->|Hx] by lia.
  - rewrite pretty_N_go_0. exact Hs.
  - rewrite pretty_N_go_step by exact Hx. apply IH.
    + apply N.div_lt; lia.
    + unfold single_segment in *. cbn. apply andb_true_iff in Hs as [_ Hs]. rewrite Hs.
      unfold pretty_N_char. repeat case_match; reflexivity.
Qed.

Lemma pretty_nat_segment (n : nat) : single_segment (pretty n) = true.
Proof.
  unfold pretty, pretty_nat, pretty, pretty_N.
  destruct (decide (N.of_nat n = 0%N)) as [_|Hn]; [reflexivity|].
  rewrite pretty_N_go_step by lia. apply pretty_N_go_segment.
  unfold single_segment. cbn. unfold pretty_N_char. repeat case_match; reflexivity.
Qed.

Lemma fresh_single_segment (X : gset string) : single_segment (fresh X) = true.
Proof.
  destruct (search_infinite_pretty (elements X) 0%nat
              (wf_guard 32 (search_infinite_R_wf pretty (elements X)) 0%nat)) as [n Hn].
  change (fresh X) with
    (Fix_F (fun _ => string) (search_infinite_go pretty (elements X))
       (wf_guard 32 (search_infinite_R_wf pretty (elements X)) 0%nat)).
  rewrite Hn. apply pretty_nat_segment.
Qed.

Lemma wp_collection pathComponents (Q : outcome (list string) -> world -> Prop) w :
  match collection_path pathComponents with
  | Some c => Q (Return c) w
  | None => Q (Throw (FirestoreError "invalid-argument")) w
  end ->
  wp (collection pathComponents) Q w.
Proof. unfold wp, collection. destruct (collection_path _); exact (fun H => H). Qed.

Lemma wp_doc pathComponents (Q : outcome (list string * string) -> world -> Prop) w :
  match document_path pathComponents with
  | Some key => Q (Return key) w
  | None => Q (Throw (FirestoreError "invalid-argument")) w
  end ->
  wp (doc pathComponents) Q w.
Proof. unfold wp, doc. destruct (document_path _); exact (fun H => H). Qed.

(* ================================================================== *)
(** * The database operations *)
(* ================================================================== *)

Lemma stored_at_collection w c rid :
  default ∅ (db w !! c) !! rid = stored_at w c rid.
Proof.
  unfold stored_at. destruct (db w !! c); simpl; [reflexivity|apply lookup_empty].
Qed.

(** Reading back after one collection of the database was replaced. *)
Lemma stored_at_set_collection (w w' : world) c col o i :
  db w' = <[c := col]> (db w) ->
  stored_at w' o i = if decide (o = c) then col !! i else stored_at w o i.
Proof.
  intros Hdb. unfold stored_at. rewrite Hdb.
  destruct (decide (o = c)) as [->|Hne].
  - rewrite lookup_insert_eq. reflexivity.
  - rewrite lookup_insert_ne by congruence. reflexivity.
Qed.

(** A document that goes by the names [owner] and [rid]. *)
Lemma stored_names w owner rid :
  single_segment owner = true -> single_segment rid = true ->
  stored w owner rid = stored_at w (reminders_of owner) rid.
Proof. unfold stored. intros -> ->. reflexivity. Qed.

Lemma stored_Some w owner rid d :
  stored w owner rid = Some d ->
  single_segment owner = true /\ single_segment rid = true
  /\ stored_at w (reminders_of owner) rid = Some d.
Proof.
  unfold stored. destruct (single_segment owner); [|discriminate].
  destruct (single_segment rid); [|discriminate]. auto.
Qed.

(** Reading by name after one document was written. *)
Lemma stored_insert (w w' : world) owner rid d o i :
  db w' = <[reminders_of owner := <[rid := d]> (default ∅ (db w !! reminders_of owner))]> (db w) ->
  single_segment owner = true -> single_segment rid = true ->
  stored w' o i = if decide ((o, i) = (owner, rid)) then Some d else stored w o i.
Proof.
  intros Hdb Ho Hr. unfold stored.
  rewrite (stored_at_set_collection _ _ _ _ _ _ Hdb).
  destruct (decide ((o, i) = (owner, rid))) as [[= -> ->]|Hne].
  - rewrite Ho, Hr, decide_True by reflexivity. apply lookup_insert_eq.
  - destruct (single_segment o && single_segment i); [|reflexivity].
    destruct (decide (reminders_of o = reminders_of owner)) as [E|_]; [|reflexivity].
    apply reminders_of_inj in E as ->.
    rewrite lookup_insert_ne, stored_at_collection by congruence. reflexivity.
Qed.

(** Reading by name after one document was deleted. *)
Lemma stored_delete (w w' : world) owner rid o i :
  db w' = <[reminders_of owner := delete rid (default ∅ (db w !! reminders_of owner))]> (db w) ->
  stored w' o i = if decide ((o, i) = (owner, rid)) then None else stored w o i.
Proof.
  intros Hdb. unfold stored.
  rewrite (stored_at_set_collection _ _ _ _ _ _ Hdb).
  destruct (decide ((o, i) = (owner, rid))) as [[= -> ->]|Hne].
  - rewrite decide_True by reflexivity. rewrite lookup_delete_eq.
    destruct (_ && _); reflexivity.
  - destruct (single_segment o && single_segment i); [|reflexivity].
    destruct (decide (reminders_of o = reminders_of owner)) as [E|_]; [|reflexivity].
    apply reminders_of_inj in E as ->.
    rewrite lookup_delete_ne, stored_at_collection by congruence. reflexivity.
Qed.

Lemma wp_addDoc c payload Q w :
  (forall rid, stored_at w c rid = None -> single_segment rid = true ->
     Q (Return rid)
       {| db := <[c := <[rid := payload]> (default ∅ (db w !! c))]> (db w);
          requests := (requests w ++ [AddDocTo c payload])%list;
          console := console w |}) ->
  wp (addDoc c payload) Q w.
Proof.
  intros H. unfold wp, addDoc, bind, send, documents, set_collection, ret. cbn.
  apply H; [|apply fresh_single_segment]. rewrite <- stored_at_collection. cbn.
  apply not_elem_of_dom, is_fresh.
Qed.

Lemma wp_updateDoc c rid fields Q w :
  match stored_at w c rid with
  | Some d =>
      Q (Return tt)
        {| db := <[c := <[rid := fields ∪ d]> (default ∅ (db w !! c))]> (db w);
           requests := (requests w ++ [UpdateDocAt c rid fields])%list;
           console := console w |}
  | None =>
      Q (Throw (FirestoreError "not-found"))
        {| db := db w;
           requests := (requests w ++ [UpdateDocAt c rid fields])%list;
           console := console w |}
  end ->
  wp (updateDoc (c, rid) fields) Q w.
Proof.
  unfold wp, updateDoc, bind, send, documents, set_collection, throw. cbn.
  rewrite stored_at_collection. destruct (stored_at w c rid); exact (fun H => H).
Qed.

Lemma wp_deleteDoc c rid Q w :
  Q (Return tt)
    {| db := <[c := delete rid (default ∅ (db w !! c))]> (db w);
       requests := (requests w ++ [DeleteDocAt c rid])%list;
       console := console w |} ->
  wp (deleteDoc (c, rid)) Q w.
Proof. exact (fun H => H). Qed.

Lemma wp_getDocs_orderBy_date c Q w :
  Q (Return (query_snapshot (default ∅ (db w !! c))))
    {| db := db w; requests := (requests w ++ [GetDocsOf c])%list;
       console := console w |} ->
  wp (getDocs_orderBy_date c) Q w.
Proof. exact (fun H => H). Qed.

(* ================================================================== *)
(** * What each service function does to the world *)
(* ================================================================== *)

Lemma bool_decide_is_Some {A} (o : option A) :
  bool_decide (is_Some o) = match o with Some _ => true | None => false end.
Proof.
  destruct o.
  - apply bool_decide_eq_true_2. eexists. reflexivity.
  - apply bool_decide_eq_false_2. intros [x [=]].
Qed.

Lemma wp_hasOwnProperty_object props key Q w :
  props !! "hasOwnProperty" = None ->
  Q (Return (match props !! key with Some _ => true | None => false end)) w ->
  wp (hasOwnProperty (VObject props) key) Q w.
Proof.
  intros Hown HQ. unfold wp, hasOwnProperty. rewrite Hown, bool_decide_is_Some.
  exact HQ.
Qed.

Lemma size_insert_nonzero (k : string) (v : fsvalue) (m : gmap string fsvalue) :
  (size (<[k := v]> m) =? 0)%nat = false.
Proof.
  apply Nat.eqb_neq. intros H. apply map_size_empty_iff in H.
  exact (insert_non_empty _ _ _ H).
Qed.

Lemma updateReminder_wp userId reminderId updatedData w :
  wp (updateReminder userId reminderId updatedData)
     (update_post userId reminderId updatedData w) w.
Proof.
  unfold updateReminder.
  apply wp_try_catch, wp_bind, wp_validateNonEmptyString;
    [intros uid -> Huid|intros _; wp_handler; reflexivity].
  apply wp_bind, wp_validateNonEmptyString;
    [intros rid -> Hrid|intros _; wp_handler; reflexivity].
  destruct (_ || _ || _) eqn:Hguard; [apply wp_throw; wp_handler; reflexivity|].
  destruct updatedData as [| |b|n|s|d|ts|props|c];
    try (apply wp_bind, wp_ret, wp_bind, wp_ret, wp_bind, wp_ret, wp_bind, wp_ret,
           wp_throw; wp_handler; reflexivity).
  destruct (props !! "hasOwnProperty") eqn:Hown.
  { apply wp_bind. unfold hasOwnProperty. rewrite Hown.
    apply wp_throw. wp_handler. reflexivity. }
  assert (Hfinish : forall fields, written_fields props fields ->
            wp (let* reminderDocRef := doc ["users"; uid; "reminders"; rid] in
                updateDoc reminderDocRef fields)
               (fun r w1 =>
                  match r with
                  | Return a => update_post (VString uid) (VString rid) (VObject props) w (Return a) w1
                  | Throw e =>
                      wp (match e with
                          | TypeError message =>
                              console_error ("Validation Error in updateReminder: " +:+ message)
                          | _ => ret ()
                          end;;; throw e)
                         (update_post (VString uid) (VString rid) (VObject props) w) w1
                  end) w).
  { intros fields Hw. apply wp_bind, wp_doc.
    destruct (document_path _) as [[c i]|] eqn:Hdoc; [|wp_handler; reflexivity].
    apply wp_updateDoc.
    destruct (stored_at w c i) as [d|] eqn:Hst.
    - exists uid, rid, props, fields, d, c, i. repeat split; try assumption; apply Hw.
    - wp_handler. reflexivity. }
  apply wp_bind, wp_hasOwnProperty_object; [exact Hown|].
  unfold get.
  destruct (props !! "text") as [vt|] eqn:Htext; cbn [from_option Datatypes.id].
  - apply wp_bind.
    destruct vt as [| |b|n|s|d|ts|p|c]; try (apply wp_throw; wp_handler; reflexivity).
    destruct (String.eqb_spec (trim s) "") as [Es|Es];
      [apply wp_throw; wp_handler; reflexivity|].
    apply wp_ret, wp_bind, wp_hasOwnProperty_object; [exact Hown|].
    destruct (props !! "date") as [vd|] eqn:Hdate; cbn [from_option Datatypes.id].
    + apply wp_bind.
      destruct vd as [| |b|n|s'|d|ts|p|c]; try (apply wp_throw; wp_handler; reflexivity).
      destruct d as [[|ms]]; cbn [getTime]; [apply wp_throw; wp_handler; reflexivity|].
      apply wp_bind, wp_Timestamp_fromMillis; [intros Hvalid|wp_handler; reflexivity].
      apply wp_ret. rewrite size_insert_nonzero.
      apply Hfinish. split; [|split].
      * intros k H1 H2. rewrite !lookup_insert_ne by congruence. apply lookup_empty.
      * rewrite Htext. exists s. split; [reflexivity|split; [assumption|]].
        rewrite lookup_insert_ne by discriminate. apply lookup_insert_eq.
      * rewrite Hdate. exists (mkTimestamp ms). split; [reflexivity|split; [assumption|]].
        apply lookup_insert_eq.
    + apply wp_bind, wp_ret. rewrite size_insert_nonzero.
      apply Hfinish. split; [|split].
      * intros k H1 H2. rewrite !lookup_insert_ne by congruence. apply lookup_empty.
      * rewrite Htext. exists s. split; [reflexivity|split; [assumption|]]. apply lookup_insert_eq.
      * rewrite Hdate. rewrite lookup_insert_ne by discriminate. apply lookup_empty.
  - apply wp_bind, wp_ret, wp_bind, wp_hasOwnProperty_object; [exact Hown|].
    destruct (props !! "date") as [vd|] eqn:Hdate; cbn [from_option Datatypes.id].
    + apply wp_bind.
      destruct vd as [| |b|n|s'|d|ts|p|c]; try (apply wp_throw; wp_handler; reflexivity).
      destruct d as [[|ms]]; cbn [getTime]; [apply wp_throw; wp_handler; reflexivity|].
      apply wp_bind, wp_Timestamp_fromMillis; [intros Hvalid|wp_handler; reflexivity].
      apply wp_ret. rewrite size_insert_nonzero.
      apply Hfinish. split; [|split].
      * intros k H1 H2. rewrite !lookup_insert_ne by congruence. apply lookup_empty.
      * rewrite Htext. rewrite lookup_insert_ne by discriminate. apply lookup_empty.
      * rewrite Hdate. exists (mkTimestamp ms). split; [reflexivity|split; [assumption|]].
        apply lookup_insert_eq.
    + apply wp_bind, wp_ret, wp_throw. wp_handler. reflexivity.
Qed.

Lemma addReminder_wp userId reminderData w :
  wp (addReminder userId reminderData) (add_post userId reminderData w) w.
Proof.
  unfold addReminder.
  apply wp_try_catch, wp_bind, wp_validateNonEmptyString;
    [intros uid -> Huid|
     intros _; wp_handler; split; [(split; reflexivity)|left; eauto]].
  destruct (_ || _) eqn:Hguard;
    [apply wp_throw; wp_handler; split; [(split; reflexivity)|left; eauto]|].
  apply wp_bind, wp_validateNonEmptyString;
    [intros s Htext Hs|
     intros _; wp_handler; split; [(split; reflexivity)|left; eauto]].
  destruct (get reminderData "date") as [| |b|n|s'|d|ts|p|c] eqn:Hdate;
    try (apply wp_throw; wp_handler; split; [(split; reflexivity)|left; eauto]).
  destruct d as [[|ms]]; cbn [getTime];
    [apply wp_throw; wp_handler; split; [(split; reflexivity)|left; eauto]|].
  apply wp_bind, wp_Timestamp_fromMillis.
  - intros Hvalid. cbv zeta. apply wp_bind, wp_collection.
    destruct (collection_path _) as [c|] eqn:Hc.
    + apply wp_addDoc. intros rid Hfresh _.
      exists uid, s, ms, c. repeat split; try assumption; apply Hvalid.
    + wp_handler. split; [(split; reflexivity)|right; eauto].
  - apply wp_bind, wp_ret, wp_throw.
    split; [(split; reflexivity)|right; eauto].
Qed.

Lemma deleteReminder_wp userId reminderId w :
  wp (deleteReminder userId reminderId) (delete_post userId reminderId w) w.
Proof.
  unfold deleteReminder.
  apply wp_try_catch, wp_bind, wp_validateNonEmptyString;
    [intros uid -> Huid|intros _; wp_handler; (split; reflexivity)].
  apply wp_bind, wp_validateNonEmptyString;
    [intros rid -> Hrid|intros _; wp_handler; (split; reflexivity)].
  apply wp_bind, wp_doc.
  destruct (document_path _) as [[c i]|] eqn:Hdoc; [|wp_handler; (split; reflexivity)].
  apply wp_deleteDoc. exists uid, rid, c, i. repeat split. exact Hdoc.
Qed.

Lemma get_data_field (d : gmap string fsvalue) key :
  get (VObject (fromFirestore <$> d)) key
  = match d !! key with Some v => fromFirestore v | None => VUndefined end.
Proof. unfold get. rewrite lookup_fmap. destruct (d !! key); reflexivity. Qed.

Lemma push_reminder_wp uid reminders docSnap (Q : outcome (list Reminder) -> world -> Prop) w :
  (forall w', db w' = db w -> requests w' = requests w ->
     Q (Return (reminders ++ option_list (to_reminder docSnap))%list) w') ->
  wp (push_reminder uid reminders docSnap) Q w.
Proof.
  intros HQ. unfold push_reminder. unfold to_reminder in HQ. cbv zeta.
  rewrite !get_data_field.
  destruct (docSnap.2 !! "text") as [t|]; destruct (docSnap.2 !! "date") as [[| | |ts|]|];
    cbn [fromFirestore truthy instanceof_Timestamp andb];
    rewrite ?andb_false_r;
    try (destruct (truthy (fromFirestore t)); cbn [andb]);
    cbn [option_list] in HQ; rewrite ?app_nil_r in HQ;
    try (apply wp_bind, wp_console_log, wp_ret, HQ; reflexivity);
    apply wp_ret, HQ; reflexivity.
Qed.

Lemma forEach_push_wp uid snapshot :
  forall reminders (Q : outcome (list Reminder) -> world -> Prop) w,
    (forall w', db w' = db w -> requests w' = requests w ->
       Q (Return (reminders ++ omap to_reminder snapshot)%list) w') ->
    wp (forEach_push uid reminders snapshot) Q w.
Proof.
  induction snapshot as [|docSnap rest IH]; intros reminders Q w HQ.
  - cbn. apply wp_ret. rewrite app_nil_r in HQ. apply HQ; reflexivity.
  - cbn [forEach_push]. apply wp_bind, push_reminder_wp. intros w1 Hdb1 Hreq1.
    apply IH. intros w2 Hdb2 Hreq2.
    replace ((reminders ++ option_list (to_reminder docSnap)) ++ omap to_reminder rest)%list
      with (reminders ++ omap to_reminder (docSnap :: rest))%list.
    + apply HQ; congruence.
    + rewrite <- app_assoc. f_equal. cbn. destruct (to_reminder docSnap); reflexivity.
Qed.

Lemma getReminders_wp userId w :
  wp (getReminders userId) (get_post userId w) w.
Proof.
  unfold getReminders.
  apply wp_try_catch, wp_bind, wp_validateNonEmptyString;
    [intros uid -> Huid|intros Hbad; wp_handler; split; [split; reflexivity|left; exact Hbad]].
  apply wp_bind, wp_collection.
  destruct (collection_path _) as [c|] eqn:Hc;
    [|wp_handler; split; [split; reflexivity|right; eauto]].
  apply wp_bind, wp_getDocs_orderBy_date, forEach_push_wp.
  intros w' Hdb Hreq. exists uid, c. repeat split; assumption.
Qed.

(** A refresh of the page never raises and leaves the stored data as it
    is. *)
Lemma fetchReminders_wp currentUser w :
  wp (fetchReminders currentUser)
     (fun r w' => (exists fetched, r = Return fetched) /\ db w' = db w) w.
Proof.
  unfold fetchReminders.
  destruct currentUser as [uid|]; [|apply wp_ret; eauto].
  destruct (String.eqb uid ""); [apply wp_ret; eauto|].
  apply wp_try_catch, wp_bind.
  eapply wp_mono; [apply getReminders_wp|].
  intros [l|e] w1 H; unfold get_post in H.
  - destruct H as (uid' & c & _ & _ & _ & Hdb & _). apply wp_ret. eauto.
  - destruct H as [[Hdb _] _]. apply wp_bind, wp_console_log, wp_ret. eauto.
Qed.

(* ================================================================== *)
(** * The owner precondition *)
(* ================================================================== *)

(** C8.  For each of Create, List, Update and Delete: when the owner
    identifier is not a non-empty string (not a string at all, the empty
    string, or white space only), the operation fails with the service's
    InvalidArgument error (a [TypeError]) and does no storage input or
    output: the documents are unchanged and no request is sent. *)
Theorem owner_must_be_non_empty_string (userId : value) (w : world) :
  not_non_empty_string userId ->
  (forall reminderData, fails_invalid_argument (addReminder userId reminderData w) w)
  /\ fails_invalid_argument (getReminders userId w) w
  /\ (forall reminderId updatedData,
        fails_invalid_argument (updateReminder userId reminderId updatedData w) w)
  /\ (forall reminderId, fails_invalid_argument (deleteReminder userId reminderId w) w).
Proof.
  intros Huser.
  pose proof (validateNonEmptyString_fail userId "userId" w Huser) as Hv.
  repeat split; intros;
    (eapply rethrow_TypeError; [|apply no_storage_io_refl]);
    (eapply bind_Throw; exact Hv).
Qed.

(** The precondition above, at an owner that is a number and at a store
    holding one reminder. *)
Lemma owner_must_be_non_empty_string_witness :
  let w := (addReminder (VString "u1")
              (VObject (<["text" := VString "Buy flowers"]>
                          (<["date" := VDate (mkDate (Int 1748736000000))]> ∅)))
              empty_world).2 in
  not_non_empty_string (VNumber (Int 7))
  /\ fails_invalid_argument (getReminders (VNumber (Int 7)) w) w
  /\ fails_invalid_argument (deleteReminder (VNumber (Int 7)) (VString "0") w) w.
Proof.
  intros w.
  assert (H : not_non_empty_string (VNumber (Int 7))) by (intros s [=]).
  split; [exact H|].
  destruct (owner_must_be_non_empty_string (VNumber (Int 7)) w H) as (_ & Hget & _ & Hdel).
  split; [exact Hget | exact (Hdel (VString "0"))].
Defined.

(* ================================================================== *)
(** * Update *)
(* ================================================================== *)

Lemma hasOwnProperty_absent props key w :
  props !! key = None ->
  (exists message, hasOwnProperty (VObject props) key w = (Throw (TypeError message), w))
  \/ hasOwnProperty (VObject props) key w = (Return false, w).
Proof.
  intros H. unfold hasOwnProperty.
  destruct (props !! "hasOwnProperty").
  - left. eexists. reflexivity.
  - right. rewrite H. reflexivity.
Qed.

(** The body of [updateReminder] fails on a patch without [text] and
    without [date], whatever else it holds. *)
Lemma updateReminder_unrecognised (userId reminderId : value)
    (props : gmap string value) (w : world) :
  props !! "text" = None -> props !! "date" = None ->
  fails_invalid_argument (updateReminder userId reminderId (VObject props) w) w.
Proof.
  intros Htext Hdate. unfold updateReminder.
  match goal with
  | |- fails_invalid_argument (try_catch ?m _ _) _ =>
      assert (Hbody : exists message, m w = (Throw (TypeError message), w))
  end.
  { destruct (validateNonEmptyString_cases userId "userId" w)
      as [(uid & _ & _ & Hu)|[_ Hu]];
      [|eexists; eapply bind_Throw; exact Hu].
    rewrite (bind_Return _ _ _ _ _ Hu).
    destruct (validateNonEmptyString_cases reminderId "reminderId" w)
      as [(rid & _ & _ & Hr)|[_ Hr]];
      [|eexists; eapply bind_Throw; exact Hr].
    rewrite (bind_Return _ _ _ _ _ Hr).
    destruct (_ || _ || _); [eexists; reflexivity|].
    destruct (hasOwnProperty_absent props "text" w Htext) as [[m Ht]|Ht];
      [eexists; eapply bind_Throw; exact Ht|].
    rewrite (bind_Return _ _ _ _ _ Ht). unfold bind at 1, ret at 1.
    destruct (hasOwnProperty_absent props "date" w Hdate) as [[m Hd]|Hd];
      [eexists; eapply bind_Throw; exact Hd|].
    rewrite (bind_Return _ _ _ _ _ Hd). eexists. reflexivity. }
  destruct Hbody as [message Hbody].
  eapply rethrow_TypeError; [exact Hbody|apply no_storage_io_refl].
Qed.

(** C6.  Update with a patch that is the empty object, or an object whose
    keys are all other than [text] and [date], fails with InvalidArgument
    and writes nothing, for every owner and every id. *)
Theorem update_rejects_patch_without_fields (userId reminderId : value)
    (props : gmap string value) (w : world) :
  props !! "text" = None -> props !! "date" = None ->
  fails_invalid_argument (updateReminder userId reminderId (VObject props) w) w.
Proof. apply updateReminder_unrecognised. Qed.

(** The two patches of the specification: [{}] and [{unrelatedKey: 1}]. *)
Lemma update_rejects_patch_without_fields_witness :
  fails_invalid_argument
    (updateReminder (VString "u1") (VString "r1") (VObject ∅) empty_world) empty_world
  /\ fails_invalid_argument
       (updateReminder (VString "u1") (VString "r1")
          (VObject (<["unrelatedKey" := VNumber (Int 1)]> ∅)) empty_world) empty_world.
Proof.
  split.
  - apply (update_rejects_patch_without_fields _ _ ∅); reflexivity.
  - apply (update_rejects_patch_without_fields _ _ (<["unrelatedKey" := VNumber (Int 1)]> ∅));
      reflexivity.
Defined.

(* ================================================================== *)
(** * Invariants of the stored documents *)
(* ================================================================== *)

Lemma stored_at_same_db (w w' : world) c rid :
  db w' = db w -> stored_at w' c rid = stored_at w c rid.
Proof. unfold stored_at. intros ->. reflexivity. Qed.

Lemma stored_same_db (w w' : world) owner rid :
  db w' = db w -> stored w' owner rid = stored w owner rid.
Proof. unfold stored, stored_at. intros ->. reflexivity. Qed.

Lemma every_document_same_db P w w' :
  db w' = db w -> every_document P w -> every_document P w'.
Proof.
  intros Hdb H c rid d Hst. rewrite (stored_at_same_db _ _ _ _ Hdb) in Hst. eauto.
Qed.

Lemma every_document_insert P (w w' : world) c rid d :
  db w' = <[c := <[rid := d]> (default ∅ (db w !! c))]> (db w) ->
  P d -> every_document P w -> every_document P w'.
Proof.
  intros Hdb Hd H o i d' Hst.
  rewrite (stored_at_set_collection _ _ _ _ _ _ Hdb) in Hst.
  destruct (decide (o = c)) as [->|Hne]; [|eauto].
  destruct (decide (i = rid)) as [->|Hne'].
  - rewrite lookup_insert_eq in Hst. congruence.
  - rewrite lookup_insert_ne, stored_at_collection in Hst by congruence. eauto.
Qed.

Lemma every_document_delete P (w w' : world) c rid :
  db w' = <[c := delete rid (default ∅ (db w !! c))]> (db w) ->
  every_document P w -> every_document P w'.
Proof.
  intros Hdb H o i d' Hst.
  rewrite (stored_at_set_collection _ _ _ _ _ _ Hdb) in Hst.
  destruct (decide (o = c)) as [->|Hne]; [|eauto].
  apply lookup_delete_Some in Hst as [_ Hst].
  rewrite stored_at_collection in Hst. eauto.
Qed.

(** A property of documents that holds of what Create writes and survives
    what Update merges in holds of every document after any call. *)
Lemma run_call_every_document (P : gmap string fsvalue -> Prop) :
  (forall s ms, trim s <> "" -> valid_timestamp (mkTimestamp ms) ->
     P (<["text" := FString s]> (<["date" := FTimestamp (mkTimestamp ms)]> ∅))) ->
  (forall props fields d, written_fields props fields -> P d -> P (fields ∪ d)) ->
  forall c w, every_document P w -> every_document P (run_call c w).
Proof.
  intros Hcreate Hmerge c w Hinv. destruct c; cbn [run_call].
  - pose proof (addReminder_wp userId reminderData w) as H. unfold wp, add_post in H.
    destruct (addReminder userId reminderData w) as [[rid|e] w']; cbn [fst snd] in *.
    + destruct H as (uid & s & ms & c & _ & _ & _ & Hs & _ & Hvalid & _ & _ & Hdb & _).
      eapply every_document_insert; eauto.
    + destruct H as [[Hdb _] _]. eapply every_document_same_db; eauto.
  - pose proof (getReminders_wp userId w) as H. unfold wp, get_post in H.
    destruct (getReminders userId w) as [[l|e] w']; cbn [fst snd] in *.
    + destruct H as (uid & c & _ & _ & _ & Hdb & _). eapply every_document_same_db; eauto.
    + destruct H as [[Hdb _] _]. eapply every_document_same_db; eauto.
  - pose proof (updateReminder_wp userId reminderId updatedData w) as H.
    unfold wp, update_post in H.
    destruct (updateReminder userId reminderId updatedData w) as [[[]|e] w'];
      cbn [fst snd] in *.
    + destruct H as (uid & rid & props & fields & d & c & i
                     & _ & _ & _ & _ & _ & _ & Hst & Hw & Hdb & _).
      eapply every_document_insert; eauto.
    + eapply every_document_same_db; eauto.
  - pose proof (deleteReminder_wp userId reminderId w) as H. unfold wp, delete_post in H.
    destruct (deleteReminder userId reminderId w) as [[[]|e] w']; cbn [fst snd] in *.
    + destruct H as (uid & rid & c & i & _ & _ & _ & Hdb & _).
      eapply every_document_delete; eauto.
    + destruct H as [Hdb _]. eapply every_document_same_db; eauto.
Qed.

Lemma run_calls_every_document (P : gmap string fsvalue -> Prop) :
  (forall s ms, trim s <> "" -> valid_timestamp (mkTimestamp ms) ->
     P (<["text" := FString s]> (<["date" := FTimestamp (mkTimestamp ms)]> ∅))) ->
  (forall props fields d, written_fields props fields -> P d -> P (fields ∪ d)) ->
  forall cs w, every_document P w -> every_document P (run_calls cs w).
Proof.
  intros Hcreate Hmerge cs. unfold run_calls.
  induction cs as [|c cs IH]; intros w Hinv; cbn [foldl]; [exact Hinv|].
  apply IH, run_call_every_document; assumption.
Qed.

Lemma every_document_empty_world P : every_document P empty_world.
Proof.
  intros c rid d H. unfold stored_at in H. cbn in H. rewrite lookup_empty in H.
  discriminate.
Qed.

Lemma written_text_kept props fields d :
  written_fields props fields ->
  (exists s, d !! "text" = Some (FString s) /\ trim s <> "") ->
  exists s, (fields ∪ d) !! "text" = Some (FString s) /\ trim s <> "".
Proof.
  intros (_ & Htext & _) (s0 & Hd & Hs0).
  destruct (props !! "text") as [v|].
  - destruct Htext as (s & _ & Hs & Hf). exists s. split; [|exact Hs].
    apply lookup_union_Some_l, Hf.
  - exists s0. split; [|exact Hs0].
    rewrite lookup_union_r by exact Htext. exact Hd.
Qed.

Lemma stored_text_invariant_run_calls cs w :
  stored_text_invariant w -> stored_text_invariant (run_calls cs w).
Proof.
  apply (run_calls_every_document
           (fun d => exists s, d !! "text" = Some (FString s) /\ trim s <> "")).
  - intros s ms Hs _. exists s. split; [apply lookup_insert_eq|exact Hs].
  - intros props fields d. apply written_text_kept.
Qed.

Lemma written_timestamps_valid props fields d :
  written_fields props fields ->
  (forall k ts, d !! k = Some (FTimestamp ts) -> valid_timestamp ts) ->
  forall k ts, (fields ∪ d) !! k = Some (FTimestamp ts) -> valid_timestamp ts.
Proof.
  intros (Hother & Htext & Hdate) Hd k ts Hk.
  apply lookup_union_Some_raw in Hk as [Hk|[_ Hk]]; [|eauto].
  destruct (decide (k = "date")) as [->|Hnd].
  - destruct (props !! "date") as [v|]; [|congruence].
    destruct Hdate as (ts' & _ & Hvalid & Hf). congruence.
  - destruct (decide (k = "text")) as [->|Hnt].
    + destruct (props !! "text") as [v|]; [|congruence].
      destruct Htext as (s & _ & _ & Hf). congruence.
    + rewrite Hother in Hk by assumption. discriminate.
Qed.

Lemma stored_timestamps_valid_run_calls cs w :
  stored_timestamps_valid w -> stored_timestamps_valid (run_calls cs w).
Proof.
  apply (run_calls_every_document
           (fun d => forall k ts, d !! k = Some (FTimestamp ts) -> valid_timestamp ts)).
  - intros s ms _ Hvalid k ts Hk.
    destruct (decide (k = "text")) as [->|Hnt].
    { rewrite lookup_insert_eq in Hk. discriminate. }
    rewrite lookup_insert_ne in Hk by congruence.
    destruct (decide (k = "date")) as [->|Hnd].
    { rewrite lookup_insert_eq in Hk. congruence. }
    rewrite lookup_insert_ne, lookup_empty in Hk by congruence. discriminate.
  - intros props fields d. apply written_timestamps_valid.
Qed.

(* ================================================================== *)
(** * Create *)
(* ================================================================== *)

(** C7.  Create with a text that is empty or white space only (or not a
    string), or with a date that is not a valid moment in time, fails with
    InvalidArgument and writes nothing; and, the service validating every
    text it stores, the stored-text invariant holds of the empty store and
    is kept by every sequence of calls: no stored reminder ever has an empty
    or white-space-only text. *)
Theorem create_rejects_blank_text_and_invalid_date :
  (forall userId reminderData w,
     not_non_empty_string (get reminderData "text")
     \/ ~ valid_moment (get reminderData "date") ->
     fails_invalid_argument (addReminder userId reminderData w) w)
  /\ stored_text_invariant empty_world
  /\ (forall calls w,
        stored_text_invariant w -> stored_text_invariant (run_calls calls w)).
Proof.
  split; [|split].
  - intros userId reminderData w Hbad.
    pose proof (addReminder_wp userId reminderData w) as H. unfold wp, add_post in H.
    destruct (addReminder userId reminderData w) as [[rid|e] w']; cbn [fst snd] in *.
    + exfalso.
      destruct H as (uid & s & ms & c & _ & _ & Htext & Hs & Hdate & _).
      destruct Hbad as [Hbad|Hbad].
      * apply Hs, (Hbad s Htext).
      * apply Hbad. exists ms. exact Hdate.
    + destruct H as [Hio [[message ->]|(s & ms & Htext & Hs & Hdate)]].
      * exists message, w'. split; [reflexivity|exact Hio].
      * exfalso. destruct Hbad as [Hbad|Hbad].
        -- apply Hs, (Hbad s Htext).
        -- apply Hbad. exists ms. exact Hdate.
  - apply every_document_empty_world.
  - intros calls w. apply stored_text_invariant_run_calls.
Qed.

(** The rejections of the specification: the texts [""] and ["   "], and an
    invalid date; and the invariant after a run of calls that includes
    attempts to store blank texts. *)
Lemma create_rejects_blank_text_and_invalid_date_witness :
  let reminder t d := VObject (<["text" := VString t]> (<["date" := VDate d]> ∅)) in
  let day := mkDate (Int 1748736000000) in
  fails_invalid_argument (addReminder (VString "u1") (reminder "" day) empty_world) empty_world
  /\ fails_invalid_argument (addReminder (VString "u1") (reminder "   " day) empty_world) empty_world
  /\ fails_invalid_argument
       (addReminder (VString "u1") (reminder "Buy flowers" (mkDate NaN)) empty_world) empty_world
  /\ stored_text_invariant
       (run_calls [Create (VString "u1") (reminder "Buy flowers" day);
                   Create (VString "u1") (reminder "   " day);
                   Update (VString "u1") (VString "0")
                     (VObject (<["text" := VString " "]> ∅))]
          empty_world).
Proof.
  intros reminder day.
  destruct create_rejects_blank_text_and_invalid_date as (Hreject & Hempty & Hkeep).
  repeat split.
  - apply Hreject. left. intros s [= <-]. reflexivity.
  - apply Hreject. left. intros s [= <-]. reflexivity.
  - apply Hreject. right. intros [ms [=]].
  - apply Hkeep, Hempty.
Defined.

(* ================================================================== *)
(** * Partial update *)
(* ================================================================== *)

Lemma written_fields_absent props fields k :
  written_fields props fields -> props !! k = None -> fields !! k = None.
Proof.
  intros (Hother & Htext & Hdate) Hk.
  destruct (decide (k = "text")) as [->|Hnt]; [rewrite Hk in Htext; exact Htext|].
  destruct (decide (k = "date")) as [->|Hnd]; [rewrite Hk in Hdate; exact Hdate|].
  apply Hother; assumption.
Qed.

(** A field the patch does not have reads the same in every document after a
    successful update. *)
Lemma update_frame userId reminderId props w w' :
  updateReminder userId reminderId (VObject props) w = (Return tt, w') ->
  forall k, props !! k = None ->
  forall owner rid,
    stored w' owner rid ≫= (fun d => d !! k) = stored w owner rid ≫= (fun d => d !! k).
Proof.
  intros Hrun k Hk owner rid.
  pose proof (wp_run _ _ _ _ _ (updateReminder_wp userId reminderId (VObject props) w) Hrun)
    as (uid & rid0 & props0 & fields & d & c & i
        & _ & _ & [= <-] & _ & _ & _ & Hst & Hw & Hdb & _).
  unfold stored. destruct (single_segment owner && single_segment rid); [|reflexivity].
  rewrite (stored_at_set_collection _ _ _ _ _ _ Hdb).
  destruct (decide (reminders_of owner = c)) as [<-|Hne]; [|reflexivity].
  destruct (decide (rid = i)) as [->|Hne'].
  - rewrite lookup_insert_eq, Hst. cbn.
    apply lookup_union_r, (written_fields_absent _ _ _ Hw Hk).
  - rewrite lookup_insert_ne, stored_at_collection by congruence. reflexivity.
Qed.

(** A text-only patch on an existing reminder goes through, and stores the
    old document with its [text] replaced. *)
Lemma update_text_only uid rid s d w :
  trim uid <> "" -> trim rid <> "" -> trim s <> "" ->
  stored w uid rid = Some d ->
  updateReminder (VString uid) (VString rid) (VObject {["text" := VString s]}) w
  = (Return tt,
     {| db := <[reminders_of uid := <[rid := <["text" := FString s]> d]>
                                      (default ∅ (db w !! reminders_of uid))]> (db w);
        requests := (requests w ++ [UpdateDoc uid rid {["text" := FString s]}])%list;
        console := console w |}).
Proof.
  intros Huid Hrid Hs Hst.
  apply stored_Some in Hst as (Hu & Hr & Hst).
  assert (Hown : ({["text" := VString s]} : gmap string value) !! "hasOwnProperty" = None)
    by (apply lookup_singleton_ne; discriminate).
  assert (Hdate : ({["text" := VString s]} : gmap string value) !! "date" = None)
    by (apply lookup_singleton_ne; discriminate).
  unfold updateReminder.
  apply try_catch_Return.
  rewrite (bind_Return _ _ _ _ _ (validateNonEmptyString_ok uid "userId" w Huid)).
  rewrite (bind_Return _ _ _ _ _ (validateNonEmptyString_ok rid "reminderId" w Hrid)).
  cbn [truthy typeof negb orb Object_keys_length String.eqb Ascii.eqb Bool.eqb].
  rewrite map_size_singleton. cbn [Nat.eqb].
  unfold hasOwnProperty, get. rewrite Hown, Hdate, !bool_decide_is_Some, lookup_singleton_eq.
  unfold bind at 1, ret at 1. cbn [from_option Datatypes.id].
  destruct (String.eqb_spec (trim s) "") as [E|_]; [contradiction|].
  unfold bind at 1, ret at 1. unfold bind at 1, ret at 1. unfold bind at 1, ret at 1.
  rewrite insert_empty, map_size_singleton. cbn [Nat.eqb].
  unfold doc. rewrite (document_path_reminder uid rid Hu Hr).
  unfold updateDoc, bind, send, documents, set_collection, ret. cbn.
  rewrite stored_at_collection, Hst. rewrite <- insert_union_singleton_l. reflexivity.
Qed.

(** C5.  Update with a patch holding only a valid [text], on an existing
    reminder of a valid owner, succeeds; afterwards the stored document has
    the new text, its [date] and every other field are as before, and every
    other document is as before.  More generally, after any successful
    update, a field absent from the patch is untouched in every stored
    document. *)
Theorem update_changes_only_supplied_fields :
  (forall uid rid s d w,
     trim uid <> "" -> trim rid <> "" -> trim s <> "" ->
     stored w uid rid = Some d ->
     exists w' d',
       updateReminder (VString uid) (VString rid)
         (VObject {["text" := VString s]}) w = (Return tt, w')
       /\ stored w' uid rid = Some d'
       /\ d' !! "text" = Some (FString s)
       /\ d' !! "date" = d !! "date"
       /\ (forall k, k <> "text" -> d' !! k = d !! k)
       /\ (forall owner i, (owner, i) <> (uid, rid) ->
             stored w' owner i = stored w owner i))
  /\ (forall userId reminderId props w w',
        updateReminder userId reminderId (VObject props) w = (Return tt, w') ->
        forall k, props !! k = None ->
        forall owner rid,
          stored w' owner rid ≫= (fun d => d !! k)
          = stored w owner rid ≫= (fun d => d !! k)).
Proof.
  split; [|exact update_frame].
  intros uid rid s d w Huid Hrid Hs Hst.
  destruct (stored_Some _ _ _ _ Hst) as (Hu & Hr & _).
  eexists. exists (<["text" := FString s]> d).
  split; [apply (update_text_only uid rid s d w); assumption|].
  assert (Hread : forall owner i,
            stored {| db := <[reminders_of uid := <[rid := <["text" := FString s]> d]>
                                        (default ∅ (db w !! reminders_of uid))]> (db w);
                      requests := (requests w ++ [UpdateDoc uid rid {["text" := FString s]}])%list;
                      console := console w |} owner i
            = if decide ((owner, i) = (uid, rid))
              then Some (<["text" := FString s]> d)
              else stored w owner i)
    by (intros; apply stored_insert; [reflexivity|assumption..]).
  split; [|split; [|split; [|split]]].
  - rewrite Hread, decide_True by reflexivity. reflexivity.
  - apply lookup_insert_eq.
  - apply lookup_insert_ne. discriminate.
  - intros k Hk. apply lookup_insert_ne. congruence.
  - intros owner i Hne. rewrite Hread, decide_False by exact Hne. reflexivity.
Qed.

(** The update of the specification: [{text: "new text"}] on a stored
    reminder, whose date stays. *)
Lemma update_changes_only_supplied_fields_witness :
  let w := (addReminder (VString "u1")
              (VObject (<["text" := VString "Buy flowers"]>
                          (<["date" := VDate (mkDate (Int 1748736000000))]> ∅)))
              empty_world).2 in
  exists w' d',
    updateReminder (VString "u1") (VString "0")
      (VObject {["text" := VString "new text"]}) w = (Return tt, w')
    /\ stored w' "u1" "0" = Some d'
    /\ d' !! "text" = Some (FString "new text")
    /\ d' !! "date" = Some (FTimestamp (mkTimestamp 1748736000000)).
Proof.
  intros w.
  destruct update_changes_only_supplied_fields as [Htext _].
  destruct (Htext "u1" "0" "new text"
              (<["text" := FString "Buy flowers"]>
                 (<["date" := FTimestamp (mkTimestamp 1748736000000)]> ∅)) w)
    as (w' & d' & Hrun & Hst & Ht & Hd & _).
  - vm_compute. discriminate.
  - vm_compute. discriminate.
  - vm_compute. discriminate.
  - vm_compute. reflexivity.
  - exists w', d'. split; [exact Hrun|]. split; [exact Hst|]. split; [exact Ht|].
    rewrite Hd. vm_compute. reflexivity.
Defined.

(* ================================================================== *)
(** * Sign-in error messages *)
(* ================================================================== *)

Lemma mapAuthErrorToMessage_credential error c w :
  get error "code" = VString c -> c ∈ credential_codes ->
  mapAuthErrorToMessage error w
  = (Return "Invalid email or password. Please check your credentials and try again.", w).
Proof.
  intros Hcode Hc. unfold mapAuthErrorToMessage.
  destruct error as [| | | | | | |props|]; try discriminate Hcode.
  cbn [truthy typeof String.eqb Ascii.eqb Bool.eqb andb has_property].
  rewrite bool_decide_is_Some, Hcode.
  unfold get in Hcode. destruct (props !! "code") as [v|]; [|discriminate Hcode].
  cbn [from_option Datatypes.id] in Hcode. subst v.
  unfold credential_codes in Hc.
  repeat (apply elem_of_cons in Hc as [->|Hc]; [reflexivity|]).
  apply elem_of_nil in Hc. contradiction.
Qed.

(** C10.  Two sign-in errors whose provider codes are among
    invalid-credential, user-not-found and wrong-password are mapped to the
    same message, and nothing is logged for either: what the user sees does
    not tell whether an account exists for the address. *)
Theorem credential_errors_are_indistinguishable (e1 e2 : value) (c1 c2 : string)
    (w1 w2 : world) :
  get e1 "code" = VString c1 -> get e2 "code" = VString c2 ->
  c1 ∈ credential_codes -> c2 ∈ credential_codes ->
  (mapAuthErrorToMessage e1 w1).1 = (mapAuthErrorToMessage e2 w2).1
  /\ (mapAuthErrorToMessage e1 w1).1
     = Return "Invalid email or password. Please check your credentials and try again."
  /\ (mapAuthErrorToMessage e1 w1).2 = w1
  /\ (mapAuthErrorToMessage e2 w2).2 = w2.
Proof.
  intros H1 H2 Hc1 Hc2.
  rewrite (mapAuthErrorToMessage_credential e1 c1 w1 H1 Hc1).
  rewrite (mapAuthErrorToMessage_credential e2 c2 w2 H2 Hc2).
  repeat split.
Qed.

(** An unknown address and a wrong password get the same answer. *)
Lemma credential_errors_are_indistinguishable_witness :
  let unknown := VObject {["code" := VString "auth/user-not-found"]} in
  let wrong := VObject (<["code" := VString "auth/wrong-password"]>
                          {["message" := VString "Firebase: Error (auth/wrong-password)."]}) in
  (mapAuthErrorToMessage unknown empty_world).1 = (mapAuthErrorToMessage wrong empty_world).1.
Proof.
  intros unknown wrong.
  apply (credential_errors_are_indistinguishable unknown wrong
           "auth/user-not-found" "auth/wrong-password" empty_world empty_world).
  - vm_compute. reflexivity.
  - vm_compute. reflexivity.
  - unfold credential_codes. rewrite !elem_of_cons. right. left. reflexivity.
  - unfold credential_codes. rewrite !elem_of_cons. right. right. left. reflexivity.
Defined.

(* ================================================================== *)
(** * The order of a query *)
(* ================================================================== *)

Lemma String_leb_trans s1 s2 s3 :
  String.leb s1 s2 = true -> String.leb s2 s3 = true -> String.leb s1 s3 = true.
Proof.
  intros H1 H2. apply Is_true_true.
  apply (@transitivity _ String.le _ s1 s2 s3); apply Is_true_true; assumption.
Qed.

Lemma fs_leb_total a b : fs_leb a b = true \/ fs_leb b a = true.
Proof.
  destruct a as [|x|[|x]|s|s], b as [|y|[|y]|t|t]; cbn; auto.
  - destruct x, y; auto.
  - destruct (Z.leb_spec x y); [auto|right; apply Z.leb_le; lia].
  - destruct (Z.leb_spec (toMillis s) (toMillis t)); [auto|right; apply Z.leb_le; lia].
  - apply String.leb_total.
Qed.

Lemma fs_leb_trans a b c :
  fs_leb a b = true -> fs_leb b c = true -> fs_leb a c = true.
Proof.
  destruct a as [|x|[|x]|s|s], b as [|y|[|y]|t|t], c as [|z|[|z]|u|u]; cbn;
    try discriminate; try reflexivity.
  - destruct x, y, z; auto.
  - rewrite !Z.leb_le. lia.
  - rewrite !Z.leb_le. lia.
  - apply String_leb_trans.
Qed.

Global Instance snapshot_le_total : Total snapshot_le.
Proof.
  intros x y. unfold snapshot_le, snapshot_leb. cbv zeta.
  destruct (fs_leb_total (date_field x.2) (date_field y.2)) as [H|H]; rewrite H.
  - destruct (fs_leb (date_field y.2) (date_field x.2)); cbn.
    + destruct (String.leb_total x.1 y.1) as [E|E]; rewrite E; cbn; auto.
    + left. exact I.
  - destruct (fs_leb (date_field x.2) (date_field y.2)); cbn.
    + destruct (String.leb_total x.1 y.1) as [E|E]; rewrite E; cbn; auto.
    + right. exact I.
Qed.

Global Instance snapshot_le_trans : Transitive snapshot_le.
Proof.
  intros x y z. unfold snapshot_le, snapshot_leb. cbv zeta.
  destruct (fs_leb (date_field x.2) (date_field y.2)) eqn:Hxy; [|contradiction].
  destruct (fs_leb (date_field y.2) (date_field z.2)) eqn:Hyz; [|intros _ []].
  rewrite (fs_leb_trans _ _ _ Hxy Hyz).
  destruct (fs_leb (date_field z.2) (date_field x.2)) eqn:Hzx; [|intros _ _; exact I].
  rewrite (fs_leb_trans _ _ _ Hyz Hzx), (fs_leb_trans _ _ _ Hzx Hxy).
  intros H1 H2. apply Is_true_true.
  eapply String_leb_trans; apply Is_true_true; eassumption.
Qed.

Lemma query_snapshot_sorted c : StronglySorted snapshot_le (query_snapshot c).
Proof. apply StronglySorted_merge_sort; apply _. Qed.

Lemma elem_of_query_snapshot c x :
  x ∈ query_snapshot c <-> c !! x.1 = Some x.2 /\ is_Some (x.2 !! "date").
Proof.
  unfold query_snapshot. rewrite merge_sort_Permutation, list_elem_of_filter.
  destruct x as [i d]. rewrite elem_of_map_to_list. cbn. tauto.
Qed.

Lemma to_reminder_Some x r :
  to_reminder x = Some r
  <-> exists t ts,
        x.2 !! "text" = Some t /\ x.2 !! "date" = Some (FTimestamp ts)
        /\ truthy (fromFirestore t) = true
        /\ r = {| id := x.1; text := fromFirestore t; date := Timestamp_toDate ts |}.
Proof.
  unfold to_reminder. split.
  - destruct (x.2 !! "text") as [t|]; [|discriminate].
    destruct (x.2 !! "date") as [[| | |ts|]|]; try discriminate.
    destruct (truthy (fromFirestore t)) eqn:Ht; [|discriminate].
    intros [= <-]. exists t, ts. auto.
  - intros (t & ts & -> & -> & -> & ->). reflexivity.
Qed.

Lemma StronglySorted_omap {A B} (R : relation A) (R' : relation B)
    (f : A -> option B) (l : list A) :
  (forall x y a b, x ∈ l -> y ∈ l -> R x y -> f x = Some a -> f y = Some b -> R' a b) ->
  StronglySorted R l -> StronglySorted R' (omap f l).
Proof.
  intros HR Hs. induction Hs as [|x l Hs IH Hall]; cbn; [constructor|].
  assert (IH' : StronglySorted R' (omap f l)).
  { apply IH. intros x0 y a b Hx Hy. apply HR; apply elem_of_cons; auto. }
  destruct (f x) as [a|] eqn:Hfx; [|exact IH'].
  constructor; [exact IH'|].
  apply Forall_forall. intros b Hb.
  apply list_elem_of_omap in Hb as (y & Hy & Hfy).
  apply (HR x y a b); try assumption.
  - apply elem_of_cons. auto.
  - apply elem_of_cons. auto.
  - rewrite Forall_forall in Hall. apply Hall, Hy.
Qed.

(* ================================================================== *)
(** * List *)
(* ================================================================== *)

Lemma getReminders_returns uid w :
  trim uid <> "" -> single_segment uid = true ->
  exists w',
    getReminders (VString uid) w
    = (Return (omap to_reminder (query_snapshot (default ∅ (db w !! reminders_of uid)))), w')
    /\ db w' = db w
    /\ requests w' = (requests w ++ [GetDocs uid])%list.
Proof.
  intros Huid Hseg.
  pose proof (getReminders_wp (VString uid) w) as H. unfold wp, get_post in H.
  destruct (getReminders (VString uid) w) as [[l|e] w']; cbn [fst snd] in *.
  - destruct H as (uid' & c & [= <-] & _ & Hc & Hdb & Hreq & ->).
    rewrite (collection_path_reminders uid Hseg) in Hc. injection Hc as <-.
    exists w'. auto.
  - destruct H as [_ [Hbad|(uid' & [= <-] & Hc)]].
    + destruct Huid. apply Hbad. reflexivity.
    + rewrite (collection_path_reminders uid Hseg) in Hc. discriminate.
Qed.

(** The reminders returned are exactly the documents of the collection that
    have a truthy [text] and a timestamp [date], converted. *)
Lemma elem_of_listed_reminders c w r :
  r ∈ omap to_reminder (query_snapshot (default ∅ (db w !! c)))
  <-> exists d t ts,
        stored_at w c (id r) = Some d
        /\ d !! "text" = Some t /\ truthy (fromFirestore t) = true
        /\ d !! "date" = Some (FTimestamp ts)
        /\ text r = fromFirestore t /\ date r = Timestamp_toDate ts.
Proof.
  rewrite list_elem_of_omap. split.
  - intros ([i d] & Hx & Hr).
    apply elem_of_query_snapshot in Hx as [Hx _]. cbn in Hx.
    apply to_reminder_Some in Hr as (t & ts & Ht & Hd & Htruthy & ->). cbn in *.
    exists d, t, ts. rewrite <- stored_at_collection. auto 10.
  - intros (d & t & ts & Hst & Ht & Htruthy & Hd & Htext & Hdate).
    exists (id r, d). split.
    + apply elem_of_query_snapshot. cbn. rewrite stored_at_collection, Hd. eauto.
    + apply to_reminder_Some. exists t, ts. cbn.
      destruct r as [i tx dt]. cbn in *. subst. auto.
Qed.

Lemma listed_ids l i :
  i ∈ map id (omap to_reminder l) -> i ∈ map fst l.
Proof.
  induction l as [|x l IH]; cbn; [exact (fun H => H)|].
  destruct (to_reminder x) as [r|] eqn:Hr; cbn.
  - apply to_reminder_Some in Hr as (t & ts & _ & _ & _ & ->). cbn [id].
    rewrite !elem_of_cons. intros [->|H]; auto.
  - intros H. apply elem_of_cons. auto.
Qed.

(** No document is listed twice. *)
Lemma listed_reminders_NoDup c :
  NoDup (map id (omap to_reminder (query_snapshot c))).
Proof.
  assert (Hkeys : NoDup (map fst (query_snapshot c))).
  { unfold query_snapshot.
    change (NoDup (fst <$> merge_sort snapshot_le
                      (filter (fun p => is_Some (p.2 !! "date")) (map_to_list c)))).
    rewrite merge_sort_Permutation.
    eapply sublist_NoDup; [apply (NoDup_fst_map_to_list c)|].
    apply fmap_sublist, sublist_filter. }
  induction (query_snapshot c) as [|x l IH]; cbn; [constructor|].
  apply NoDup_cons in Hkeys as [Hx Hl].
  destruct (to_reminder x) as [r|] eqn:Hr; cbn; [|apply IH, Hl].
  apply NoDup_cons. split; [|apply IH, Hl].
  apply to_reminder_Some in Hr as (t & ts & _ & _ & _ & ->). cbn [id].
  intros Hin. apply Hx, listed_ids, Hin.
Qed.

(** C4, amended.  For an owner whose identifier is a non-blank single path
    segment and for every state of the store, List does not raise, leaves the
    store as it is, and returns, each once, exactly the documents of the
    owner's collection whose [text] is truthy (so not missing, null, false, 0,
    NaN or the empty string) and whose [date] is a storage timestamp, each
    with its id, its text as stored and its date as a native Date: a record
    that fails the test is skipped and never keeps the others from being
    returned. *)
Theorem List_skips_records_failing_its_test (uid : string) (w : world) :
  trim uid <> "" -> single_segment uid = true ->
  exists reminders w',
    getReminders (VString uid) w = (Return reminders, w')
    /\ db w' = db w
    /\ NoDup (map id reminders)
    /\ forall r,
         r ∈ reminders
         <-> exists d t ts,
               stored_at w (reminders_of uid) (id r) = Some d
               /\ d !! "text" = Some t /\ truthy (fromFirestore t) = true
               /\ d !! "date" = Some (FTimestamp ts)
               /\ text r = fromFirestore t /\ date r = Timestamp_toDate ts.
Proof.
  intros Huid Hseg.
  destruct (getReminders_returns uid w Huid Hseg) as (w' & Hrun & Hdb & _).
  eexists. exists w'. split; [exact Hrun|]. split; [exact Hdb|].
  split; [apply listed_reminders_NoDup|].
  intros r. apply elem_of_listed_reminders.
Qed.

Lemma List_skips_records_failing_its_test_witness :
  exists reminders w',
    getReminders (VString "u1") corrupt_world = (Return reminders, w')
    /\ db w' = db corrupt_world
    /\ {| id := "r2"; text := VString "Buy flowers";
          date := mkDate (Int 1735776000000) |} ∈ reminders.
Proof.
  destruct (List_skips_records_failing_its_test "u1" corrupt_world)
    as (reminders & w' & Hrun & Hdb & _ & Hiff).
  - vm_compute. discriminate.
  - reflexivity.
  - exists reminders, w'. split; [exact Hrun|]. split; [exact Hdb|].
    apply Hiff.
    exists {["text" := FString "Buy flowers";
             "date" := FTimestamp (mkTimestamp 1735776000000)]},
      (FString "Buy flowers"), (mkTimestamp 1735776000000).
    vm_compute. repeat split.
Defined.

(** C4 as stated fails: a stored record whose [text] is the number 42, not
    a string, is not skipped. *)
Lemma List_keeps_record_with_non_string_text :
  ~ List_skips_malformed_text corrupt_world "u1".
Proof.
  intros Hclaim.
  refine (Hclaim _ _ _ "r1" {["text" := FNumber (Int 42);
                              "date" := FTimestamp (mkTimestamp 1735689600000)]}
            _ _ {| id := "r1"; text := VNumber (Int 42);
                   date := mkDate (Int 1735689600000) |} _ eq_refl).
  - vm_compute. reflexivity.
  - vm_compute. reflexivity.
  - intros (s & Hs & _). vm_compute in Hs. discriminate.
  - apply list_elem_of_In. vm_compute. auto.
Qed.

Lemma Timestamp_toDate_valid ts :
  valid_timestamp ts -> Timestamp_toDate ts = mkDate (Int (toMillis ts)).
Proof.
  unfold valid_timestamp, Timestamp_toDate, Date_of_number, TimeClip,
    MIN_SECONDS, MAX_SECONDS, maxTimeValue.
  intros H. destruct (Z.ltb_spec 8640000000000000 (Z.abs (toMillis ts))) as [Hlt|Hle];
    [|reflexivity].
  exfalso. revert H Hlt. generalize (toMillis ts). intros ms H Hlt.
  Z.div_mod_to_equations. lia.
Qed.

(** Along the order of the query, timestamps are chronological. *)
Lemma snapshot_le_timestamps x y ts1 ts2 :
  snapshot_le x y ->
  x.2 !! "date" = Some (FTimestamp ts1) -> y.2 !! "date" = Some (FTimestamp ts2) ->
  toMillis ts1 <= toMillis ts2.
Proof.
  unfold snapshot_le, snapshot_leb, date_field. cbv zeta. intros H Hx Hy.
  rewrite Hx, Hy in H. cbn [from_option Datatypes.id fs_leb] in H.
  destruct (Z.leb_spec (toMillis ts1) (toMillis ts2)); [assumption|contradiction].
Qed.

Lemma listed_reminders_sorted c w :
  stored_timestamps_valid w ->
  StronglySorted (fun r1 r2 => date_le (date r1) (date r2))
    (omap to_reminder (query_snapshot (default ∅ (db w !! c)))).
Proof.
  intros Hvalid.
  apply (StronglySorted_omap snapshot_le); [|apply query_snapshot_sorted].
  intros [i1 d1] [i2 d2] r1 r2 Hx Hy Hle Hr1 Hr2.
  apply elem_of_query_snapshot in Hx as [Hx _], Hy as [Hy _].
  rewrite stored_at_collection in Hx, Hy. cbn in Hx, Hy.
  apply to_reminder_Some in Hr1 as (t1 & ts1 & _ & Hd1 & _ & ->).
  apply to_reminder_Some in Hr2 as (t2 & ts2 & _ & Hd2 & _ & ->).
  cbn [date fst snd] in *. exists (toMillis ts1), (toMillis ts2).
  rewrite (Timestamp_toDate_valid ts1) by exact (Hvalid _ _ _ Hx _ _ Hd1).
  rewrite (Timestamp_toDate_valid ts2) by exact (Hvalid _ _ _ Hy _ _ Hd2).
  split; [reflexivity|]. split; [reflexivity|].
  exact (snapshot_le_timestamps (i1, d1) (i2, d2) ts1 ts2 Hle Hd1 Hd2).
Qed.

(** C9, amended.  For an owner whose identifier is a non-blank single path
    segment and a store whose timestamps are ones the database can hold, List
    returns every valid record of the owner's collection (a non-empty string
    for [text], a timestamp for [date]); what it returns are records of that
    collection only, each once, with the text and the date that are stored;
    and it returns them in ascending order of date.  And the example of the
    specification: reminders dated 2025-01-03, 2025-01-01 and 2025-01-02,
    created in that order, come back as 01, 02, 03. *)
Theorem List_returns_valid_records_by_ascending_date :
  (forall uid w,
     trim uid <> "" -> single_segment uid = true -> stored_timestamps_valid w ->
     exists reminders w',
       getReminders (VString uid) w = (Return reminders, w')
       /\ (forall rid d s ts,
             stored_at w (reminders_of uid) rid = Some d ->
             d !! "text" = Some (FString s) -> s <> "" ->
             d !! "date" = Some (FTimestamp ts) ->
             {| id := rid; text := VString s; date := Timestamp_toDate ts |} ∈ reminders)
       /\ (forall r, r ∈ reminders ->
             exists d t ts,
               stored_at w (reminders_of uid) (id r) = Some d
               /\ d !! "text" = Some t /\ text r = fromFirestore t
               /\ d !! "date" = Some (FTimestamp ts) /\ date r = Timestamp_toDate ts)
       /\ NoDup (map id reminders)
       /\ StronglySorted (fun r1 r2 => date_le (date r1) (date r2)) reminders)
  /\ (let reminder t ms :=
        VObject (<["text" := VString t]> (<["date" := VDate (mkDate (Int ms))]> ∅)) in
      let w := run_calls [Create (VString "u1") (reminder "third" 1735862400000);
                          Create (VString "u1") (reminder "first" 1735689600000);
                          Create (VString "u1") (reminder "second" 1735776000000)]
                 empty_world in
      exists reminders w',
        getReminders (VString "u1") w = (Return reminders, w')
        /\ map text reminders = [VString "first"; VString "second"; VString "third"]
        /\ map date reminders = [mkDate (Int 1735689600000); mkDate (Int 1735776000000);
                                 mkDate (Int 1735862400000)]).
Proof.
  split.
  - intros uid w Huid Hseg Hvalid.
    destruct (getReminders_returns uid w Huid Hseg) as (w' & Hrun & _ & _).
    eexists. exists w'. split; [exact Hrun|]. split; [|split; [|split]].
    + intros rid d s ts Hst Ht Hs Hd. apply elem_of_listed_reminders. cbn.
      exists d, (FString s), ts. cbn.
      destruct (String.eqb_spec s "") as [E|_]; [contradiction|]. auto 10.
    + intros r Hr.
      apply elem_of_listed_reminders in Hr as (d & t & ts & Hst & Ht & _ & Hd & Htext & Hdate).
      exists d, t, ts. auto 10.
    + apply listed_reminders_NoDup.
    + apply listed_reminders_sorted, Hvalid.
  - cbv zeta. eexists. eexists. split; [vm_compute; reflexivity|].
    split; reflexivity.
Qed.

(** C9 as stated fails: it speaks of every owner with a non-empty string
    identifier, and for the identifier [a/b] List raises the error of the
    client (the path [users/a/b/reminders] has an even number of segments and
    names no collection), whatever the store holds; nothing is sent. *)
Lemma List_raises_for_owner_with_slash :
  trim "a/b" <> ""
  /\ getReminders (VString "a/b") corrupt_world
     = (Throw (FirestoreError "invalid-argument"), corrupt_world)
  /\ getReminders (VString "a/b") empty_world
     = (Throw (FirestoreError "invalid-argument"), empty_world).
Proof.
  split; [vm_compute; discriminate|]. split; vm_compute; reflexivity.
Qed.

Lemma List_returns_valid_records_by_ascending_date_witness :
  let w := run_calls
             [Create (VString "u1")
                (VObject (<["text" := VString "third"]>
                            (<["date" := VDate (mkDate (Int 1735862400000))]> ∅)));
              Create (VString "u1")
                (VObject (<["text" := VString "first"]>
                            (<["date" := VDate (mkDate (Int 1735689600000))]> ∅)))]
             empty_world in
  trim "u1" <> "" /\ single_segment "u1" = true /\ stored_timestamps_valid w
  /\ exists reminders w',
       getReminders (VString "u1") w = (Return reminders, w')
       /\ StronglySorted (fun r1 r2 => date_le (date r1) (date r2)) reminders.
Proof.
  intros w.
  assert (Huid : trim "u1" <> "") by (vm_compute; discriminate).
  assert (Hvalid : stored_timestamps_valid w)
    by (apply stored_timestamps_valid_run_calls, every_document_empty_world).
  split; [exact Huid|]. split; [reflexivity|]. split; [exact Hvalid|].
  destruct List_returns_valid_records_by_ascending_date as [Hgeneral _].
  destruct (Hgeneral "u1" w Huid eq_refl Hvalid)
    as (reminders & w' & Hrun & _ & _ & _ & Hsorted).
  exists reminders, w'. split; [exact Hrun|exact Hsorted].
Defined.

(* ================================================================== *)
(** * The calendar of the Date object *)
(* ================================================================== *)

Lemma is_leap_year_spec y :
  is_leap_year y = true <-> (y mod 4 = 0 /\ y mod 100 <> 0) \/ y mod 400 = 0.
Proof.
  unfold is_leap_year.
  rewrite orb_true_iff, andb_true_iff, negb_true_iff, !Z.eqb_eq, Z.eqb_neq. tauto.
Qed.

Lemma DayFromYear_succ y : DayFromYear (y + 1) = DayFromYear y + DaysInYear y.
Proof.
  unfold DaysInYear.
  destruct (is_leap_year y) eqn:E.
  - apply is_leap_year_spec in E. unfold DayFromYear. Z.div_mod_to_equations. lia.
  - assert (H : ~ ((y mod 4 = 0 /\ y mod 100 <> 0) \/ y mod 400 = 0))
      by (rewrite <- is_leap_year_spec; congruence).
    unfold DayFromYear. Z.div_mod_to_equations. lia.
Qed.

Lemma DayFromYear_mono y1 y2 : y1 <= y2 -> DayFromYear y1 <= DayFromYear y2.
Proof. unfold DayFromYear. intros H. Z.div_mod_to_equations. lia. Qed.

(** [YearFromTime t] is the year whose days include the day of [t]: the
    largest [y] with [TimeFromYear y <= t]. *)
Lemma YearFromTime_spec t :
  DayFromYear (YearFromTime t) <= Day t < DayFromYear (YearFromTime t + 1).
Proof.
  unfold YearFromTime.
  set (d := Day t). clearbody d.
  set (y := 1970 + d * 400 / 146097).
  assert (Hlo : DayFromYear (y - 1) <= d)
    by (unfold DayFromYear, y; Z.div_mod_to_equations; lia).
  assert (Hhi : d < DayFromYear (y + 2))
    by (unfold DayFromYear, y; Z.div_mod_to_equations; lia).
  destruct (d <? DayFromYear y) eqn:E1.
  - replace (y - 1 + 1) with y by lia. lia.
  - destruct (DayFromYear (y + 1) <=? d) eqn:E2.
    + replace (y + 1 + 1) with (y + 2) by lia. lia.
    + lia.
Qed.

Lemma YearFromTime_largest t y :
  TimeFromYear y <= t -> y <= YearFromTime t.
Proof.
  unfold TimeFromYear. intros H.
  destruct (Z.le_gt_cases y (YearFromTime t)) as [Hle|Hgt]; [exact Hle|exfalso].
  pose proof (YearFromTime_spec t) as [_ Hhi].
  pose proof (DayFromYear_mono (YearFromTime t + 1) y ltac:(lia)) as Hm.
  unfold Day, msPerDay in *. Z.div_mod_to_equations. lia.
Qed.

Lemma InLeapYear_cases t :
  (InLeapYear t = 0 /\ DaysInYear (YearFromTime t) = 365)
  \/ (InLeapYear t = 1 /\ DaysInYear (YearFromTime t) = 366).
Proof.
  unfold InLeapYear, DaysInYear. destruct (is_leap_year (YearFromTime t)); auto.
Qed.

Lemma DayWithinYear_range t :
  0 <= DayWithinYear t < DaysInYear (YearFromTime t).
Proof.
  unfold DayWithinYear. pose proof (YearFromTime_spec t) as H.
  rewrite DayFromYear_succ in H. lia.
Qed.

Lemma MonthFromTime_range t : 0 <= MonthFromTime t <= 11.
Proof.
  unfold MonthFromTime. cbv zeta.
  repeat match goal with |- context [if ?b then _ else _] => destruct b end; lia.
Qed.

(** The three calendar fields of [t] determine its day number, through the
    arithmetic of [MakeDay]. *)
Lemma month_start_DateFromTime t :
  month_start (MonthFromTime t) (InLeapYear t) + DateFromTime t - 1 = DayWithinYear t.
Proof.
  unfold DateFromTime, MonthFromTime. cbv zeta.
  repeat match goal with
         | |- context [if ?b then _ else _] => destruct b; [cbn [month_start]; lia|]
         end.
  cbn [month_start]. lia.
Qed.

Lemma DateFromTime_range t : 1 <= DateFromTime t <= 31.
Proof.
  pose proof (DayWithinYear_range t) as Hd.
  destruct (InLeapYear_cases t) as [[Hl Hy]|[Hl Hy]]; rewrite Hy in Hd;
    unfold DateFromTime, MonthFromTime; cbv zeta; rewrite Hl;
    repeat match goal with
           | |- context [if ?a <? ?b then _ else _] =>
               destruct (Z.ltb_spec a b); [lia|]
           end; lia.
Qed.

Lemma MakeDay_fields t :
  MakeDay (YearFromTime t) (MonthFromTime t) (DateFromTime t) = Day t.
Proof.
  pose proof (MonthFromTime_range t) as Hm.
  unfold MakeDay. cbv zeta.
  rewrite (Z.div_small (MonthFromTime t) 12), (Z.mod_small (MonthFromTime t) 12), Z.add_0_r
    by lia.
  fold (InLeapYear t).
  pose proof (month_start_DateFromTime t). unfold DayWithinYear in *. lia.
Qed.

(** The calendar fields depend on the day number only. *)
Lemma YearFromTime_Day t1 t2 : Day t1 = Day t2 -> YearFromTime t1 = YearFromTime t2.
Proof. unfold YearFromTime. intros ->. reflexivity. Qed.

Lemma MonthFromTime_Day t1 t2 : Day t1 = Day t2 -> MonthFromTime t1 = MonthFromTime t2.
Proof.
  intros H. unfold MonthFromTime, DayWithinYear, InLeapYear.
  rewrite H, (YearFromTime_Day _ _ H). reflexivity.
Qed.

Lemma DateFromTime_Day t1 t2 : Day t1 = Day t2 -> DateFromTime t1 = DateFromTime t2.
Proof.
  intros H. unfold DateFromTime.
  rewrite (MonthFromTime_Day _ _ H). unfold DayWithinYear, InLeapYear.
  rewrite H, (YearFromTime_Day _ _ H). reflexivity.
Qed.

(* ================================================================== *)
(** * Strings of digits *)
(* ================================================================== *)

Lemma is_digit_cases c :
  is_digit c = true ->
  In c ["0"; "1"; "2"; "3"; "4"; "5"; "6"; "7"; "8"; "9"]%char.
Proof.
  destruct c as [[] [] [] [] [] [] [] []]; vm_compute; intros H;
    try discriminate H; tauto.
Qed.

Lemma is_digit_not_space c : is_digit c = true -> is_white_space c = false.
Proof.
  intros H. apply is_digit_cases in H. cbn in H.
  repeat (destruct H as [<-|H]; [reflexivity|]). contradiction.
Qed.

Lemma is_digit_not_minus c : is_digit c = true -> Ascii.eqb c "-" = false.
Proof.
  intros H. apply is_digit_cases in H. cbn in H.
  repeat (destruct H as [<-|H]; [reflexivity|]). contradiction.
Qed.

Lemma trimEnd_digits s : all_digits s = true -> trimEnd s = s.
Proof.
  induction s as [|c s IH]; [reflexivity|]. cbn. intros H.
  apply andb_true_iff in H as [Hc Hs]. rewrite (IH Hs).
  destruct s; [|reflexivity]. rewrite (is_digit_not_space c Hc). reflexivity.
Qed.

Lemma trim_digits s : all_digits s = true -> trim s = s.
Proof.
  intros H. unfold trim.
  replace (trimStart s) with s; [apply trimEnd_digits, H|].
  destruct s as [|c s]; [reflexivity|]. cbn in *.
  apply andb_true_iff in H as [Hc _]. rewrite (is_digit_not_space c Hc). reflexivity.
Qed.

Lemma split_digits s : all_digits s = true -> split "-" s = [s].
Proof.
  induction s as [|c s IH]; [reflexivity|]. cbn. intros H.
  apply andb_true_iff in H as [Hc Hs].
  rewrite (is_digit_not_minus c Hc), (IH Hs). reflexivity.
Qed.

Lemma split_digits_minus s rest :
  all_digits s = true -> split "-" (s +:+ String "-" rest) = s :: split "-" rest.
Proof.
  induction s as [|c s IH]; [reflexivity|]. intros H.
  apply andb_true_iff in H as [Hc Hs].
  change (String c s +:+ String "-" rest) with (String c (s +:+ String "-" rest)).
  cbn [split]. rewrite (is_digit_not_minus c Hc), (IH Hs). reflexivity.
Qed.

Lemma all_digits_string_of_uint u : all_digits (NilEmpty.string_of_uint u) = true.
Proof. induction u; cbn; auto. Qed.

Lemma all_digits_toString y : 0 <= y -> all_digits (Number_toString (Int y)) = true.
Proof.
  intros Hy. unfold Number_toString.
  destruct y as [|p|p]; [reflexivity| |lia].
  cbn. destruct (Pos.to_uint p) eqn:E; try apply all_digits_string_of_uint.
  reflexivity.
Qed.

(** Converting a natural number to a string and back. *)
Lemma Number_of_string_toString y :
  0 <= y -> Number_of_string (Number_toString (Int y)) = Int y.
Proof.
  intros Hy. unfold Number_of_string. rewrite trim_digits by (apply all_digits_toString, Hy).
  unfold Number_toString.
  destruct y as [|p|p]; [reflexivity| |lia].
  cbn [Z.to_int NilZero.string_of_int].
  assert (Hnil : Pos.to_uint p <> Decimal.Nil).
  { intros E. pose proof (DecimalPos.Unsigned.of_to p) as H. rewrite E in H. discriminate. }
  unfold NilZero.string_of_uint.
  destruct (Pos.to_uint p) eqn:E; try contradiction;
    rewrite <- E, NilEmpty.usu; f_equal;
    unfold Z.of_uint; rewrite DecimalPos.Unsigned.of_to; reflexivity.
Qed.

Lemma pad2_spec n :
  0 <= n <= 99 ->
  regex_test [Digit; Digit] (pad2 n) = true
  /\ all_digits (pad2 n) = true
  /\ Number_of_string (pad2 n) = Int n.
Proof.
  intros Hn.
  assert (Hall : forallb pad2_ok (seqZ 0 100) = true) by (vm_compute; reflexivity).
  rewrite forallb_forall in Hall.
  assert (Hok : pad2_ok n = true).
  { apply Hall, list_elem_of_In, elem_of_seqZ. lia. }
  unfold pad2_ok in Hok.
  apply andb_true_iff in Hok as [Hok Hnum]. apply andb_true_iff in Hok as [Hre Hdig].
  split; [exact Hre|]. split; [exact Hdig|].
  destruct (Number_of_string (pad2 n)) as [|m]; [discriminate|].
  apply Z.eqb_eq in Hnum. congruence.
Qed.

Lemma year4_spec y :
  1000 <= y <= 9999 ->
  regex_test [Digit; Digit; Digit; Digit] (Number_toString (Int y)) = true.
Proof.
  intros Hy.
  assert (Hall : forallb year4_ok (seqZ 1000 9000) = true) by (vm_compute; reflexivity).
  rewrite forallb_forall in Hall.
  apply Hall, list_elem_of_In, elem_of_seqZ. lia.
Qed.

Lemma regex_test_app p1 p2 s1 s2 :
  regex_test p1 s1 = true -> regex_test p2 s2 = true ->
  regex_test (p1 ++ p2) (s1 +:+ s2) = true.
Proof.
  revert s1. induction p1 as [|a p1 IH]; intros [|c s1] H1 H2; try discriminate H1.
  - exact H2.
  - cbn in H1. apply andb_true_iff in H1 as [Ha H1].
    change (regex_test (a :: (p1 ++ p2)) (String c (s1 +:+ s2)) = true).
    cbn. rewrite Ha. apply IH; assumption.
Qed.

Lemma String_append_cons c s1 s2 : String c s1 +:+ s2 = String c (s1 +:+ s2).
Proof. reflexivity. Qed.

Section DisplayStringFacts.
Context {host : HostEnvironment}.

Lemma format_fields_display t : display_of t (format_fields (mkDate (Int t))).
Proof.
  pose proof (MonthFromTime_range (LocalTime t)) as Hm.
  pose proof (DateFromTime_range (LocalTime t)) as Hd.
  destruct (pad2_spec (MonthFromTime (LocalTime t) + 1)) as (Hm1 & _ & Hm2); [lia|].
  destruct (pad2_spec (DateFromTime (LocalTime t))) as (Hd1 & _ & Hd2); [lia|].
  exists (pad2 (MonthFromTime (LocalTime t) + 1)), (pad2 (DateFromTime (LocalTime t))).
  split; [reflexivity|]. repeat (split; [assumption|]).
  intros Hy.
  change dateRegex with ([Digit; Digit; Digit; Digit] ++ [Lit "-"%char]
                         ++ [Digit; Digit] ++ [Lit "-"%char] ++ [Digit; Digit])%list.
  apply regex_test_app; [apply year4_spec, Hy|].
  apply (regex_test_app [Lit "-"%char] _ "-"); [reflexivity|].
  apply regex_test_app; [exact Hm1|].
  apply (regex_test_app [Lit "-"%char] _ "-"); [reflexivity|exact Hd1].
Qed.

Lemma display_of_not_empty t s : display_of t s -> s <> "".
Proof.
  intros (mm & dd & -> & _). 
  destruct (Number_toString (Int (YearFromTime (LocalTime t)))); discriminate.
Qed.

Lemma format_resolved_valid t w :
  format_resolved (VDate (mkDate (Int t))) w = (Return (format_fields (mkDate (Int t))), w).
Proof. reflexivity. Qed.

Lemma format_resolved_invalid w :
  exists w', format_resolved (VDate (mkDate NaN)) w = (Return "", w')
             /\ no_storage_io w w'.
Proof. eexists. split; [reflexivity|split; reflexivity]. Qed.

Lemma formatDateForDisplay_total v w :
  exists s w',
    formatDateForDisplay v w = (Return s, w')
    /\ no_storage_io w w'
    /\ match resolved_time v with
       | Some t => display_of t s
       | None => s = ""
       end.
Proof.
  destruct v as [| |b|n|s|[[|t]]|ts|props|[e|r]];
    try (eexists; eexists; split; [reflexivity|]; split; [split; reflexivity|];
         first [reflexivity | apply format_fields_display]).
  - (* a Timestamp *)
    unfold resolved_time. cbn [resolved_date].
    unfold formatDateForDisplay. cbn [is_nullish toDate_method].
    destruct (Timestamp_toDate ts) as [[|t]] eqn:E;
      eexists; eexists; (split; [reflexivity|]);
      (split; [split; reflexivity|]);
      first [reflexivity | apply format_fields_display].
  - (* a duck-typed object whose method returns *)
    destruct r as [| |b|n|s|[[|t]]|ts|props|c];
      eexists; eexists; (split; [reflexivity|]); (split; [split; reflexivity|]);
      first [reflexivity | apply format_fields_display].
Qed.

End DisplayStringFacts.

Lemma two_digits_all_digits s : regex_test [Digit; Digit] s = true -> all_digits s = true.
Proof.
  destruct s as [|c1 [|c2 [|c3 s]]]; cbn; try discriminate.
  - rewrite andb_false_r. discriminate.
  - rewrite !andb_true_r. exact (fun H => H).
  - rewrite !andb_false_r. discriminate.
Qed.

Section RoundTrip.
Context {host : HostEnvironment}.

(** Parsing a display string gives back the three fields it was made of. *)
Lemma parse_display_of t s :
  display_of t s -> 0 <= YearFromTime (LocalTime t) ->
  parse_display_date s
  = Date_of_fields (Int (YearFromTime (LocalTime t)))
                   (Int (MonthFromTime (LocalTime t)))
                   (Int (DateFromTime (LocalTime t))).
Proof.
  intros (mm & dd & -> & Hm1 & Hm2 & Hd1 & Hd2 & _) Hy.
  unfold parse_display_date. cbv zeta.
  change ("-" +:+ mm +:+ "-" +:+ dd) with (String "-" (mm +:+ String "-" dd)).
  rewrite split_digits_minus by (apply all_digits_toString, Hy).
  rewrite split_digits_minus by (apply two_digits_all_digits, Hm1).
  rewrite split_digits by (apply two_digits_all_digits, Hd1).
  cbn [map nth]. rewrite Number_of_string_toString, Hm2, Hd2 by exact Hy.
  cbn [number_sub]. do 3 f_equal. lia.
Qed.

(** [new Date(y, m, d)] on the local fields of a valid time value, from
    year 100 on: local midnight of the same day. *)
Lemma Date_of_fields_local t :
  Z.abs t <= maxTimeValue -> 100 <= YearFromTime (LocalTime t) ->
  Date_of_fields (Int (YearFromTime (LocalTime t)))
                 (Int (MonthFromTime (LocalTime t)))
                 (Int (DateFromTime (LocalTime t)))
  = mkDate (Int (UTC (Day (LocalTime t) * msPerDay))).
Proof.
  intros Ht Hy. unfold Date_of_fields.
  destruct (Z.leb_spec (YearFromTime (LocalTime t)) 99) as [Hle|_]; [lia|].
  rewrite andb_false_r, MakeDay_fields.
  unfold MakeDate, MakeTime. rewrite Z.add_0_r. f_equal.
  unfold TimeClip.
  destruct (Z.ltb_spec maxTimeValue (Z.abs (UTC (Day (LocalTime t) * msPerDay))))
    as [Hbig|_]; [exfalso|reflexivity].
  pose proof (YearFromTime_spec (LocalTime t)) as [Hlo _].
  pose proof (DayFromYear_mono 100 _ Hy) as Hmono.
  pose proof LocalTZA_bound as Htz.
  unfold UTC, LocalTime, Day, maxTimeValue, msPerDay in *.
  assert (H100 : DayFromYear 100 = -683003) by reflexivity.
  rewrite H100 in Hmono.
  revert Hbig Hlo Hmono Ht Htz.
  generalize (DayFromYear (YearFromTime (t + LocalTZA))). intros dy.
  generalize LocalTZA. intros tz Hbig Hlo Hmono Ht Htz.
  Z.div_mod_to_equations. lia.
Qed.

Lemma Day_local_midnight t :
  Day (LocalTime (UTC (Day (LocalTime t) * msPerDay))) = Day (LocalTime t).
Proof.
  unfold LocalTime, UTC.
  replace (Day (t + LocalTZA) * msPerDay - LocalTZA + LocalTZA)
    with (Day (t + LocalTZA) * msPerDay) by lia.
  unfold Day at 1. apply Z.div_mul. discriminate.
Qed.

Lemma display_round_trip_valid t w :
  Z.abs t <= maxTimeValue -> 100 <= YearFromTime (LocalTime t) ->
  exists s w',
    formatDateForDisplay (VDate (mkDate (Int t))) w = (Return s, w')
    /\ same_calendar_day (parse_display_date s) (mkDate (Int t)).
Proof.
  intros Ht Hy.
  exists (format_fields (mkDate (Int t))), w. split; [reflexivity|].
  rewrite (parse_display_of t) by (try apply format_fields_display; lia).
  rewrite Date_of_fields_local by assumption.
  eexists. exists t. split; [reflexivity|]. split; [reflexivity|].
  pose proof (Day_local_midnight t) as Hday.
  split; [|split].
  - apply YearFromTime_Day, Hday.
  - apply MonthFromTime_Day, Hday.
  - apply DateFromTime_Day, Hday.
Qed.

End RoundTrip.

Lemma number_within_spec bound s :
  number_within bound s = true ->
  all_digits s = true /\ exists n, Number_of_string s = Int n /\ 0 <= n <= bound.
Proof.
  unfold number_within. intros H. apply andb_true_iff in H as [Hd H].
  split; [exact Hd|]. destruct (Number_of_string s) as [|n]; [discriminate|].
  exists n. split; [reflexivity|]. lia.
Qed.

Lemma two_digit_number c1 c2 :
  is_digit c1 = true -> is_digit c2 = true ->
  number_within 99 (String c1 (String c2 "")) = true.
Proof.
  intros H1 H2.
  assert (Hall : forallb (number_within 99) digit_strings_2 = true)
    by (vm_compute; reflexivity).
  rewrite forallb_forall in Hall. apply Hall.
  apply in_flat_map. exists c1. split; [apply is_digit_cases, H1|].
  apply (in_map (fun c => String c1 (String c ""))), is_digit_cases, H2.
Qed.

Lemma four_digit_number c1 c2 c3 c4 :
  is_digit c1 = true -> is_digit c2 = true -> is_digit c3 = true -> is_digit c4 = true ->
  number_within 9999 (String c1 (String c2 (String c3 (String c4 "")))) = true.
Proof.
  intros H1 H2 H3 H4.
  assert (Hall : forallb (number_within 9999) digit_strings_4 = true)
    by (vm_compute; reflexivity).
  rewrite forallb_forall in Hall. apply Hall.
  apply in_flat_map. exists c1. split; [apply is_digit_cases, H1|].
  apply in_flat_map. exists c2. split; [apply is_digit_cases, H2|].
  apply in_flat_map. exists c3. split; [apply is_digit_cases, H3|].
  apply (in_map (fun c => String c1 (String c2 (String c3 (String c ""))))), is_digit_cases, H4.
Qed.

(** What a string must be to pass [dateRegex]. *)
Lemma dateRegex_inv s :
  regex_test dateRegex s = true ->
  exists ys ms ds y m d,
    s = ys +:+ "-" +:+ ms +:+ "-" +:+ ds
    /\ all_digits ys = true /\ all_digits ms = true /\ all_digits ds = true
    /\ Number_of_string ys = Int y /\ 0 <= y <= 9999
    /\ Number_of_string ms = Int m /\ 0 <= m <= 99
    /\ Number_of_string ds = Int d /\ 0 <= d <= 99.
Proof.
  destruct s as [|y1 [|y2 [|y3 [|y4 [|h1 [|m1 [|m2 [|h2 [|d1 [|d2 [|x s]]]]]]]]]]];
    cbn; rewrite ?andb_false_r; try discriminate.
  rewrite !andb_true_r, !andb_true_iff.
  intros (Hy1 & Hy2 & Hy3 & Hy4 & Hh1 & Hm1 & Hm2 & Hh2 & Hd1 & Hd2).
  apply Ascii.eqb_eq in Hh1, Hh2. subst h1 h2.
  destruct (number_within_spec _ _ (four_digit_number y1 y2 y3 y4 Hy1 Hy2 Hy3 Hy4))
    as (Hys & y & Hy & Hyr).
  destruct (number_within_spec _ _ (two_digit_number m1 m2 Hm1 Hm2)) as (Hms & m & Hm & Hmr).
  destruct (number_within_spec _ _ (two_digit_number d1 d2 Hd1 Hd2)) as (Hds & d & Hd & Hdr).
  exists (String y1 (String y2 (String y3 (String y4 "")))),
    (String m1 (String m2 "")), (String d1 (String d2 "")), y, m, d.
  split; [reflexivity|]. auto 20.
Qed.

Section FromDisplayStringFacts.
Context {host : HostEnvironment}.

Lemma month_start_range mn l : 0 <= l <= 1 -> 0 <= month_start mn l <= 335.
Proof.
  intros Hl. unfold month_start.
  destruct mn as [|p|p]; try lia.
  do 4 (try (destruct p as [p|p|]; try lia)).
Qed.

Lemma YearFromTime_unique t y :
  DayFromYear y <= Day t < DayFromYear (y + 1) -> YearFromTime t = y.
Proof.
  intros H. pose proof (YearFromTime_spec t) as Hs.
  destruct (Z.lt_trichotomy (YearFromTime t) y) as [Hlt|[E|Hgt]];
    [exfalso|exact E|exfalso].
  - pose proof (DayFromYear_mono (YearFromTime t + 1) y ltac:(lia)). lia.
  - pose proof (DayFromYear_mono (y + 1) (YearFromTime t) ltac:(lia)). lia.
Qed.

(** [MakeDay] is the one of the standard: the day it gives for the first of
    a month lies in that year and that month, and is its first day. *)
Lemma MakeDay_first_of_month y mn :
  0 <= mn <= 11 ->
  YearFromTime (MakeDay y mn 1 * msPerDay) = y
  /\ MonthFromTime (MakeDay y mn 1 * msPerDay) = mn
  /\ DateFromTime (MakeDay y mn 1 * msPerDay) = 1.
Proof.
  intros Hmn.
  set (l := if is_leap_year y then 1 else 0).
  assert (Hl : 0 <= l <= 1) by (unfold l; destruct (is_leap_year y); lia).
  assert (Hday : Day (MakeDay y mn 1 * msPerDay) = DayFromYear y + month_start mn l).
  { unfold Day. rewrite Z.div_mul by (unfold msPerDay; lia).
    unfold MakeDay. cbv zeta.
    rewrite (Z.div_small mn 12), (Z.mod_small mn 12), Z.add_0_r by lia.
    fold l. lia. }
  assert (Hyear : YearFromTime (MakeDay y mn 1 * msPerDay) = y).
  { apply YearFromTime_unique. rewrite Hday, DayFromYear_succ.
    pose proof (month_start_range mn l Hl).
    unfold DaysInYear. destruct (is_leap_year y); lia. }
  assert (Hwithin : DayWithinYear (MakeDay y mn 1 * msPerDay) = month_start mn l)
    by (unfold DayWithinYear; rewrite Hyear, Hday; lia).
  assert (Hleap : InLeapYear (MakeDay y mn 1 * msPerDay) = l)
    by (unfold InLeapYear; rewrite Hyear; reflexivity).
  assert (Hmonth : MonthFromTime (MakeDay y mn 1 * msPerDay) = mn).
  { unfold MonthFromTime. rewrite Hwithin, Hleap. cbv zeta.
    assert (Hcases : mn = 0 \/ mn = 1 \/ mn = 2 \/ mn = 3 \/ mn = 4 \/ mn = 5 \/ mn = 6
                     \/ mn = 7 \/ mn = 8 \/ mn = 9 \/ mn = 10 \/ mn = 11) by lia.
    clear Hday Hyear Hwithin Hleap. clearbody l.
    assert (Hl' : l = 0 \/ l = 1) by lia.
    destruct Hl' as [-> | ->];
      repeat (destruct Hcases as [-> | Hcases]; [reflexivity|]);
      subst mn; reflexivity. }
  split; [exact Hyear|]. split; [exact Hmonth|].
  unfold DateFromTime. rewrite Hmonth, Hwithin, Hleap. cbv zeta.
  assert (Hcases : mn = 0 \/ mn = 1 \/ mn = 2 \/ mn = 3 \/ mn = 4 \/ mn = 5 \/ mn = 6
                   \/ mn = 7 \/ mn = 8 \/ mn = 9 \/ mn = 10 \/ mn = 11) by lia.
  clear Hday Hyear Hwithin Hleap Hmonth.
  repeat (destruct Hcases as [-> | Hcases]; [cbn [month_start]; lia|]).
  subst mn. cbn [month_start]. lia.
Qed.

(** On a string of three runs of digits with values in the ranges of the
    pattern, [new Date(y, m - 1, d)] is a valid date, whatever the calendar
    says of month [m] and day [d]. *)
Lemma Date_of_fields_pattern y m d :
  0 <= y <= 9999 -> 0 <= m <= 99 -> 0 <= d <= 99 ->
  exists t, Date_of_fields (Int y) (Int (m - 1)) (Int d) = mkDate (Int t).
Proof.
  intros Hy Hm Hd. unfold Date_of_fields. eexists. f_equal.
  unfold TimeClip.
  match goal with
  | |- (if ?b then _ else _) = _ => destruct b eqn:Hbig; [exfalso|reflexivity]
  end.
  apply Z.ltb_lt in Hbig. revert Hbig.
  set (yr := if (0 <=? y) && (y <=? 99) then 1900 + y else y).
  assert (Hyr : 100 <= yr <= 9999).
  { unfold yr. destruct (Z.leb_spec 0 y), (Z.leb_spec y 99); cbn; lia. }
  clearbody yr. unfold MakeDay, MakeDate, MakeTime, UTC. cbv zeta.
  set (ym := yr + (m - 1) / 12).
  assert (Hym : 99 <= ym <= 10007) by (unfold ym; Z.div_mod_to_equations; lia).
  pose proof (DayFromYear_mono 99 ym ltac:(lia)) as Hlo.
  pose proof (DayFromYear_mono ym 10007 ltac:(lia)) as Hhi.
  assert (H99 : DayFromYear 99 = -683368) by reflexivity.
  assert (H10007 : DayFromYear 10007 = 2935454) by reflexivity.
  rewrite H99 in Hlo. rewrite H10007 in Hhi.
  assert (Hms : 0 <= month_start ((m - 1) mod 12) (if is_leap_year ym then 1 else 0) <= 335)
    by (apply month_start_range; destruct (is_leap_year ym); lia).
  pose proof LocalTZA_bound as Htz. unfold maxTimeValue, msPerDay in *.
  clearbody ym. lia.
Qed.

Lemma fromDisplayString_rejects s :
  regex_test dateRegex s = false -> fromDisplayString s = None.
Proof.
  intros H. unfold fromDisplayString, validate. cbn [errors_date]. rewrite H. cbn.
  destruct (String.eqb s ""); reflexivity.
Qed.

Lemma parse_display_date_pattern ys ms ds y m d :
  all_digits ys = true -> all_digits ms = true -> all_digits ds = true ->
  Number_of_string ys = Int y -> Number_of_string ms = Int m ->
  Number_of_string ds = Int d ->
  parse_display_date (ys +:+ "-" +:+ ms +:+ "-" +:+ ds)
  = Date_of_fields (Int y) (Int (m - 1)) (Int d).
Proof.
  intros Hys Hms Hds Hy Hm Hd. unfold parse_display_date. cbv zeta.
  change ("-" +:+ ms +:+ "-" +:+ ds) with (String "-" (ms +:+ String "-" ds)).
  rewrite !split_digits_minus, split_digits by assumption.
  cbn [map nth]. rewrite Hy, Hm, Hd. reflexivity.
Qed.

Lemma fromDisplayString_accepts s :
  regex_test dateRegex s = true ->
  exists ys ms ds y m d t,
    s = ys +:+ "-" +:+ ms +:+ "-" +:+ ds
    /\ Number_of_string ys = Int y /\ Number_of_string ms = Int m
    /\ Number_of_string ds = Int d
    /\ Date_of_fields (Int y) (Int (m - 1)) (Int d) = mkDate (Int t)
    /\ fromDisplayString s = Some (mkDate (Int t)).
Proof.
  intros H.
  destruct (dateRegex_inv s H)
    as (ys & ms & ds & y & m & d & Hs & Hys & Hms & Hds & Hy & Hyr & Hm & Hmr & Hd & Hdr).
  destruct (Date_of_fields_pattern y m d Hyr Hmr Hdr) as [t Ht].
  exists ys, ms, ds, y, m, d, t. repeat (split; [assumption|]).
  unfold fromDisplayString, validate. cbn [errors_date]. rewrite H.
  assert (Hne : String.eqb s "" = false) by (rewrite Hs; destruct ys; reflexivity).
  rewrite Hne. cbn [negb]. cbv zeta.
  rewrite Hs, (parse_display_date_pattern ys ms ds y m d), Ht by assumption.
  reflexivity.
Qed.

End FromDisplayStringFacts.

(* ================================================================== *)
(** * The display string: formatting *)
(* ================================================================== *)

Section DisplayTheorems.
Context {host : HostEnvironment}.

(** X22.  [formatDateForDisplay] never raises and does no storage access,
    for any input.  It returns the empty string exactly when the input does
    not resolve to a valid date: null or undefined, an object whose [toDate]
    throws or returns something that is not a Date, any other shape (boolean,
    number, string, plain object), or a resolved Date whose time value is
    NaN.  For every other input it returns, on a host whose offset from UTC
    is constant, the local year in decimal, a minus sign, the month as two
    digits, a minus sign and the day as two digits; this is the zero-padded
    YYYY-MM-DD form whenever the year is between 1000 and 9999. *)
Theorem formatDateForDisplay_never_raises (dateInput : value) (w : world) :
  exists s w',
    formatDateForDisplay dateInput w = (Return s, w')
    /\ no_storage_io w w'
    /\ (s = "" <-> resolved_time dateInput = None)
    /\ (forall t, resolved_time dateInput = Some t -> display_of t s).
Proof.
  destruct (formatDateForDisplay_total dateInput w) as (s & w' & Hrun & Hio & Hs).
  exists s, w'. split; [exact Hrun|]. split; [exact Hio|].
  destruct (resolved_time dateInput) as [t|].
  - split.
    + split; [|discriminate]. intros E. destruct (display_of_not_empty t s Hs E).
    + intros t' [= <-]. exact Hs.
  - split; [tauto|discriminate].
Qed.

(** X23.  On a host whose offset from UTC is constant, for every valid
    native date whose local year is at least 100, formatting it with
    [formatDateForDisplay] and parsing the display string back as the
    dashboard does gives a valid date on the same calendar day (same local
    year, month and day of month). *)
Theorem display_round_trip_from_year_100 (t : Z) (w : world) :
  Z.abs t <= maxTimeValue -> 100 <= YearFromTime (LocalTime t) ->
  exists s w',
    formatDateForDisplay (VDate (mkDate (Int t))) w = (Return s, w')
    /\ same_calendar_day (parse_display_date s) (mkDate (Int t)).
Proof.
  intros Ht Hy.
  exists (format_fields (mkDate (Int t))), w. split; [reflexivity|].
  rewrite (parse_display_of t) by (try apply format_fields_display; lia).
  rewrite Date_of_fields_local by assumption.
  exists (UTC (Day (LocalTime t) * msPerDay)), t.
  split; [reflexivity|]. split; [reflexivity|].
  pose proof (Day_local_midnight t) as Hday.
  split; [apply YearFromTime_Day, Hday|].
  split; [apply MonthFromTime_Day, Hday|apply DateFromTime_Day, Hday].
Qed.

(* ================================================================== *)
(** * The display string: parsing on submission *)
(* ================================================================== *)

(** A date the form does not let through never reaches the service: the
    submission ends without any change to the world. *)
Lemma submit_form_rejected currentUser selectedReminder text s w :
  fromDisplayString s = None ->
  exists r, submit_form currentUser selectedReminder text s w = (Return r, w).
Proof.
  unfold fromDisplayString, submit_form, handleSubmit, no_errors, validate.
  cbn [errors_text errors_date]. cbv zeta. intros H.
  destruct (String.eqb (trim text) "") eqn:Htext; [eexists; reflexivity|].
  destruct (String.eqb s "") eqn:Hs; [eexists; reflexivity|].
  destruct (negb (regex_test dateRegex s)); [eexists; reflexivity|].
  destruct (isNaN (getTime (parse_display_date s))) eqn:Hnan; [|discriminate H].
  unfold handleFormSubmit. cbn [form_text form_date].
  destruct currentUser as [uid|]; [|eexists; reflexivity].
  destruct (String.eqb uid ""); [eexists; reflexivity|].
  rewrite Htext, Hs, Hnan. eexists. reflexivity.
Qed.

(** A date the form lets through is the [date] the service is called with;
    the refresh that follows the save leaves what was stored as it is. *)
Lemma submit_form_accepted uid text s d w rid w' :
  fromDisplayString s = Some d -> trim text <> "" -> uid <> "" ->
  addReminder (VString uid)
    (VObject (<["text" := VString (trim text)]> (<["date" := VDate d]> ∅))) w
  = (Return rid, w') ->
  exists w'',
    submit_form (Some uid) None text s w
    = (Return ({| errors_text := None; errors_date := None |}, Some ReminderAdded), w'')
    /\ db w'' = db w'.
Proof.
  unfold fromDisplayString, submit_form, handleSubmit, no_errors, validate.
  cbn [errors_text errors_date]. cbv zeta. intros H Htext Huid Hadd.
  destruct (String.eqb_spec (trim text) "") as [E|_]; [contradiction|].
  destruct (String.eqb s "") eqn:Hs; [discriminate H|].
  destruct (negb (regex_test dateRegex s)); [discriminate H|].
  destruct (isNaN (getTime (parse_display_date s))) eqn:Hnan; [discriminate H|].
  injection H as <-.
  pose proof (fetchReminders_wp (Some uid) w') as Hfetch. unfold wp in Hfetch.
  destruct (fetchReminders (Some uid) w') as [r w''] eqn:Efetch.
  cbn [fst snd] in Hfetch. destruct Hfetch as [[fetched ->] Hdb].
  exists w''. split; [|exact Hdb].
  unfold handleFormSubmit. cbn [form_text form_date].
  destruct (String.eqb_spec uid "") as [E|_]; [contradiction|].
  destruct (String.eqb_spec (trim text) "") as [E|_]; [contradiction|].
  rewrite Hs, Hnan. cbn [orb].
  unfold bind at 1. unfold try_catch. unfold bind at 1. unfold bind at 1.
  rewrite Hadd. cbn [ret]. unfold bind at 1. rewrite Efetch. reflexivity.
Qed.

(** C3, amended.  The path from a submitted display string to the date
    passed to storage rejects every string that does not match the exact
    pattern of four digits, a minus sign, two digits, a minus sign and two
    digits: nothing is passed on and the world is unchanged.  Every string
    that matches is accepted, whatever the calendar says of its month and
    day: the date passed to the service is [new Date(y, m - 1, d)] for the
    three numbers read, always a valid date, and what the service stored with
    it is what the submission leaves in the database. *)
Theorem fromDisplayString_checks_the_pattern_only :
  (forall s,
     regex_test dateRegex s = false ->
     fromDisplayString s = None
     /\ forall currentUser selectedReminder text w,
          exists r, submit_form currentUser selectedReminder text s w = (Return r, w))
  /\ (forall s,
        regex_test dateRegex s = true ->
        exists ys ms ds y m d t,
          s = ys +:+ "-" +:+ ms +:+ "-" +:+ ds
          /\ Number_of_string ys = Int y /\ Number_of_string ms = Int m
          /\ Number_of_string ds = Int d
          /\ Date_of_fields (Int y) (Int (m - 1)) (Int d) = mkDate (Int t)
          /\ fromDisplayString s = Some (mkDate (Int t)))
  /\ (forall s d uid text w rid w',
        fromDisplayString s = Some d -> trim text <> "" -> uid <> "" ->
        addReminder (VString uid)
          (VObject (<["text" := VString (trim text)]> (<["date" := VDate d]> ∅))) w
        = (Return rid, w') ->
        exists w'',
          submit_form (Some uid) None text s w
          = (Return ({| errors_text := None; errors_date := None |}, Some ReminderAdded), w'')
          /\ db w'' = db w').
Proof.
  split; [|split].
  - intros s H. pose proof (fromDisplayString_rejects s H) as Hnone.
    split; [exact Hnone|]. intros. apply submit_form_rejected, Hnone.
  - apply fromDisplayString_accepts.
  - intros s d uid text w rid w'. apply submit_form_accepted.
Qed.

End DisplayTheorems.

(** The display of 1 June 2025 on a host at UTC. *)
Lemma formatDateForDisplay_never_raises_witness :
  exists s w',
    @formatDateForDisplay utc_host (VDate (mkDate (Int 1748736000000))) empty_world
    = (Return s, w')
    /\ @display_of utc_host 1748736000000 s.
Proof.
  destruct (@formatDateForDisplay_never_raises utc_host
              (VDate (mkDate (Int 1748736000000))) empty_world)
    as (s & w' & Hrun & _ & _ & Hs).
  exists s, w'. split; [exact Hrun|]. apply Hs. reflexivity.
Defined.

(** C2, at the failing input.  [formatDateForDisplay] pads the month and
    the day to two digits and prints the year as it is, against its own
    contract (a string "in 'YYYY-MM-DD' format"): for the valid date
    1 January of year 50, on a host at UTC, it returns ["50-01-01"], which is
    not a zero-padded YYYY-MM-DD string (it does not pass the form's own
    [dateRegex]). *)
Lemma formatDateForDisplay_year_50 :
  @formatDateForDisplay utc_host (VDate (mkDate (Int (-60589296000000)))) empty_world
  = (Return "50-01-01", empty_world)
  /\ @getFullYear utc_host (mkDate (Int (-60589296000000))) = Int 50
  /\ regex_test dateRegex "50-01-01" = false.
Proof. repeat split; vm_compute; reflexivity. Qed.

(** The round trip at 1 June 2025, 12:00 UTC, on a host at UTC. *)
Lemma display_round_trip_from_year_100_witness :
  exists s w',
    @formatDateForDisplay utc_host (VDate (mkDate (Int 1748779200000))) empty_world
    = (Return s, w')
    /\ @same_calendar_day utc_host (@parse_display_date utc_host s)
         (mkDate (Int 1748779200000)).
Proof.
  apply (@display_round_trip_from_year_100 utc_host 1748779200000 empty_world).
  - vm_compute. discriminate.
  - vm_compute. discriminate.
Defined.

(** C1, at the failing input.  The round trip is lost where the year is
    printed without padding: the valid date 1 January of year 50, on a host
    at UTC, is displayed as ["50-01-01"], and the parse of the dashboard,
    [new Date(50, 0, 1)], reads the year 50 as 1950: the date that comes back
    is 1 January 1950, not on the calendar day of the date displayed. *)
Lemma display_round_trip_fails_for_year_50 :
  let d := mkDate (Int (-60589296000000)) in
  exists s w',
    @formatDateForDisplay utc_host (VDate d) empty_world = (Return s, w')
    /\ @getFullYear utc_host d = Int 50
    /\ @getFullYear utc_host (@parse_display_date utc_host s) = Int 1950
    /\ ~ @same_calendar_day utc_host (@parse_display_date utc_host s) d.
Proof.
  exists "50-01-01", empty_world.
  split; [vm_compute; reflexivity|]. split; [vm_compute; reflexivity|].
  split; [vm_compute; reflexivity|].
  intros (t1 & t2 & H1 & H2 & Hy & _).
  vm_compute in H1, H2. injection H1 as <-. injection H2 as <-.
  vm_compute in Hy. discriminate.
Qed.

(** The pattern gate at a string without zero padding and at a well-formed
    date. *)
Lemma fromDisplayString_checks_the_pattern_only_witness :
  @fromDisplayString utc_host "2025-6-1" = None
  /\ exists t, @fromDisplayString utc_host "2025-06-01" = Some (mkDate (Int t)).
Proof.
  destruct (@fromDisplayString_checks_the_pattern_only utc_host) as (Hreject & Haccept & _).
  split.
  - apply Hreject. vm_compute. reflexivity.
  - destruct (Haccept "2025-06-01") as (_ & _ & _ & _ & _ & _ & t & _ & _ & _ & _ & _ & H).
    + vm_compute. reflexivity.
    + exists t. exact H.
Defined.

(** C3 as stated fails: February 30 and month 13 match the pattern and are
    not rejected; they reach storage as 2 March 2025 and 1 January 2026. *)
Lemma fromDisplayString_accepts_february_30 :
  @fromDisplayString utc_host "2025-02-30" = @fromDisplayString utc_host "2025-03-02"
  /\ @fromDisplayString utc_host "2025-02-30" = Some (mkDate (Int 1740873600000))
  /\ @fromDisplayString utc_host "2025-13-01" = Some (mkDate (Int 1767225600000))
  /\ @fromDisplayString utc_host "2025-13-01" = @fromDisplayString utc_host "2026-01-01"
  /\ exists w',
       @submit_form utc_host (Some "u1") None "Buy flowers" "2025-02-30" empty_world
       = (Return ({| errors_text := None; errors_date := None |}, Some ReminderAdded), w')
       /\ stored w' "u1" "0"
          = Some (<["text" := FString "Buy flowers"]>
                    (<["date" := FTimestamp (mkTimestamp 1740873600000)]> ∅)).
Proof.
  split; [vm_compute; reflexivity|]. split; [vm_compute; reflexivity|].
  split; [vm_compute; reflexivity|]. split; [vm_compute; reflexivity|].
  eexists. split; vm_compute; reflexivity.
Qed.

(* ================================================================== *)
(** * The reminder service: identifiers, validation, effects *)
(* ================================================================== *)

Lemma wp_fails_invalid_argument {A} (m : M A) w :
  wp m (fun r w' => exists message, r = Throw (TypeError message) /\ no_storage_io w w') w ->
  fails_invalid_argument (m w) w.
Proof.
  unfold wp, fails_invalid_argument. destruct (m w) as [r w']. cbn [fst snd].
  intros (message & -> & Hio). exists message, w'. split; [reflexivity|exact Hio].
Qed.

Lemma wp_equals {A} (m : M A) w r w' :
  wp m (fun r1 w1 => r1 = r /\ w1 = w') w -> m w = (r, w').
Proof. unfold wp. destruct (m w) as [r1 w1]. cbn [fst snd]. intros [-> ->]. reflexivity. Qed.

Lemma Timestamp_fromMillis_valid ms w :
  valid_timestamp (mkTimestamp ms) ->
  Timestamp_fromMillis ms w = (Return (mkTimestamp ms), w).
Proof.
  unfold valid_timestamp, Timestamp_fromMillis. cbn [toMillis]. cbv zeta. intros H.
  destruct (Z.ltb_spec (ms / 1000) MIN_SECONDS); [lia|].
  destruct (Z.leb_spec MAX_SECONDS (ms / 1000)); [lia|]. reflexivity.
Qed.

(** The handler of the service functions, entered with a [TypeError]. *)
Ltac wp_invalid :=
  wp_handler; eexists; (split; [reflexivity|split; reflexivity]).

(** X1.  Update and Delete check the record identifier as they check the
    owner: when it is not a non-empty string, the call fails with the
    service's InvalidArgument error (a [TypeError]) before any storage
    access, whatever the owner and the patch are. *)
Theorem record_id_must_be_non_empty_string (userId reminderId : value) (w : world) :
  not_non_empty_string reminderId ->
  (forall updatedData,
     fails_invalid_argument (updateReminder userId reminderId updatedData w) w)
  /\ fails_invalid_argument (deleteReminder userId reminderId w) w.
Proof.
  intros Hid. split; [intros updatedData|]; apply wp_fails_invalid_argument.
  - unfold updateReminder.
    apply wp_try_catch, wp_bind, wp_validateNonEmptyString;
      [intros uid -> Huid|intros _; wp_invalid].
    apply wp_bind, wp_validateNonEmptyString;
      [intros rid -> Hrid; destruct Hrid; apply Hid; reflexivity|intros _; wp_invalid].
  - unfold deleteReminder.
    apply wp_try_catch, wp_bind, wp_validateNonEmptyString;
      [intros uid -> Huid|intros _; wp_invalid].
    apply wp_bind, wp_validateNonEmptyString;
      [intros rid -> Hrid; destruct Hrid; apply Hid; reflexivity|intros _; wp_invalid].
Qed.

Lemma record_id_must_be_non_empty_string_witness :
  let w := (addReminder (VString "u1")
              (VObject (<["text" := VString "Buy flowers"]>
                          (<["date" := VDate (mkDate (Int 1748736000000))]> ∅)))
              empty_world).2 in
  not_non_empty_string (VString "   ")
  /\ fails_invalid_argument (deleteReminder (VString "u1") (VString "   ") w) w
  /\ fails_invalid_argument
       (updateReminder (VString "u1") (VString "   ")
          (VObject (<["text" := VString "Buy roses"]> ∅)) w) w.
Proof.
  intros w.
  assert (H : not_non_empty_string (VString "   "))
    by (intros s [= <-]; vm_compute; reflexivity).
  split; [exact H|].
  destruct (record_id_must_be_non_empty_string (VString "u1") (VString "   ") w H)
    as [Hupd Hdel].
  split; [exact Hdel|apply Hupd].
Defined.

(** X2.  Update validates every field the patch supplies before it writes
    anything: a [text] that is present and not a non-empty string, or a [date]
    that is present and not a valid Date, makes the call fail with
    InvalidArgument and no storage access, even when the other field is
    valid. *)
Theorem update_validates_every_supplied_field (userId reminderId : value)
    (props : gmap string value) (w : world) :
  (exists v, props !! "text" = Some v /\ not_non_empty_string v)
  \/ (exists v, props !! "date" = Some v /\ ~ valid_moment v) ->
  fails_invalid_argument (updateReminder userId reminderId (VObject props) w) w.
Proof.
  intros Hbad. apply wp_fails_invalid_argument. unfold updateReminder.
  apply wp_try_catch, wp_bind, wp_validateNonEmptyString;
    [intros uid -> Huid|intros _; wp_invalid].
  apply wp_bind, wp_validateNonEmptyString;
    [intros rid -> Hrid|intros _; wp_invalid].
  destruct (_ || _ || _) eqn:Hguard; [apply wp_throw; wp_invalid|].
  destruct (props !! "hasOwnProperty") eqn:Hown.
  { apply wp_bind. unfold hasOwnProperty. rewrite Hown. apply wp_throw. wp_invalid. }
  apply wp_bind, wp_hasOwnProperty_object; [exact Hown|].
  unfold get.
  destruct (props !! "text") as [vt|] eqn:Htext; cbn [from_option Datatypes.id].
  - apply wp_bind.
    destruct vt as [| |b|n|s|d|ts|p|c]; try (apply wp_throw; wp_invalid).
    destruct (String.eqb_spec (trim s) "") as [Es|Es]; [apply wp_throw; wp_invalid|].
    destruct Hbad as [(v & [= <-] & Hv)|(v & Hv & Hinvalid)];
      [destruct Es; apply Hv; reflexivity|].
    apply wp_ret, wp_bind, wp_hasOwnProperty_object; [exact Hown|].
    rewrite Hv. cbn [from_option Datatypes.id]. apply wp_bind.
    destruct v as [| |b|n|s'|d|ts|p|c]; try (apply wp_throw; wp_invalid).
    destruct d as [[|ms]]; cbn [getTime]; [apply wp_throw; wp_invalid|].
    destruct Hinvalid. exists ms. reflexivity.
  - destruct Hbad as [(v & [=] & _)|(v & Hv & Hinvalid)].
    apply wp_bind, wp_ret, wp_bind, wp_hasOwnProperty_object; [exact Hown|].
    rewrite Hv. cbn [from_option Datatypes.id]. apply wp_bind.
    destruct v as [| |b|n|s'|d|ts|p|c]; try (apply wp_throw; wp_invalid).
    destruct d as [[|ms]]; cbn [getTime]; [apply wp_throw; wp_invalid|].
    destruct Hinvalid. exists ms. reflexivity.
Qed.

Lemma update_validates_every_supplied_field_witness :
  fails_invalid_argument
    (updateReminder (VString "u1") (VString "r1")
       (VObject (<["text" := VString "Buy roses"]> (<["date" := VDate (mkDate NaN)]> ∅)))
       corrupt_world) corrupt_world.
Proof.
  apply update_validates_every_supplied_field.
  right. exists (VDate (mkDate NaN)). split; [reflexivity|]. intros [ms [=]].
Defined.

Lemma wp_Timestamp_fromMillis_valid ms (Q : outcome Timestamp -> world -> Prop) w :
  valid_timestamp (mkTimestamp ms) -> Q (Return (mkTimestamp ms)) w ->
  wp (Timestamp_fromMillis ms) Q w.
Proof.
  intros H HQ. unfold wp. rewrite Timestamp_fromMillis_valid by exact H. exact HQ.
Qed.



(** What a call of [addReminder] with valid arguments does. *)
Lemma addReminder_valid uid reminderData s ms w :
  trim uid <> "" -> single_segment uid = true ->
  get reminderData "text" = VString s -> trim s <> "" ->
  get reminderData "date" = VDate (mkDate (Int ms)) ->
  valid_timestamp (mkTimestamp ms) ->
  let payload : gmap string fsvalue :=
    <["text" := FString s]> (<["date" := FTimestamp (mkTimestamp ms)]> ∅) in
  let rid := fresh (dom (default ∅ (db w !! reminders_of uid))) in
  addReminder (VString uid) reminderData w
  = (Return rid,
     {| db := <[reminders_of uid := <[rid := payload]>
                                      (default ∅ (db w !! reminders_of uid))]> (db w);
        requests := (requests w ++ [AddDoc uid payload])%list;
        console := console w |}).
Proof.
  intros Huid Hseg Htext Hs Hdate Hvalid payload rid. apply wp_equals. unfold addReminder.
  apply wp_try_catch, wp_bind, wp_validateNonEmptyString;
    [intros uid' [= <-] _|intros Hbad; destruct Huid; apply Hbad; reflexivity].
  destruct (_ || _) eqn:Hguard.
  { exfalso. destruct reminderData; try discriminate Htext. discriminate Hguard. }
  apply wp_bind, wp_validateNonEmptyString;
    [intros s' Hs' _|intros Hbad; destruct Hs; apply Hbad; exact Htext].
  rewrite Htext in Hs'. injection Hs' as <-.
  rewrite Hdate. cbn [getTime].
  apply wp_bind, wp_Timestamp_fromMillis_valid; [exact Hvalid|].
  cbv zeta. apply wp_bind, wp_collection. rewrite (collection_path_reminders uid Hseg).
  unfold wp, addDoc, bind, send, documents, set_collection, ret.
  cbn [fst snd db requests console].
  split; reflexivity.
Qed.

Lemma fresh_not_stored w c :
  stored_at w c (fresh (dom (default ∅ (db w !! c)))) = None.
Proof. rewrite <- stored_at_collection. apply not_elem_of_dom, is_fresh. Qed.

Lemma create_reminder_parts (uid s : string) (ms : Z) (reminderData : value) (w : world) :
  trim uid <> "" -> single_segment uid = true ->
  get reminderData "text" = VString s -> trim s <> "" ->
  get reminderData "date" = VDate (mkDate (Int ms)) ->
  valid_timestamp (mkTimestamp ms) ->
  exists rid w',
    addReminder (VString uid) reminderData w = (Return rid, w')
    /\ stored w uid rid = None
    /\ stored w' uid rid
       = Some (<["text" := FString s]> (<["date" := FTimestamp (mkTimestamp ms)]> ∅))
    /\ (forall owner i, (owner, i) <> (uid, rid) -> stored w' owner i = stored w owner i)
    /\ requests w'
       = (requests w
          ++ [AddDoc uid (<["text" := FString s]>
                            (<["date" := FTimestamp (mkTimestamp ms)]> ∅))])%list
    /\ console w' = console w.
Proof.
  intros Huid Hseg Htext Hs Hdate Hvalid.
  pose proof (addReminder_valid uid reminderData s ms w Huid Hseg Htext Hs Hdate Hvalid) as Hrun.
  cbv zeta in Hrun.
  set (rid := fresh (dom (default ∅ (db w !! reminders_of uid)))) in *.
  assert (Hrid : single_segment rid = true) by apply fresh_single_segment.
  eexists rid, _. split; [exact Hrun|].
  split; [rewrite (stored_names w uid rid Hseg Hrid); apply fresh_not_stored|].
  split; [|split; [|split; reflexivity]].
  - erewrite stored_insert by (first [reflexivity | assumption]).
    rewrite decide_True by reflexivity. reflexivity.
  - intros owner i Hne. erewrite stored_insert by (first [reflexivity | assumption]).
    rewrite decide_False by exact Hne. reflexivity.
Qed.

(** X3.  Create for an owner whose identifier is a non-blank single path
    segment, with a non-blank text and a valid date in the range of the
    database, succeeds: it returns an identifier that was not in use in the
    owner's collection and stores under it a document with exactly two
    fields, the text as given (not trimmed) and the date as a timestamp of
    the same millisecond; every other document is as before, one request is
    sent and nothing is logged. *)
Theorem create_stores_text_and_timestamp (uid s : string) (ms : Z)
    (reminderData : value) (w : world) :
  trim uid <> "" -> single_segment uid = true ->
  get reminderData "text" = VString s -> trim s <> "" ->
  get reminderData "date" = VDate (mkDate (Int ms)) ->
  valid_timestamp (mkTimestamp ms) ->
  exists rid w',
    addReminder (VString uid) reminderData w = (Return rid, w')
    /\ stored w uid rid = None
    /\ stored w' uid rid
       = Some (<["text" := FString s]> (<["date" := FTimestamp (mkTimestamp ms)]> ∅))
    /\ (forall owner i, (owner, i) <> (uid, rid) -> stored w' owner i = stored w owner i)
    /\ requests w'
       = (requests w
          ++ [AddDoc uid (<["text" := FString s]>
                            (<["date" := FTimestamp (mkTimestamp ms)]> ∅))])%list
    /\ console w' = console w.
Proof.
  intros Huid Hseg Htext Hs Hdate Hvalid.
  pose proof (addReminder_valid uid reminderData s ms w Huid Hseg Htext Hs Hdate Hvalid) as Hrun.
  cbv zeta in Hrun.
  set (rid := fresh (dom (default ∅ (db w !! reminders_of uid)))) in *.
  assert (Hrid : single_segment rid = true) by apply fresh_single_segment.
  assert (Hread : forall owner i,
            stored {| db := <[reminders_of uid :=
                                <[rid := <["text" := FString s]>
                                           (<["date" := FTimestamp (mkTimestamp ms)]> ∅)]>
                                  (default ∅ (db w !! reminders_of uid))]> (db w);
                      requests := (requests w
                                   ++ [AddDoc uid (<["text" := FString s]>
                                          (<["date" := FTimestamp (mkTimestamp ms)]> ∅))])%list;
                      console := console w |} owner i
            = if decide ((owner, i) = (uid, rid))
              then Some (<["text" := FString s]> (<["date" := FTimestamp (mkTimestamp ms)]> ∅))
              else stored w owner i)
    by (intros; apply stored_insert; [reflexivity|assumption..]).
  eexists rid, _. split; [exact Hrun|].
  split; [rewrite (stored_names w uid rid Hseg Hrid); apply fresh_not_stored|].
  split; [|split; [|split; reflexivity]].
  - rewrite Hread, decide_True by reflexivity. reflexivity.
  - intros owner i Hne. rewrite Hread, decide_False by exact Hne. reflexivity.
Qed.

Lemma create_stores_text_and_timestamp_witness :
  exists rid w',
    addReminder (VString "u1")
      (VObject (<["text" := VString " Buy flowers "]>
                  (<["date" := VDate (mkDate (Int 1748736000123))]> ∅)))
      corrupt_world = (Return rid, w')
    /\ stored w' "u1" rid
       = Some (<["text" := FString " Buy flowers "]>
                 (<["date" := FTimestamp (mkTimestamp 1748736000123)]> ∅)).
Proof.
  destruct (create_stores_text_and_timestamp "u1" " Buy flowers " 1748736000123
              (VObject (<["text" := VString " Buy flowers "]>
                          (<["date" := VDate (mkDate (Int 1748736000123))]> ∅)))
              corrupt_world)
    as (rid & w' & Hrun & _ & Hst & _).
  - vm_compute. discriminate.
  - reflexivity.
  - reflexivity.
  - vm_compute. discriminate.
  - reflexivity.
  - vm_compute. split; [discriminate|reflexivity].
  - exists rid, w'. split; [exact Hrun|exact Hst].
Defined.

(** X4.  A reminder that Create accepted, for an owner whose identifier is
    a non-blank single path segment, is returned by the next List of the same
    owner, with the identifier Create returned, the text as given and a date
    of the same millisecond; and the reminders listed before are still
    listed. *)
Theorem created_reminder_is_listed (uid s : string) (ms : Z)
    (reminderData : value) (w : world) :
  trim uid <> "" -> single_segment uid = true ->
  get reminderData "text" = VString s -> trim s <> "" ->
  get reminderData "date" = VDate (mkDate (Int ms)) ->
  valid_timestamp (mkTimestamp ms) ->
  exists rid w1 before w2 after w3,
    getReminders (VString uid) w = (Return before, w1)
    /\ addReminder (VString uid) reminderData w1 = (Return rid, w2)
    /\ getReminders (VString uid) w2 = (Return after, w3)
    /\ {| id := rid; text := VString s; date := mkDate (Int ms) |} ∈ after
    /\ (forall r, r ∈ before -> r ∈ after)
    /\ (forall r, r ∈ after -> r ∈ before \/ id r = rid).
Proof.
  intros Huid Hseg Htext Hs Hdate Hvalid.
  destruct (getReminders_returns uid w Huid Hseg) as (w1 & Hlist1 & Hdb1 & _).
  pose proof (addReminder_valid uid reminderData s ms w1 Huid Hseg Htext Hs Hdate Hvalid)
    as Hadd.
  cbv zeta in Hadd.
  set (rid := fresh (dom (default ∅ (db w1 !! reminders_of uid)))) in *.
  set (payload := <["text" := FString s]> (<["date" := FTimestamp (mkTimestamp ms)]> ∅)) in *.
  set (w2 := {| db := <[reminders_of uid := <[rid := payload]>
                                             (default ∅ (db w1 !! reminders_of uid))]> (db w1);
                requests := (requests w1 ++ [AddDoc uid payload])%list;
                console := console w1 |}) in *.
  destruct (getReminders_returns uid w2 Huid Hseg) as (w3 & Hlist2 & _ & _).
  assert (Hst : forall i, stored_at w2 (reminders_of uid) i
                          = if decide (i = rid) then Some payload
                            else stored_at w (reminders_of uid) i).
  { intros i. unfold w2. erewrite stored_at_set_collection by reflexivity.
    rewrite decide_True by reflexivity.
    destruct (decide (i = rid)) as [->|Hne].
    - apply lookup_insert_eq.
    - rewrite lookup_insert_ne, stored_at_collection by congruence.
      apply (stored_at_same_db w w1), Hdb1. }
  exists rid, w1. eexists. exists w2. eexists. exists w3.
  split; [exact Hlist1|]. split; [exact Hadd|]. split; [exact Hlist2|].
  split; [|split].
  - apply elem_of_listed_reminders. cbn [id text date].
    exists payload, (FString s), (mkTimestamp ms).
    rewrite Hst, decide_True by reflexivity.
    split; [reflexivity|]. split; [apply lookup_insert_eq|].
    split.
    { cbn. destruct (String.eqb_spec s "") as [->|_]; [destruct Hs|]; reflexivity. }
    split; [unfold payload; rewrite lookup_insert_ne by discriminate; apply lookup_insert_eq|].
    split; [reflexivity|]. symmetry. apply (Timestamp_toDate_valid (mkTimestamp ms)), Hvalid.
  - intros r Hr. apply elem_of_listed_reminders.
    apply elem_of_listed_reminders in Hr as (d & t & ts & Hd & Hrest).
    exists d, t, ts. split; [|exact Hrest].
    rewrite Hst. destruct (decide (id r = rid)) as [E|_]; [|exact Hd].
    rewrite E in Hd. unfold rid in Hd.
    rewrite <- (stored_at_same_db w w1 _ _ Hdb1), fresh_not_stored in Hd. discriminate.
  - intros r Hr.
    destruct (decide (id r = rid)) as [E|Hne]; [right; exact E|left].
    apply elem_of_listed_reminders.
    apply elem_of_listed_reminders in Hr as (d & t & ts & Hd & Hrest).
    exists d, t, ts. split; [|exact Hrest].
    rewrite Hst, decide_False in Hd by exact Hne. exact Hd.
Qed.

Lemma created_reminder_is_listed_witness :
  exists rid w1 before w2 after w3,
    getReminders (VString "u1") corrupt_world = (Return before, w1)
    /\ addReminder (VString "u1")
         (VObject (<["text" := VString "Order cake"]>
                     (<["date" := VDate (mkDate (Int 1748736000000))]> ∅))) w1
       = (Return rid, w2)
    /\ getReminders (VString "u1") w2 = (Return after, w3)
    /\ {| id := rid; text := VString "Order cake"; date := mkDate (Int 1748736000000) |}
       ∈ after.
Proof.
  destruct (created_reminder_is_listed "u1" "Order cake" 1748736000000
              (VObject (<["text" := VString "Order cake"]>
                          (<["date" := VDate (mkDate (Int 1748736000000))]> ∅)))
              corrupt_world)
    as (rid & w1 & before & w2 & after & w3 & H1 & H2 & H3 & H4 & _).
  - vm_compute. discriminate.
  - reflexivity.
  - reflexivity.
  - vm_compute. discriminate.
  - reflexivity.
  - vm_compute. split; [discriminate|reflexivity].
  - exists rid, w1, before, w2, after, w3. auto.
Defined.





Lemma deleteReminder_valid uid rid w :
  trim uid <> "" -> trim rid <> "" ->
  single_segment uid = true -> single_segment rid = true ->
  deleteReminder (VString uid) (VString rid) w
  = (Return tt,
     {| db := <[reminders_of uid := delete rid (default ∅ (db w !! reminders_of uid))]> (db w);
        requests := (requests w ++ [DeleteDoc uid rid])%list;
        console := console w |}).
Proof.
  intros Huid Hrid Hu Hr. apply wp_equals. unfold deleteReminder.
  apply wp_try_catch, wp_bind, wp_validateNonEmptyString;
    [intros uid' [= <-] _|intros Hbad; destruct Huid; apply Hbad; reflexivity].
  apply wp_bind, wp_validateNonEmptyString;
    [intros rid' [= <-] _|intros Hbad; destruct Hrid; apply Hbad; reflexivity].
  apply wp_bind, wp_doc. rewrite (document_path_reminder uid rid Hu Hr).
  apply wp_deleteDoc. split; reflexivity.
Qed.

(** X7.  Delete with an owner and a record identifier that are non-blank
    single path segments succeeds whether or not the record exists;
    afterwards the record is absent and every other document is as before,
    nothing is logged, and List of that owner returns what it returned before
    without the reminder of that identifier. *)
Theorem delete_removes_the_record_only (uid rid : string) (w : world) :
  trim uid <> "" -> trim rid <> "" ->
  single_segment uid = true -> single_segment rid = true ->
  exists before w1 w2 after w3,
    getReminders (VString uid) w = (Return before, w1)
    /\ deleteReminder (VString uid) (VString rid) w1 = (Return tt, w2)
    /\ getReminders (VString uid) w2 = (Return after, w3)
    /\ stored w2 uid rid = None
    /\ (forall owner i, (owner, i) <> (uid, rid) -> stored w2 owner i = stored w owner i)
    /\ console w2 = console w1
    /\ (forall r, r ∈ after <-> r ∈ before /\ id r <> rid).
Proof.
  intros Huid Hrid Hu Hr.
  destruct (getReminders_returns uid w Huid Hu) as (w1 & Hlist1 & Hdb1 & _).
  pose proof (deleteReminder_valid uid rid w1 Huid Hrid Hu Hr) as Hrun.
  set (w2 := {| db := <[reminders_of uid := delete rid (default ∅ (db w1 !! reminders_of uid))]>
                        (db w1);
                requests := (requests w1 ++ [DeleteDoc uid rid])%list;
                console := console w1 |}) in *.
  assert (Hst : forall owner i,
            stored w2 owner i
            = if decide ((owner, i) = (uid, rid)) then None else stored w owner i).
  { intros owner i. rewrite <- (stored_same_db w w1 owner i Hdb1).
    apply stored_delete. reflexivity. }
  assert (Hat : forall i,
            stored_at w2 (reminders_of uid) i
            = if decide (i = rid) then None else stored_at w (reminders_of uid) i).
  { intros i. unfold w2. erewrite stored_at_set_collection by reflexivity.
    rewrite decide_True by reflexivity.
    destruct (decide (i = rid)) as [->|Hne].
    - apply lookup_delete_eq.
    - rewrite lookup_delete_ne, stored_at_collection by congruence.
      apply (stored_at_same_db w w1), Hdb1. }
  destruct (getReminders_returns uid w2 Huid Hu) as (w3 & Hlist2 & _ & _).
  eexists. exists w1, w2. eexists. exists w3.
  split; [exact Hlist1|]. split; [exact Hrun|]. split; [exact Hlist2|].
  split; [rewrite Hst, decide_True by reflexivity; reflexivity|].
  split; [intros owner i Hne; rewrite Hst, decide_False by exact Hne; reflexivity|].
  split; [reflexivity|].
  intros r. rewrite !elem_of_listed_reminders. split.
  - intros (d & t & ts & Hd & Hrest). rewrite Hat in Hd.
    destruct (decide (id r = rid)) as [E|Hne]; [discriminate|].
    split; [exists d, t, ts; split; [exact Hd|exact Hrest]|exact Hne].
  - intros [(d & t & ts & Hd & Hrest) Hne]. exists d, t, ts.
    split; [|exact Hrest]. rewrite Hat, decide_False by exact Hne. exact Hd.
Qed.

Lemma delete_removes_the_record_only_witness :
  exists before w1 w2 after w3,
    getReminders (VString "u1") corrupt_world = (Return before, w1)
    /\ deleteReminder (VString "u1") (VString "r1") w1 = (Return tt, w2)
    /\ getReminders (VString "u1") w2 = (Return after, w3)
    /\ stored w2 "u1" "r1" = None
    /\ stored w2 "u1" "r2" = stored corrupt_world "u1" "r2".
Proof.
  destruct (delete_removes_the_record_only "u1" "r1" corrupt_world)
    as (before & w1 & w2 & after & w3 & H1 & H2 & H3 & Hgone & Hframe & _).
  - vm_compute. discriminate.
  - vm_compute. discriminate.
  - reflexivity.
  - reflexivity.
  - exists before, w1, w2, after, w3.
    split; [exact H1|]. split; [exact H2|]. split; [exact H3|]. split; [exact Hgone|].
    apply Hframe. discriminate.
Defined.




Lemma written_date_kept props fields d :
  written_fields props fields ->
  (exists ts, d !! "date" = Some (FTimestamp ts) /\ valid_timestamp ts) ->
  exists ts, (fields ∪ d) !! "date" = Some (FTimestamp ts) /\ valid_timestamp ts.
Proof.
  intros (_ & _ & Hdate) (ts0 & Hd & Hts0).
  destruct (props !! "date") as [v|].
  - destruct Hdate as (ts & _ & Hts & Hf). exists ts. split; [|exact Hts].
    apply lookup_union_Some_l, Hf.
  - exists ts0. split; [|exact Hts0].
    rewrite lookup_union_r by exact Hdate. exact Hd.
Qed.

Lemma written_by_service_run_calls cs w :
  every_document written_by_service w ->
  every_document written_by_service (run_calls cs w).
Proof.
  apply (run_calls_every_document written_by_service).
  - intros s ms Hs Hvalid. split.
    + exists s. split; [apply lookup_insert_eq|exact Hs].
    + exists (mkTimestamp ms). split; [|exact Hvalid].
      rewrite lookup_insert_ne by discriminate. apply lookup_insert_eq.
  - intros props fields d Hw [Ht Hd]. split.
    + eapply written_text_kept; eassumption.
    + eapply written_date_kept; eassumption.
Qed.

Lemma length_omap_all {A B} (f : A -> option B) (l : list A) :
  Forall (fun x => is_Some (f x)) l -> length (omap f l) = length l.
Proof.
  induction 1 as [|x l [y Hy] _ IH]; [reflexivity|].
  cbn. rewrite Hy. cbn. rewrite IH. reflexivity.
Qed.

Lemma filter_all {A} (P : A -> Prop) `{forall x, Decision (P x)} (l : list A) :
  Forall P l -> filter P l = l.
Proof.
  induction 1 as [|x l Hx _ IH]; [reflexivity|].
  rewrite filter_cons_True by exact Hx. rewrite IH. reflexivity.
Qed.

Lemma trim_nonempty s : trim s <> "" -> s <> "".
Proof. intros H ->. apply H. reflexivity. Qed.

(** X9.  In a store written through the service only (any sequence of
    calls, with any arguments, from the empty store), List for an owner whose
    identifier is a non-blank single path segment skips nothing: it returns
    one reminder for each document of the owner's collection, each with a
    text that is a non-blank string and a valid date. *)
Theorem service_written_records_are_all_listed (cs : list call) (uid : string) :
  trim uid <> "" -> single_segment uid = true ->
  exists reminders w',
    getReminders (VString uid) (run_calls cs empty_world) = (Return reminders, w')
    /\ length reminders
       = size (default ∅ (db (run_calls cs empty_world) !! reminders_of uid))
    /\ (forall rid, is_Some (stored_at (run_calls cs empty_world) (reminders_of uid) rid)
                    <-> exists r, r ∈ reminders /\ id r = rid)
    /\ (forall r, r ∈ reminders ->
          exists s t, text r = VString s /\ trim s <> ""
                      /\ date r = mkDate (Int t) /\ valid_timestamp (mkTimestamp t)).
Proof.
  intros Huid Hseg.
  set (w := run_calls cs empty_world).
  assert (Hinv : every_document written_by_service w)
    by apply written_by_service_run_calls, every_document_empty_world.
  destruct (getReminders_returns uid w Huid Hseg) as (w' & Hrun & _ & _).
  eexists. exists w'. split; [exact Hrun|].
  assert (Hlisted : forall rid d, stored_at w (reminders_of uid) rid = Some d ->
            exists s ts, d !! "text" = Some (FString s) /\ trim s <> ""
                         /\ d !! "date" = Some (FTimestamp ts) /\ valid_timestamp ts
                         /\ to_reminder (rid, d)
                            = Some {| id := rid; text := VString s;
                                      date := mkDate (Int (toMillis ts)) |}).
  { intros rid d Hst. destruct (Hinv _ rid d Hst) as [(s & Ht & Hs) (ts & Hd & Hts)].
    exists s, ts. repeat (split; [assumption|]).
    unfold to_reminder. cbn [fst snd]. rewrite Ht, Hd. cbn [fromFirestore truthy].
    destruct (String.eqb_spec s "") as [->|_]; [destruct Hs; reflexivity|].
    cbn [negb]. rewrite (Timestamp_toDate_valid ts Hts). reflexivity. }
  split; [|split].
  - rewrite length_omap_all.
    + unfold query_snapshot. rewrite merge_sort_Permutation, filter_all.
      * apply length_map_to_list.
      * apply Forall_forall. intros [i d] Hx. apply elem_of_map_to_list in Hx.
        rewrite stored_at_collection in Hx.
        destruct (Hlisted i d Hx) as (s & ts & _ & _ & Hd & _). cbn. eauto.
    + apply Forall_forall. intros [i d] Hx.
      apply elem_of_query_snapshot in Hx as [Hx _]. cbn in Hx.
      rewrite stored_at_collection in Hx.
      destruct (Hlisted i d Hx) as (s & ts & _ & _ & _ & _ & E). rewrite E. eauto.
  - intros rid. split.
    + intros [d Hst]. destruct (Hlisted rid d Hst) as (s & ts & Ht & Hs & Hd & Hts & E).
      exists {| id := rid; text := VString s; date := mkDate (Int (toMillis ts)) |}.
      split; [|reflexivity].
      apply list_elem_of_omap. exists (rid, d). split; [|exact E].
      apply elem_of_query_snapshot. cbn. rewrite stored_at_collection, Hd. eauto.
    + intros (r & Hr & <-). apply elem_of_listed_reminders in Hr as (d & _ & _ & Hst & _).
      eauto.
  - intros r Hr.
    apply elem_of_listed_reminders in Hr as (d & t & ts & Hst & Ht & _ & Hd & Htext & Hdate).
    destruct (Hinv _ (id r) d Hst) as [(s & Ht' & Hs) (ts' & Hd' & Hts)].
    rewrite Ht in Ht'. injection Ht' as ->. rewrite Hd in Hd'. injection Hd' as ->.
    exists s, (toMillis ts'). split; [exact Htext|]. split; [exact Hs|].
    split; [rewrite Hdate; apply Timestamp_toDate_valid, Hts|].
    destruct ts'. exact Hts.
Qed.

Lemma service_written_records_are_all_listed_witness :
  let reminder t ms :=
    VObject (<["text" := VString t]> (<["date" := VDate (mkDate (Int ms))]> ∅)) in
  let cs := [Create (VString "u1") (reminder "Buy flowers" 1748736000000);
             Create (VString "u1") (reminder "   " 1748736000000);
             Create (VString "/u1") (reminder "Order cake" 1748822400000);
             Update (VString "u1") (VString "0") (VObject (<["text" := VNumber (Int 1)]> ∅));
             Delete (VString "u1") (VString "7")] in
  exists reminders w',
    getReminders (VString "u1") (run_calls cs empty_world) = (Return reminders, w')
    /\ length reminders = 2%nat.
Proof.
  intros reminder cs.
  destruct (service_written_records_are_all_listed cs "u1")
    as (reminders & w' & Hrun & Hlen & _).
  - vm_compute. discriminate.
  - reflexivity.
  - exists reminders, w'. split; [exact Hrun|]. rewrite Hlen. vm_compute. reflexivity.
Defined.

(* ================================================================== *)
(** * Calendar dates and their strings *)
(* ================================================================== *)

Lemma fields_of_day_within_year t y k :
  Day t = DayFromYear y + k -> 0 <= k < DaysInYear y ->
  YearFromTime t = y /\ DayWithinYear t = k
  /\ InLeapYear t = (if is_leap_year y then 1 else 0).
Proof.
  intros Hday Hk.
  assert (Hy : YearFromTime t = y).
  { apply YearFromTime_unique. rewrite DayFromYear_succ. lia. }
  split; [exact Hy|]. unfold DayWithinYear, InLeapYear. rewrite Hy. split; [lia|reflexivity].
Qed.

(** The day [MakeDay] gives for a date of the calendar has that year, month
    and day of month. *)
Lemma MakeDay_calendar_date y m d t :
  1 <= m <= 12 -> 1 <= d <= DaysInMonth y m ->
  Day t = MakeDay y (m - 1) d ->
  YearFromTime t = y /\ MonthFromTime t = m - 1 /\ DateFromTime t = d.
Proof.
  intros Hm Hd Hday.
  set (l := if is_leap_year y then 1 else 0).
  assert (Hmk : MakeDay y (m - 1) d = DayFromYear y + (month_start (m - 1) l + d - 1)).
  { unfold MakeDay. cbv zeta.
    rewrite (Z.div_small (m - 1) 12), (Z.mod_small (m - 1) 12), Z.add_0_r by lia.
    fold l. lia. }
  rewrite Hmk in Hday.
  assert (Hcases : m = 1 \/ m = 2 \/ m = 3 \/ m = 4 \/ m = 5 \/ m = 6 \/ m = 7
                   \/ m = 8 \/ m = 9 \/ m = 10 \/ m = 11 \/ m = 12) by lia.
  assert (Hl : (l = 0 /\ DaysInYear y = 365 /\ is_leap_year y = false)
               \/ (l = 1 /\ DaysInYear y = 366 /\ is_leap_year y = true)).
  { unfold l, DaysInYear. destruct (is_leap_year y); [right|left]; auto. }
  assert (Hk : 0 <= month_start (m - 1) l + d - 1 < DaysInYear y
               /\ (let k := month_start (m - 1) l + d - 1 in
                   (if k <? 31 then 0
                    else if k <? 59 + l then 1
                    else if k <? 90 + l then 2
                    else if k <? 120 + l then 3
                    else if k <? 151 + l then 4
                    else if k <? 181 + l then 5
                    else if k <? 212 + l then 6
                    else if k <? 243 + l then 7
                    else if k <? 273 + l then 8
                    else if k <? 304 + l then 9
                    else if k <? 334 + l then 10
                    else 11) = m - 1)
               /\ month_start (m - 1) l + d - 1 = month_start (m - 1) l + (d - 1)).
  { clear Hday Hmk. unfold DaysInMonth in Hd. cbv zeta.
    destruct Hl as [(-> & -> & Hleap)|(-> & -> & Hleap)]; rewrite Hleap in Hd;
      decompose [or] Hcases; subst m; clear Hcases;
      repeat match goal with
             | |- context [Z.pos ?p - 1] =>
                 let v := eval vm_compute in (Z.pos p - 1) in
                 change (Z.pos p - 1) with v
             end;
      cbn [month_start];
      (split; [lia|split; [|lia]]);
      repeat match goal with
             | |- context [?a <? ?b] => destruct (Z.ltb_spec a b); try lia
             end; reflexivity. }
  destruct Hk as (Hrange & Hmonth & _).
  destruct (fields_of_day_within_year t y _ Hday Hrange) as (Hy & Hw & Hleap).
  fold l in Hleap.
  assert (Hmf : MonthFromTime t = m - 1).
  { unfold MonthFromTime. rewrite Hw, Hleap. exact Hmonth. }
  split; [exact Hy|]. split; [exact Hmf|].
  pose proof (month_start_DateFromTime t) as Hsum.
  rewrite Hmf, Hleap, Hw in Hsum. lia.
Qed.

Lemma regex_test_length p s : regex_test p s = true -> String.length s = length p.
Proof.
  revert s. induction p as [|a p IH]; intros [|c s] H; try discriminate H; [reflexivity|].
  cbn in H. apply andb_true_iff in H as [_ H]. cbn. f_equal. apply IH, H.
Qed.

(** From year 1000 on the year needs no padding. *)
Lemma pad4_four_digits y : 1000 <= y <= 9999 -> pad4 y = Number_toString (Int y).
Proof.
  intros Hy. unfold pad4, padStart.
  rewrite (regex_test_length _ _ (year4_spec y Hy)). reflexivity.
Qed.

Lemma pad4_spec y :
  0 <= y <= 9999 ->
  regex_test [Digit; Digit; Digit; Digit] (pad4 y) = true
  /\ all_digits (pad4 y) = true
  /\ Number_of_string (pad4 y) = Int y.
Proof.
  intros Hy. destruct (Z.lt_ge_cases y 1000) as [Hsmall|Hbig].
  - assert (Hall : forallb pad4_ok (seqZ 0 1000) = true) by (vm_compute; reflexivity).
    rewrite forallb_forall in Hall.
    assert (Hok : pad4_ok y = true).
    { apply Hall, list_elem_of_In, elem_of_seqZ. lia. }
    unfold pad4_ok in Hok.
    apply andb_true_iff in Hok as [Hok Hnum]. apply andb_true_iff in Hok as [Hre Hdig].
    split; [exact Hre|]. split; [exact Hdig|].
    destruct (Number_of_string (pad4 y)) as [|n]; [discriminate|].
    apply Z.eqb_eq in Hnum. congruence.
  - rewrite pad4_four_digits by lia.
    split; [apply year4_spec; lia|].
    split; [apply all_digits_toString; lia|apply Number_of_string_toString; lia].
Qed.

Lemma date_string_matches y m d :
  0 <= y <= 9999 -> 0 <= m <= 99 -> 0 <= d <= 99 ->
  regex_test dateRegex (date_string y m d) = true.
Proof.
  intros Hy Hm Hd.
  destruct (pad4_spec y Hy) as (Hy1 & _ & _).
  destruct (pad2_spec m Hm) as (Hm1 & _ & _).
  destruct (pad2_spec d Hd) as (Hd1 & _ & _).
  change dateRegex with ([Digit; Digit; Digit; Digit] ++ [Lit "-"%char]
                         ++ [Digit; Digit] ++ [Lit "-"%char] ++ [Digit; Digit])%list.
  unfold date_string.
  apply regex_test_app; [exact Hy1|].
  apply (regex_test_app [Lit "-"%char] _ "-"); [reflexivity|].
  apply regex_test_app; [exact Hm1|].
  apply (regex_test_app [Lit "-"%char] _ "-"); [reflexivity|exact Hd1].
Qed.

Lemma date_string_not_empty y m d : date_string y m d <> "".
Proof.
  unfold date_string. destruct (pad4 y); discriminate.
Qed.

Section CalendarDates.
Context {host : HostEnvironment}.

Lemma parse_date_string y m d :
  0 <= y <= 9999 -> 0 <= m <= 99 -> 0 <= d <= 99 ->
  parse_display_date (date_string y m d) = Date_of_fields (Int y) (Int (m - 1)) (Int d).
Proof.
  intros Hy Hm Hd.
  destruct (pad4_spec y Hy) as (_ & Hy2 & Hy3).
  destruct (pad2_spec m Hm) as (_ & Hm2 & Hm3).
  destruct (pad2_spec d Hd) as (_ & Hd2 & Hd3).
  apply parse_display_date_pattern; assumption.
Qed.

Lemma DaysInMonth_range y m : 28 <= DaysInMonth y m <= 31.
Proof.
  unfold DaysInMonth.
  destruct m as [|p|p]; try lia.
  do 4 (try (destruct p as [p|p|]; try lia)); destruct (is_leap_year y); lia.
Qed.

(** The date the dashboard makes of the string of a calendar date. *)
Lemma fromDisplayString_calendar_date y m d :
  100 <= y <= 9999 -> 1 <= m <= 12 -> 1 <= d <= DaysInMonth y m ->
  let t := UTC (MakeDay y (m - 1) d * msPerDay) in
  fromDisplayString (date_string y m d) = Some (mkDate (Int t))
  /\ Day (LocalTime t) = MakeDay y (m - 1) d
  /\ TimeWithinDay (LocalTime t) = 0
  /\ valid_timestamp (mkTimestamp t).
Proof.
  intros Hy Hm Hd t.
  pose proof (DaysInMonth_range y m) as Hdim.
  assert (Hlocal : LocalTime t = MakeDay y (m - 1) d * msPerDay)
    by (unfold t, LocalTime, UTC; lia).
  assert (Hday : Day (LocalTime t) = MakeDay y (m - 1) d).
  { rewrite Hlocal. unfold Day. apply Z.div_mul. discriminate. }
  destruct (MakeDay_calendar_date y m d (LocalTime t) Hm Hd Hday) as (Hyear & _ & _).
  pose proof (YearFromTime_spec (LocalTime t)) as Hspec.
  rewrite Hyear, Hday in Hspec.
  pose proof (DayFromYear_mono 100 y ltac:(lia)) as Hlo.
  pose proof (DayFromYear_mono (y + 1) 10000 ltac:(lia)) as Hhi.
  assert (H100 : DayFromYear 100 = -683003) by reflexivity.
  assert (H10000 : DayFromYear 10000 = 2932897) by reflexivity.
  rewrite H100 in Hlo. rewrite H10000 in Hhi.
  pose proof LocalTZA_bound as Htz.
  assert (Hbound : -683004 * msPerDay < t < 2932897 * msPerDay).
  { unfold t, UTC, msPerDay in *. lia. }
  split; [|split; [exact Hday|split]].
  - unfold fromDisplayString, validate. cbn [errors_date].
    rewrite date_string_matches by lia.
    destruct (String.eqb_spec (date_string y m d) "") as [E|_];
      [destruct (date_string_not_empty _ _ _ E)|].
    cbn [negb]. cbv zeta.
    rewrite parse_date_string by lia.
    unfold Date_of_fields.
    destruct (Z.leb_spec y 99) as [H99|_]; [lia|]. rewrite andb_false_r.
    unfold MakeDate, MakeTime. rewrite Z.add_0_r. fold t.
    unfold TimeClip.
    destruct (Z.ltb_spec maxTimeValue (Z.abs t)) as [Hbig|_]; [|reflexivity].
    unfold maxTimeValue, msPerDay in *. lia.
  - unfold TimeWithinDay. rewrite Hlocal. apply Z.mod_mul. discriminate.
  - unfold valid_timestamp, MIN_SECONDS, MAX_SECONDS. cbn [toMillis].
    unfold msPerDay in Hbound. Z.div_mod_to_equations. lia.
Qed.

Lemma submitted_calendar_date_is_local_midnight_parts (y m d : Z) :
  100 <= y <= 9999 -> 1 <= m <= 12 -> 1 <= d <= DaysInMonth y m ->
  exists t,
    fromDisplayString (date_string y m d) = Some (mkDate (Int t))
    /\ YearFromTime (LocalTime t) = y
    /\ MonthFromTime (LocalTime t) = m - 1
    /\ DateFromTime (LocalTime t) = d
    /\ TimeWithinDay (LocalTime t) = 0
    /\ valid_timestamp (mkTimestamp t).
Proof.
  intros Hy Hm Hd.
  destruct (fromDisplayString_calendar_date y m d Hy Hm Hd) as (Hparse & Hday & Hmid & Hvalid).
  destruct (MakeDay_calendar_date y m d _ Hm Hd Hday) as (Hyear & Hmonth & Hdate).
  eexists. split; [exact Hparse|]. auto 10.
Qed.

(** X10.  On a host whose offset from UTC is constant (no daylight-saving
    or other transition of its zone), a date string that names a day of the
    calendar (four digits of a year from 0100 on, a month from 01 to 12, a
    day of that month) passes the form and is made by the dashboard into the
    Date at local midnight of that very day: same local year, month and day,
    time of day zero, whatever the offset is; and that date is one the
    database can hold. *)
Theorem submitted_calendar_date_is_local_midnight (y m d : Z) :
  100 <= y <= 9999 -> 1 <= m <= 12 -> 1 <= d <= DaysInMonth y m ->
  exists t,
    fromDisplayString (date_string y m d) = Some (mkDate (Int t))
    /\ YearFromTime (LocalTime t) = y
    /\ MonthFromTime (LocalTime t) = m - 1
    /\ DateFromTime (LocalTime t) = d
    /\ TimeWithinDay (LocalTime t) = 0
    /\ valid_timestamp (mkTimestamp t).
Proof.
  intros Hy Hm Hd.
  destruct (fromDisplayString_calendar_date y m d Hy Hm Hd) as (Hparse & Hday & Hmid & Hvalid).
  destruct (MakeDay_calendar_date y m d _ Hm Hd Hday) as (Hyear & Hmonth & Hdate).
  exists (UTC (MakeDay y (m - 1) d * msPerDay)).
  split; [exact Hparse|]. split; [exact Hyear|]. split; [exact Hmonth|].
  split; [exact Hdate|]. split; [exact Hmid|exact Hvalid].
Qed.

Lemma format_fields_date_string (y m d : Z) :
  1000 <= y <= 9999 -> 1 <= m <= 12 -> 1 <= d <= DaysInMonth y m ->
  format_fields (mkDate (Int (UTC (MakeDay y (m - 1) d * msPerDay)))) = date_string y m d.
Proof.
  intros Hy Hm Hd.
  destruct (fromDisplayString_calendar_date y m d ltac:(lia) Hm Hd) as (_ & Hday & _ & _).
  destruct (MakeDay_calendar_date y m d _ Hm Hd Hday) as (Hyear & Hmonth & Hdate).
  unfold format_fields, getFullYear, getMonth, getDate, local_field. cbn [getTime].
  rewrite Hyear, Hmonth, Hdate. cbn [number_add].
  replace (m - 1 + 1) with m by lia.
  unfold date_string. rewrite pad4_four_digits by exact Hy. reflexivity.
Qed.

(** X11.  On a host whose offset from UTC is constant (no daylight-saving
    or other transition of its zone), for a day of the calendar in a
    four-digit year without leading zero (1000 to 9999), parsing its date
    string as the dashboard does and formatting the result gives the same
    string back, with [formatDateForDisplay] and with the form's
    [formatDateToYYYYMMDD] alike, whatever the offset is. *)
Theorem date_string_round_trip (y m d : Z) (w : world) :
  1000 <= y <= 9999 -> 1 <= m <= 12 -> 1 <= d <= DaysInMonth y m ->
  exists dateObject,
    fromDisplayString (date_string y m d) = Some dateObject
    /\ formatDateForDisplay (VDate dateObject) w = (Return (date_string y m d), w)
    /\ formatDateToYYYYMMDD (VDate dateObject) = date_string y m d.
Proof.
  intros Hy Hm Hd.
  destruct (fromDisplayString_calendar_date y m d ltac:(lia) Hm Hd)
    as (Hparse & _ & _ & _).
  eexists. split; [exact Hparse|].
  pose proof (format_fields_date_string y m d Hy Hm Hd) as Hfmt.
  split.
  - unfold formatDateForDisplay. cbn [is_nullish toDate_method instanceof_Date].
    rewrite format_resolved_valid, Hfmt. reflexivity.
  - unfold formatDateToYYYYMMDD. cbn [getTime isNaN]. exact Hfmt.
Qed.

End CalendarDates.

(** Leap day 2024 on a host east of Greenwich. *)
Lemma submitted_calendar_date_is_local_midnight_witness :
  exists t,
    @fromDisplayString east_host (date_string 2024 2 29) = Some (mkDate (Int t))
    /\ YearFromTime (@LocalTime east_host t) = 2024
    /\ MonthFromTime (@LocalTime east_host t) = 1
    /\ DateFromTime (@LocalTime east_host t) = 29.
Proof.
  destruct (@submitted_calendar_date_is_local_midnight east_host 2024 2 29)
    as (t & H1 & H2 & H3 & H4 & _).
  - lia.
  - lia.
  - vm_compute. split; discriminate.
  - exists t. auto.
Defined.

Lemma date_string_round_trip_witness :
  exists dateObject,
    @fromDisplayString west_host (date_string 2025 12 31) = Some dateObject
    /\ @formatDateForDisplay west_host (VDate dateObject) empty_world
       = (Return "2025-12-31", empty_world).
Proof.
  destruct (@date_string_round_trip west_host 2025 12 31 empty_world)
    as (dateObject & H1 & H2 & _).
  - lia.
  - lia.
  - vm_compute. split; discriminate.
  - exists dateObject. split; [exact H1|exact H2].
Defined.

(* ================================================================== *)
(** * The form and the handlers of the dashboard *)
(* ================================================================== *)

Lemma trimStart_starts_clean s : starts_clean (trimStart s).
Proof.
  induction s as [|c s IH]; cbn; [exact I|].
  destruct (is_white_space c) eqn:E; [exact IH|exact E].
Qed.

Lemma trimStart_clean s : starts_clean s -> trimStart s = s.
Proof. destruct s as [|c s]; cbn; [reflexivity|]. intros ->. reflexivity. Qed.

Lemma trimEnd_starts_clean s : starts_clean s -> starts_clean (trimEnd s).
Proof.
  destruct s as [|c s]; cbn; [exact (fun H => H)|]. intros Hc.
  destruct (trimEnd s); [rewrite Hc|]; exact Hc.
Qed.

Lemma trimEnd_trimEnd s : trimEnd (trimEnd s) = trimEnd s.
Proof.
  induction s as [|c s IH]; [reflexivity|]. cbn [trimEnd].
  destruct (trimEnd s) as [|c' r] eqn:E.
  - destruct (is_white_space c) eqn:Ec; [reflexivity|]. cbn. rewrite Ec. reflexivity.
  - cbn [trimEnd]. cbn [trimEnd] in IH. rewrite IH. reflexivity.
Qed.

(** Trimming twice is trimming once. *)
Lemma trim_trim s : trim (trim s) = trim s.
Proof.
  unfold trim.
  rewrite (trimStart_clean (trimEnd (trimStart s)))
    by apply trimEnd_starts_clean, trimStart_starts_clean.
  apply trimEnd_trimEnd.
Qed.

Lemma wp_any {A} (m : M A) (Q : outcome A -> world -> Prop) w :
  (forall r w1, Q r w1) -> wp m Q w.
Proof. intros H. apply H. Qed.

Section DashboardFacts.
Context {host : HostEnvironment}.

(** X12.  The whole path of a new reminder, from the form to the store, on
    a host whose offset from UTC is constant: for a signed-in user whose
    identifier is a non-blank single path segment, a text that is not blank
    and the date string of a day of the calendar (years 0100 to 9999), the
    form shows no error, the submission ends in success, and the store then
    holds one more document of that user, whose text is the text typed with
    surrounding white space removed and whose date is the timestamp of local
    midnight of the day named; every other document is as it was. *)
Theorem submitting_the_form_stores_the_reminder (uid text : string) (y m d : Z)
    (w : world) :
  trim uid <> "" -> single_segment uid = true -> trim text <> "" ->
  100 <= y <= 9999 -> 1 <= m <= 12 -> 1 <= d <= DaysInMonth y m ->
  exists rid t w',
    submit_form (Some uid) None text (date_string y m d) w
    = (Return ({| errors_text := None; errors_date := None |}, Some ReminderAdded), w')
    /\ stored w uid rid = None
    /\ stored w' uid rid
       = Some (<["text" := FString (trim text)]>
                 (<["date" := FTimestamp (mkTimestamp t)]> ∅))
    /\ YearFromTime (LocalTime t) = y
    /\ MonthFromTime (LocalTime t) = m - 1
    /\ DateFromTime (LocalTime t) = d
    /\ TimeWithinDay (LocalTime t) = 0
    /\ (forall owner i, (owner, i) <> (uid, rid) -> stored w' owner i = stored w owner i).
Proof.
  intros Huid Hseg Htext Hy Hm Hd.
  destruct (submitted_calendar_date_is_local_midnight_parts y m d Hy Hm Hd)
    as (t & Hparse & Hyear & Hmonth & Hdate & Hmid & Hvalid).
  set (dataForService :=
         VObject (<["text" := VString (trim text)]> (<["date" := VDate (mkDate (Int t))]> ∅))).
  assert (Htt : trim (trim text) <> "") by (rewrite trim_trim; exact Htext).
  destruct (create_reminder_parts uid (trim text) t dataForService w
              Huid Hseg eq_refl Htt eq_refl Hvalid)
    as (rid & w1 & Hadd & Hfresh & Hst & Hframe & _).
  destruct (submit_form_accepted uid text (date_string y m d) (mkDate (Int t)) w rid w1
              Hparse Htext (trim_nonempty uid Huid) Hadd) as (w' & Hrun & Hdb).
  exists rid, t, w'. split; [exact Hrun|]. split; [exact Hfresh|].
  split; [rewrite (stored_same_db w1 w' uid rid Hdb); exact Hst|].
  repeat (split; [assumption|]).
  intros owner i Hne. rewrite (stored_same_db w1 w' owner i Hdb). apply Hframe, Hne.
Qed.

(** A string of the form's pattern always parses to a valid Date. *)
Lemma parse_display_date_valid s :
  regex_test dateRegex s = true -> exists t, parse_display_date s = mkDate (Int t).
Proof.
  intros H.
  destruct (dateRegex_inv s H)
    as (ys & ms & ds & y & m & d & -> & Hys & Hms & Hds & Hy & Hyr & Hm & Hmr & Hd & Hdr).
  destruct (Date_of_fields_pattern y m d Hyr Hmr Hdr) as [t Ht].
  exists t. rewrite (parse_display_date_pattern ys ms ds y m d) by assumption. exact Ht.
Qed.

(** What the save inside [handleFormSubmit] can end in. *)
Lemma save_and_refresh_wp (currentUser : option string) (uid : string)
    (selectedReminder : option Reminder) (dataForService : value) w :
  wp (let* saved :=
        match selectedReminder with
        | Some reminder =>
            if String.eqb (id reminder) "" then
              throw (Error "Invalid reminder state: Missing ID for update.")
            else
              updateReminder (VString uid) (VString (id reminder)) dataForService ;;;
              ret ReminderUpdated
        | None =>
            addReminder (VString uid) dataForService ;;;
            ret ReminderAdded
        end in
      fetchReminders currentUser ;;;
      ret saved)
     (fun r _ => match r with
                 | Return saved => saved = ReminderAdded \/ saved = ReminderUpdated
                 | Throw _ => True
                 end) w.
Proof.
  assert (Hrefresh : forall saved w1,
            saved = ReminderAdded \/ saved = ReminderUpdated ->
            wp (fetchReminders currentUser ;;; ret saved)
               (fun r _ => match r with
                           | Return saved => saved = ReminderAdded \/ saved = ReminderUpdated
                           | Throw _ => True
                           end) w1).
  { intros saved w1 Hsaved. apply wp_bind.
    eapply wp_mono; [apply fetchReminders_wp|].
    intros r w2 [[fetched ->] _]. apply wp_ret. exact Hsaved. }
  apply wp_bind.
  destruct selectedReminder as [reminder|].
  - destruct (String.eqb (id reminder) ""); [apply wp_throw; exact I|].
    apply wp_bind, wp_any. intros [a|e] w1; [|exact I].
    apply wp_ret, Hrefresh. auto.
  - apply wp_bind, wp_any. intros [a|e] w1; [|exact I].
    apply wp_ret, Hrefresh. auto.
Qed.

(** X13.  The submit handler of the dashboard, on form data whose date is
    empty or has the form's pattern (four digits, two digits, two digits,
    with minus signs between: all that the form hands over), never lets an
    error escape: whatever the user, the reminder being edited and the text
    are, it ends normally, and never with the failure of its own date check,
    which a date of the pattern always passes.  Without a signed-in user, or
    with an empty text or date, it ends before any call to the service: the
    world is as before. *)
Theorem handleFormSubmit_never_raises (currentUser : option string)
    (selectedReminder : option Reminder) (formData : FormData) (w : world) :
  form_date formData = "" \/ regex_test dateRegex (form_date formData) = true ->
  exists r w',
    handleFormSubmit currentUser selectedReminder formData w = (Return r, w')
    /\ r <> InvalidDateFormat
    /\ (currentUser = None \/ currentUser = Some ""
        \/ form_text formData = "" \/ form_date formData = "" ->
        w' = w /\ (r = AuthenticationError \/ r = InvalidFormData)).
Proof.
  intros Hform. unfold handleFormSubmit.
  destruct currentUser as [uid|];
    [|exists AuthenticationError, w; split; [reflexivity|split; [discriminate|auto]]].
  destruct (String.eqb_spec uid "") as [->|Huid];
    [exists AuthenticationError, w; split; [reflexivity|split; [discriminate|auto]]|].
  destruct (String.eqb_spec (form_text formData) "") as [Ht|Ht];
    [exists InvalidFormData, w; split; [reflexivity|split; [discriminate|auto]]|].
  destruct (String.eqb_spec (form_date formData) "") as [Hd|Hd];
    [exists InvalidFormData, w; split; [reflexivity|split; [discriminate|auto]]|].
  cbn [orb].
  destruct Hform as [Hempty|Hpattern]; [contradiction|].
  destruct (parse_display_date_valid _ Hpattern) as [t Hparse].
  rewrite Hparse. cbn [getTime isNaN].
  match goal with
  | |- exists r w', ?m w = _ /\ _ =>
      assert (Hwp : wp m (fun r _ => exists x, r = Return x /\ x <> InvalidDateFormat) w)
  end.
  { apply wp_try_catch.
    eapply wp_mono; [apply save_and_refresh_wp|].
    intros [saved|e] w1 Hsaved.
    - exists saved. split; [reflexivity|]. destruct Hsaved as [-> | ->]; discriminate.
    - apply wp_bind, wp_console_log, wp_ret. eexists. split; [reflexivity|discriminate]. }
  unfold wp in Hwp.
  match goal with
  | |- exists r w', ?m w = _ /\ _ => destruct (m w) as [r w'] eqn:Hrun
  end.
  cbn [fst] in Hwp. destruct Hwp as (x & -> & Hx). exists x, w'.
  split; [reflexivity|]. split; [exact Hx|].
  intros [H|[H|[H|H]]]; try discriminate H; try contradiction.
  injection H as ->. contradiction.
Qed.

Lemma deleteReminder_blank uid rid w :
  trim uid = "" \/ trim rid = "" ->
  exists message w',
    deleteReminder (VString uid) (VString rid) w = (Throw (TypeError message), w')
    /\ no_storage_io w w'.
Proof.
  intros Hblank. apply wp_fails_invalid_argument. unfold deleteReminder.
  apply wp_try_catch, wp_bind, wp_validateNonEmptyString;
    [intros uid' [= <-] Huid|intros _; wp_invalid].
  apply wp_bind, wp_validateNonEmptyString;
    [intros rid' [= <-] Hrid; tauto|intros _; wp_invalid].
Qed.

(** X14.  The delete handler of the dashboard never lets an error escape.
    For a signed-in user and a reminder identifier that are non-blank single
    path segments, the document is deleted, the list is fetched again, and
    the handler reports success.  Without a user, with an identifier or a
    user id that is empty or made of white space (which the handler lets
    through and the service refuses), or with identifiers whose segments (the
    parts between slashes) number odd in total, which the client refuses as
    the path of a document (such as the reminder identifier [a/b] for the
    user [u1]), it reports a failure, nothing is sent and the store is as
    before. *)
Theorem handleDeleteReminder_reaches_the_store_with_valid_ids_only
    (currentUser : option string) (reminderId : string) (w : world) :
  exists r w',
    handleDeleteReminder currentUser reminderId w = (Return r, w')
    /\ (forall uid,
          currentUser = Some uid -> trim uid <> "" -> trim reminderId <> "" ->
          single_segment uid = true -> single_segment reminderId = true ->
          r = ReminderDeleted
          /\ stored w' uid reminderId = None
          /\ (forall owner i, (owner, i) <> (uid, reminderId) ->
                stored w' owner i = stored w owner i)
          /\ requests w' = (requests w ++ [DeleteDoc uid reminderId; GetDocs uid])%list)
    /\ (currentUser = None
        \/ (exists uid, currentUser = Some uid /\ trim uid = "")
        \/ trim reminderId = ""
        \/ (exists uid, currentUser = Some uid
                        /\ Nat.odd (length (path_segments uid)
                                    + length (path_segments reminderId)) = true) ->
        r <> ReminderDeleted /\ no_storage_io w w').
Proof.
  unfold handleDeleteReminder.
  destruct currentUser as [uid|].
  2:{ exists DeleteAuthenticationError, w. split; [reflexivity|]. split.
      - intros uid [=].
      - intros _. split; [discriminate|apply no_storage_io_refl]. }
  destruct (String.eqb_spec uid "") as [->|Hne].
  { exists DeleteAuthenticationError, w. split; [reflexivity|]. split.
    - intros uid [= <-] Huid. destruct Huid. reflexivity.
    - intros _. split; [discriminate|apply no_storage_io_refl]. }
  destruct (String.eqb_spec reminderId "") as [->|Hrne].
  { eexists. eexists. split; [reflexivity|]. split.
    - intros uid' _ _ Hrid. destruct Hrid. reflexivity.
    - intros _. split; [discriminate|split; reflexivity]. }
  pose proof (deleteReminder_wp (VString uid) (VString reminderId) w) as Hpost.
  unfold wp in Hpost.
  destruct (deleteReminder (VString uid) (VString reminderId) w) as [[[]|e] w1] eqn:Hdel;
    cbn [fst snd delete_post] in Hpost.
  - (* the service deleted *)
    pose proof (fetchReminders_wp (Some uid) w1) as Hfetch. unfold wp in Hfetch.
    destruct (fetchReminders (Some uid) w1) as [f w2] eqn:Efetch.
    cbn [fst snd] in Hfetch. destruct Hfetch as [[fetched ->] Hdb2].
    exists ReminderDeleted, w2. split.
    { unfold try_catch. unfold bind at 1. rewrite Hdel.
      unfold bind at 1. rewrite Efetch. reflexivity. }
    split.
    + intros uid' [= <-] Huid Hrid Hu Hr. split; [reflexivity|].
      rewrite (deleteReminder_valid uid reminderId w Huid Hrid Hu Hr) in Hdel.
      injection Hdel as <-.
      destruct (getReminders_returns uid
                  {| db := <[reminders_of uid :=
                               delete reminderId (default ∅ (db w !! reminders_of uid))]> (db w);
                     requests := (requests w ++ [DeleteDoc uid reminderId])%list;
                     console := console w |} Huid Hu) as (w3 & Hlist & _ & Hreq).
      assert (Hw2 : w2 = w3).
      { unfold fetchReminders in Efetch.
        destruct (String.eqb_spec uid "") as [E|_]; [contradiction|].
        unfold try_catch, bind in Efetch. rewrite Hlist in Efetch.
        injection Efetch as _ <-. reflexivity. }
      subst w3.
      assert (Hst : forall owner i,
                stored w2 owner i
                = if decide ((owner, i) = (uid, reminderId)) then None else stored w owner i).
      { intros owner i. rewrite (stored_same_db _ w2 owner i Hdb2).
        apply stored_delete. reflexivity. }
      split; [rewrite Hst, decide_True by reflexivity; reflexivity|].
      split; [intros owner i Hneq; rewrite Hst, decide_False by exact Hneq; reflexivity|].
      rewrite Hreq. cbn [requests]. rewrite <- app_assoc. reflexivity.
    + intros Hbad. exfalso.
      destruct Hpost as (uid' & rid' & c & i & [= <-] & [= <-] & Hdoc & _).
      destruct Hbad as [H|[(uid' & [= <-] & H)|[H|(uid' & [= <-] & H)]]].
      * discriminate H.
      * destruct (deleteReminder_blank uid reminderId w (or_introl H))
          as (message & w' & Hthrow & _). congruence.
      * destruct (deleteReminder_blank uid reminderId w (or_intror H))
          as (message & w' & Hthrow & _). congruence.
      * apply document_path_parity in Hdoc. rewrite <- Nat.negb_odd, H in Hdoc.
        discriminate Hdoc.
  - (* the service failed *)
    eexists. eexists. split.
    { unfold try_catch. unfold bind at 1. rewrite Hdel. reflexivity. }
    split.
    + intros uid' [= <-] Huid Hrid Hu Hr. exfalso.
      rewrite (deleteReminder_valid uid reminderId w Huid Hrid Hu Hr) in Hdel.
      discriminate Hdel.
    + intros _. split; [discriminate|].
      destruct Hpost as [Hdb Hreq]. split; cbn; assumption.
Qed.

(** X15.  The edit button of a listed reminder never opens the editor: the
    item hands the identifier of the reminder to its [onEdit] callback, the
    dashboard's callback expects the reminder object and looks for the [id]
    property of what it is given, and a string has none; the request is
    refused with an error, and no storage access is made. *)
Theorem edit_click_is_refused (reminder : Reminder) (w : world) :
  exists w',
    handleEditClick reminder handleOpenEditModal w = (Return EditRefused, w')
    /\ no_storage_io w w'
    /\ forall (reminderObject : gmap string value) (i : string),
         reminderObject !! "id" = Some (VString i) ->
         handleOpenEditModal (VObject reminderObject) w
         = (Return (EditOpened (VObject reminderObject)), w).
Proof.
  eexists. split; [|split].
  - unfold handleEditClick, handleOpenEditModal. cbn [get typeof String.eqb].
    rewrite orb_true_r. reflexivity.
  - split; reflexivity.
  - intros props i Hi. unfold handleOpenEditModal, get. rewrite Hi. reflexivity.
Qed.

End DashboardFacts.

(** A submission of the form's pattern whose day is not of the calendar. *)
Lemma handleFormSubmit_never_raises_witness :
  exists r w',
    @handleFormSubmit utc_host (Some "u1") None
      {| form_text := "Buy flowers"; form_date := "2025-02-30" |} empty_world
    = (Return r, w')
    /\ r <> InvalidDateFormat.
Proof.
  destruct (@handleFormSubmit_never_raises utc_host (Some "u1") None
              {| form_text := "Buy flowers"; form_date := "2025-02-30" |} empty_world)
    as (r & w' & Hrun & Hr & _).
  - right. vm_compute. reflexivity.
  - exists r, w'. split; [exact Hrun|exact Hr].
Defined.

Section FormFacts.
Context {host : HostEnvironment}.
Variable Date_parse : string -> number.

Lemma format_fields_not_empty t :
  String.eqb (format_fields (mkDate (Int t))) "" = false.
Proof.
  destruct (String.eqb_spec (format_fields (mkDate (Int t))) "") as [E|_]; [|reflexivity].
  destruct (display_of_not_empty t _ (format_fields_display t) E).
Qed.

Ltac solve_populate :=
  eexists;
  (split;
   [cbv [bind ret try_catch formatDateToYYYYMMDD instanceof_Date truthy toDate_method
         isNaN getTime];
    rewrite ?format_fields_not_empty; reflexivity|]);
  (split; [split; reflexivity|]);
  first [reflexivity | intros [x [=]]].

Lemma populate_resolved (initialData : gmap string value) (dateValue : value) w :
  initialData !! "date" = Some dateValue ->
  (forall s, dateValue <> VString s) ->
  exists w',
    populate Date_parse (VObject initialData) w
    = (Return (if truthy (default VUndefined (initialData !! "text"))
               then default VUndefined (initialData !! "text") else VString "",
               match resolved_time dateValue with
               | Some t => format_fields (mkDate (Int t))
               | None => ""
               end), w')
    /\ no_storage_io w w'
    /\ (is_Some (resolved_time dateValue) -> w' = w).
Proof.
  intros Hdate Hnot. unfold populate, get. cbn [truthy]. rewrite Hdate.
  cbn [from_option Datatypes.id]. unfold resolved_time.
  destruct dateValue as [| |b|n|s|[[|t]]|ts|props|[e|r]]; cbn [resolved_date getTime];
    try solve_populate.
  - destruct b; solve_populate.
  - destruct n as [|z]; [solve_populate|]. cbn [truthy].
    destruct (z =? 0); solve_populate.
  - destruct (Hnot s eq_refl).
  - (* a Timestamp *)
    cbn [instanceof_Date truthy toDate_method].
    destruct (Timestamp_toDate ts) as [[|t]] eqn:E; solve_populate.
  - (* a duck-typed object whose method returns *)
    destruct r as [| |b|n|s|[[|t]]|ts|props|c]; solve_populate.
Qed.

(** X16.  The form opened on a reminder: its text field takes the text of
    the reminder, and its date field the display string of the reminder's
    date when that is a valid Date, a Timestamp or an object whose [toDate]
    returns a valid Date; nothing is logged and nothing is stored.  When the
    year of that date has four digits (1000 to 9999) and the text is not
    blank, the form so filled passes its own validation, and its date, parsed
    as on submission, is on the calendar day of the reminder.  A date that
    is anything else but a string leaves the date field empty. *)
Theorem form_is_filled_from_the_reminder (initialData : gmap string value)
    (s : string) (dateValue : value) (w : world) :
  initialData !! "text" = Some (VString s) ->
  initialData !! "date" = Some dateValue ->
  (forall t,
     resolved_time dateValue = Some t ->
     exists dateField,
       populate Date_parse (VObject initialData) w = (Return (VString s, dateField), w)
       /\ display_of t dateField
       /\ (Z.abs t <= maxTimeValue -> 1000 <= YearFromTime (LocalTime t) <= 9999 ->
           trim s <> "" ->
           validate s dateField = {| errors_text := None; errors_date := None |}
           /\ same_calendar_day (parse_display_date dateField) (mkDate (Int t))))
  /\ (resolved_time dateValue = None -> (forall s', dateValue <> VString s') ->
      exists w',
        populate Date_parse (VObject initialData) w = (Return (VString s, ""), w')
        /\ no_storage_io w w').
Proof.
  intros Htext Hdate.
  assert (Hs : (if truthy (default VUndefined (initialData !! "text"))
                then default VUndefined (initialData !! "text") else VString "")
               = VString s).
  { rewrite Htext. cbn. destruct (String.eqb_spec s "") as [->|_]; reflexivity. }
  split.
  - intros t Ht.
    assert (Hnot : forall s', dateValue <> VString s') by (intros s' ->; discriminate Ht).
    destruct (populate_resolved initialData dateValue w Hdate Hnot) as (w' & Hrun & _ & Hw).
    rewrite Hs, Ht in Hrun. rewrite (Hw (ex_intro _ t Ht)) in Hrun.
    eexists. split; [exact Hrun|].
    pose proof (format_fields_display t) as Hdisp.
    split; [exact Hdisp|].
    intros Habs Hyear Htrim. split.
    + unfold validate.
      destruct (String.eqb_spec (trim s) "") as [E|_]; [contradiction|].
      destruct Hdisp as (mm & dd & Hfmt & _ & _ & _ & _ & Hre).
      rewrite (Hre Hyear).
      destruct (String.eqb_spec (format_fields (mkDate (Int t))) "") as [E|_];
        [|reflexivity].
      exfalso. rewrite Hfmt in E.
      destruct (Number_toString (Int (YearFromTime (LocalTime t)))); discriminate.
    + assert (H100 : 100 <= YearFromTime (LocalTime t)) by lia.
      destruct (display_round_trip_valid t w Habs H100) as (s0 & w0 & Hfmt & Hsame).
      unfold formatDateForDisplay in Hfmt.
      cbn [is_nullish toDate_method instanceof_Date] in Hfmt.
      rewrite format_resolved_valid in Hfmt. injection Hfmt as <- _. exact Hsame.
  - intros Hnone Hnot.
    destruct (populate_resolved initialData dateValue w Hdate Hnot) as (w' & Hrun & Hio & _).
    rewrite Hs, Hnone in Hrun. exists w'. split; [exact Hrun|exact Hio].
Qed.

End FormFacts.

(** A reminder as List returns it, on a host at UTC, whatever the host makes
    of date strings. *)
Lemma form_is_filled_from_the_reminder_witness :
  exists dateField,
    @populate utc_host (fun _ => NaN)
      (VObject (<["id" := VString "r2"]>
                  (<["text" := VString "Buy flowers"]>
                     (<["date" := VDate (mkDate (Int 1735776000000))]> ∅))))
      empty_world
    = (Return (VString "Buy flowers", dateField), empty_world)
    /\ @display_of utc_host 1735776000000 dateField.
Proof.
  destruct (@form_is_filled_from_the_reminder utc_host (fun _ => NaN)
              (<["id" := VString "r2"]>
                 (<["text" := VString "Buy flowers"]>
                    (<["date" := VDate (mkDate (Int 1735776000000))]> ∅)))
              "Buy flowers" (VDate (mkDate (Int 1735776000000))) empty_world)
    as [Hfill _].
  - reflexivity.
  - reflexivity.
  - destruct (Hfill 1735776000000 eq_refl) as (dateField & Hrun & Hdisp & _).
    exists dateField. split; [exact Hrun|exact Hdisp].
Defined.

(* ================================================================== *)
(** * Signing in *)
(* ================================================================== *)

Ltac in_list :=
  unfold auth_messages, known_auth_codes, credential_codes;
  solve [repeat first [apply list_elem_of_here | apply list_elem_of_further]].

(** What [mapAuthErrorToMessage] does, by cases on its argument. *)
Lemma mapAuthErrorToMessage_cases (error : value) (w : world) :
  exists message w',
    mapAuthErrorToMessage error w = (Return message, w')
    /\ message ∈ auth_messages
    /\ no_storage_io w w'
    /\ ((exists c, get error "code" = VString c /\ c ∈ known_auth_codes /\ w' = w)
        \/ ((forall c, get error "code" = VString c -> c ∉ known_auth_codes)
            /\ (message = "An unexpected authentication error occurred. Please try again later."
                \/ message = "An unexpected error occurred. Please try again.")
            /\ exists line, console w' = (console w ++ [(Err, line)])%list)).
Proof.
  unfold mapAuthErrorToMessage.
  destruct (truthy error && String.eqb (typeof error) "object" && has_property error "code")
    eqn:Hobj.
  - destruct (get error "code") as [| |b|n|c|d|ts|props|k] eqn:Hcode; cbn [code_is orb];
      try (eexists; eexists; split; [reflexivity|]; split; [in_list|];
           split; [split; reflexivity|]; right;
           split; [intros c [=]|]; split; [auto|eexists; reflexivity]).
    destruct (String.eqb_spec c "auth/invalid-credential") as [->|H1];
      [exists "Invalid email or password. Please check your credentials and try again.", w;
       split; [reflexivity|]; split; [in_list|]; split; [apply no_storage_io_refl|];
       left; eexists; split; [reflexivity|]; split; [in_list|reflexivity]|].
    destruct (String.eqb_spec c "auth/user-not-found") as [->|H2];
      [exists "Invalid email or password. Please check your credentials and try again.", w;
       split; [reflexivity|]; split; [in_list|]; split; [apply no_storage_io_refl|];
       left; eexists; split; [reflexivity|]; split; [in_list|reflexivity]|].
    destruct (String.eqb_spec c "auth/wrong-password") as [->|H3];
      [exists "Invalid email or password. Please check your credentials and try again.", w;
       split; [reflexivity|]; split; [in_list|]; split; [apply no_storage_io_refl|];
       left; eexists; split; [reflexivity|]; split; [in_list|reflexivity]|].
    cbn [orb].
    destruct (String.eqb_spec c "auth/too-many-requests") as [->|H4];
      [eexists; exists w;
       split; [reflexivity|]; split; [in_list|]; split; [apply no_storage_io_refl|];
       left; eexists; split; [reflexivity|]; split; [in_list|reflexivity]|].
    destruct (String.eqb_spec c "auth/network-request-failed") as [->|H5];
      [eexists; exists w;
       split; [reflexivity|]; split; [in_list|]; split; [apply no_storage_io_refl|];
       left; eexists; split; [reflexivity|]; split; [in_list|reflexivity]|].
    destruct (String.eqb_spec c "auth/email-already-in-use") as [->|H6];
      [eexists; exists w;
       split; [reflexivity|]; split; [in_list|]; split; [apply no_storage_io_refl|];
       left; eexists; split; [reflexivity|]; split; [in_list|reflexivity]|].
    destruct (String.eqb_spec c "auth/weak-password") as [->|H7];
      [eexists; exists w;
       split; [reflexivity|]; split; [in_list|]; split; [apply no_storage_io_refl|];
       left; eexists; split; [reflexivity|]; split; [in_list|reflexivity]|].
    destruct (String.eqb_spec c "auth/invalid-email") as [->|H8];
      [eexists; exists w;
       split; [reflexivity|]; split; [in_list|]; split; [apply no_storage_io_refl|];
       left; eexists; split; [reflexivity|]; split; [in_list|reflexivity]|].
    eexists. eexists. split; [reflexivity|]. split; [in_list|].
    split; [split; reflexivity|]. right.
    split; [|split; [auto|eexists; reflexivity]].
    intros c' [= <-]. unfold known_auth_codes. rewrite !elem_of_cons, elem_of_nil. tauto.
  - eexists. eexists. split; [reflexivity|]. split; [in_list|].
    split; [split; reflexivity|]. right.
    split; [|split; [auto|eexists; reflexivity]].
    intros c Hc. exfalso.
    destruct error as [| | | | | | |props|]; try discriminate Hc.
    cbn [truthy typeof String.eqb Ascii.eqb Bool.eqb andb has_property] in Hobj.
    rewrite bool_decide_is_Some in Hobj. unfold get in Hc.
    destruct (props !! "code"); discriminate.
Qed.

(** X17.  [mapAuthErrorToMessage] never raises and its answer is always one
    of eight fixed messages, whatever it is given: nothing of the error
    itself (its code, its message) reaches the user.  It logs the error,
    once, exactly when the error carries none of the eight codes it knows,
    and then answers with one of its two messages for the unexpected. *)
Theorem mapAuthErrorToMessage_answers_with_a_fixed_message (error : value) (w : world) :
  exists message w',
    mapAuthErrorToMessage error w = (Return message, w')
    /\ message ∈ auth_messages
    /\ no_storage_io w w'
    /\ ((exists c, get error "code" = VString c /\ c ∈ known_auth_codes /\ w' = w)
        \/ ((forall c, get error "code" = VString c -> c ∉ known_auth_codes)
            /\ (message = "An unexpected authentication error occurred. Please try again later."
                \/ message = "An unexpected error occurred. Please try again.")
            /\ exists line, console w' = (console w ++ [(Err, line)])%list)).
Proof. apply mapAuthErrorToMessage_cases. Qed.

Section SignIn.
Variable signInWithEmailAndPassword : string -> string -> settled value.

Lemma loginUser_blank email password :
  not_non_empty_string email \/ not_non_empty_string password ->
  exists message,
    loginUser signInWithEmailAndPassword email password = Rejected (TypeError_object message).
Proof.
  intros Hblank. unfold loginUser.
  destruct email as [| | | |e| | | |]; try (eexists; reflexivity).
  destruct (String.eqb_spec (trim e) "") as [_|He]; [eexists; reflexivity|].
  destruct password as [| | | |p| | | |]; try (eexists; reflexivity).
  destruct (String.eqb_spec (trim p) "") as [_|Hp]; [eexists; reflexivity|].
  exfalso. destruct Hblank as [H|H]; [apply He|apply Hp]; apply H; reflexivity.
Qed.

Lemma loginUser_valid e p :
  trim e <> "" -> trim p <> "" ->
  loginUser signInWithEmailAndPassword (VString e) (VString p)
  = signInWithEmailAndPassword e p.
Proof.
  intros He Hp. unfold loginUser.
  destruct (String.eqb_spec (trim e) "") as [E|_]; [contradiction|].
  destruct (String.eqb_spec (trim p) "") as [E|_]; [contradiction|]. reflexivity.
Qed.

Lemma mapAuthErrorToMessage_TypeError message w :
  mapAuthErrorToMessage (TypeError_object message) w
  = (Return "An unexpected error occurred. Please try again.",
     {| db := db w; requests := requests w;
        console := console w ++ [(Err, "Generic Auth Error:")] |}).
Proof. reflexivity. Qed.

Lemma login_never_raises_parts (email password : value) (state : AuthState) (w : world) :
  exists state' w',
    login signInWithEmailAndPassword email password state w = (Return state', w').
Proof.
  unfold login.
  destruct (loginUser signInWithEmailAndPassword email password) as [credential|reason].
  - eexists. eexists. reflexivity.
  - destruct (mapAuthErrorToMessage_cases reason w) as (message & w' & Hmap & _).
    eexists. exists w'. unfold bind. rewrite Hmap. reflexivity.
Qed.

(** X18.  [login] of the provider never lets an error escape, whatever the
    backend answers: it ends with [loading] false, the current user as it
    was and no access to the reminder store, and its [error] is empty
    exactly when the sign-in was accepted, and otherwise one of the fixed
    messages.  An email or password that is blank or not a string is refused
    before the backend is asked (the outcome is the same for every backend)
    and shows as the message for unexpected errors; a rejection of the
    backend with one of the three credential codes shows as the one message
    for wrong credentials. *)
Theorem login_never_raises (email password : value) (state : AuthState) (w : world) :
  exists state' w',
    login signInWithEmailAndPassword email password state w = (Return state', w')
    /\ no_storage_io w w'
    /\ auth_loading state' = false
    /\ auth_currentUser state' = auth_currentUser state
    /\ (auth_error state' = None
        <-> exists credential,
              loginUser signInWithEmailAndPassword email password = Fulfilled credential)
    /\ (forall message, auth_error state' = Some message -> message ∈ auth_messages)
    /\ (not_non_empty_string email \/ not_non_empty_string password ->
        auth_error state' = Some "An unexpected error occurred. Please try again.")
    /\ (forall e p reason c,
          email = VString e -> password = VString p -> trim e <> "" -> trim p <> "" ->
          signInWithEmailAndPassword e p = Rejected reason ->
          get reason "code" = VString c -> c ∈ credential_codes ->
          auth_error state'
          = Some "Invalid email or password. Please check your credentials and try again.").
Proof.
  unfold login.
  destruct (loginUser signInWithEmailAndPassword email password) as [credential|reason] eqn:Hlogin.
  - eexists. exists w. split; [reflexivity|]. split; [apply no_storage_io_refl|].
    split; [reflexivity|]. split; [reflexivity|]. cbn [auth_error].
    split; [split; eauto|]. split; [discriminate|]. split.
    + intros Hblank. destruct (loginUser_blank email password Hblank) as [m Hm].
      rewrite Hm in Hlogin. discriminate.
    + intros e p reason c -> -> He Hp Hrej _ _.
      rewrite (loginUser_valid e p He Hp), Hrej in Hlogin. discriminate.
  - destruct (mapAuthErrorToMessage_cases reason w) as (message & w' & Hmap & Hin & Hio & _).
    eexists. exists w'. split; [unfold bind; rewrite Hmap; reflexivity|].
    split; [exact Hio|]. split; [reflexivity|]. split; [reflexivity|]. cbn [auth_error].
    split; [split; [discriminate|intros [credential [=]]]|].
    split; [intros message' [= <-]; exact Hin|]. split.
    + intros Hblank. destruct (loginUser_blank email password Hblank) as [m Hm].
      rewrite Hm in Hlogin. injection Hlogin as <-.
      rewrite mapAuthErrorToMessage_TypeError in Hmap. injection Hmap as <- _. reflexivity.
    + intros e p reason' c -> -> He Hp Hrej Hcode Hc.
      rewrite (loginUser_valid e p He Hp), Hrej in Hlogin. injection Hlogin as ->.
      rewrite (mapAuthErrorToMessage_credential reason c w Hcode Hc) in Hmap.
      injection Hmap as <- _. reflexivity.
Qed.

(** X19.  The login page asks for a sign-in only when both fields are
    filled: with an email or a password that is empty or white space only it
    sets the error of that field and leaves the provider and the world as
    they are, whatever the backend would answer.  With both filled it shows
    no field error and the outcome is that of [login], in which the check of
    [loginUser] cannot fail: the backend is asked, with the email and the
    password exactly as typed (not trimmed). *)
Theorem login_page_submits_filled_fields_only (email password : string)
    (state : AuthState) (w : world) :
  (trim email = "" \/ trim password = "" ->
   LoginPage_handleSubmit signInWithEmailAndPassword email password state w
   = (Return ({| emailError := if String.eqb (trim email) "" then "Email is required." else "";
                 passwordError :=
                   if String.eqb (trim password) "" then "Password is required." else "" |},
              state), w))
  /\ (trim email <> "" -> trim password <> "" ->
      loginUser signInWithEmailAndPassword (VString email) (VString password)
      = signInWithEmailAndPassword email password
      /\ exists state' w',
           login signInWithEmailAndPassword (VString email) (VString password) state w
           = (Return state', w')
           /\ LoginPage_handleSubmit signInWithEmailAndPassword email password state w
              = (Return ({| emailError := ""; passwordError := "" |}, state'), w')).
Proof.
  unfold LoginPage_handleSubmit. cbv zeta. split.
  - intros Hblank.
    destruct (String.eqb_spec (trim email) "") as [He|He];
      destruct (String.eqb_spec (trim password) "") as [Hp|Hp]; try reflexivity.
    tauto.
  - intros He Hp. split; [apply loginUser_valid; assumption|].
    destruct (login_never_raises_parts (VString email) (VString password) state w)
      as (state' & w' & Hlogin).
    exists state', w'. split; [exact Hlogin|].
    destruct (String.eqb_spec (trim email) "") as [E|_]; [contradiction|].
    destruct (String.eqb_spec (trim password) "") as [E|_]; [contradiction|].
    cbn [negb andb]. unfold try_catch, bind. rewrite Hlogin. reflexivity.
Qed.

End SignIn.

Section TypedAndDisplayed.
Context {host : HostEnvironment}.

(** X20.  What is typed is what is shown, on a host whose offset from UTC
    is constant: a reminder saved through the form by a user whose
    identifier is a non-blank single path segment, with the date string of a
    day of the calendar (years 1000 to 9999), comes back from the next List
    with the text typed, trimmed, and a date that [formatDateForDisplay]
    shows as the very string that was typed. *)
Theorem typed_date_is_the_date_displayed (uid typed : string) (y m d : Z) (w : world) :
  trim uid <> "" -> single_segment uid = true -> trim typed <> "" ->
  1000 <= y <= 9999 -> 1 <= m <= 12 -> 1 <= d <= DaysInMonth y m ->
  exists w1 reminders w2 r,
    submit_form (Some uid) None typed (date_string y m d) w
    = (Return ({| errors_text := None; errors_date := None |}, Some ReminderAdded), w1)
    /\ getReminders (VString uid) w1 = (Return reminders, w2)
    /\ r ∈ reminders
    /\ stored w uid (id r) = None
    /\ text r = VString (trim typed)
    /\ formatDateForDisplay (VDate (date r)) w2 = (Return (date_string y m d), w2).
Proof.
  intros Huid Hseg Htext Hy Hm Hd.
  destruct (fromDisplayString_calendar_date y m d ltac:(lia) Hm Hd)
    as (Hparse & _ & _ & Hvalid).
  set (t := UTC (MakeDay y (m - 1) d * msPerDay)) in *.
  set (dataForService :=
         VObject (<["text" := VString (trim typed)]> (<["date" := VDate (mkDate (Int t))]> ∅))).
  assert (Htt : trim (trim typed) <> "") by (rewrite trim_trim; exact Htext).
  destruct (create_reminder_parts uid (trim typed) t dataForService w
              Huid Hseg eq_refl Htt eq_refl Hvalid)
    as (rid & w0 & Hadd & Hfresh & Hst & _).
  destruct (submit_form_accepted uid typed (date_string y m d) (mkDate (Int t)) w rid w0
              Hparse Htext (trim_nonempty uid Huid) Hadd) as (w1 & Hrun & Hdb).
  destruct (getReminders_returns uid w1 Huid Hseg) as (w2 & Hlist & _ & _).
  apply stored_Some in Hst as (_ & _ & Hst).
  exists w1. eexists. exists w2, {| id := rid; text := VString (trim typed); date := mkDate (Int t) |}.
  split; [exact Hrun|]. split; [exact Hlist|]. split; [|split; [exact Hfresh|split; [reflexivity|]]].
  - apply elem_of_listed_reminders. cbn [id text date].
    eexists. exists (FString (trim typed)), (mkTimestamp t).
    rewrite (stored_at_same_db w0 w1 _ rid Hdb).
    split; [exact Hst|]. split; [apply lookup_insert_eq|]. split.
    { cbn. destruct (String.eqb_spec (trim typed) "") as [E|_]; [contradiction|reflexivity]. }
    split; [rewrite lookup_insert_ne by discriminate; apply lookup_insert_eq|].
    split; [reflexivity|]. symmetry. apply (Timestamp_toDate_valid (mkTimestamp t)), Hvalid.
  - cbn [date]. unfold formatDateForDisplay. cbn [is_nullish toDate_method instanceof_Date].
    rewrite format_resolved_valid. unfold t.
    rewrite (format_fields_date_string y m d Hy Hm Hd). reflexivity.
Qed.

End TypedAndDisplayed.

Lemma submitting_the_form_stores_the_reminder_witness :
  exists rid t w',
    @submit_form utc_host (Some "u1") None "  Buy flowers " (date_string 2025 6 1) corrupt_world
    = (Return ({| errors_text := None; errors_date := None |}, Some ReminderAdded), w')
    /\ stored w' "u1" rid
       = Some (<["text" := FString "Buy flowers"]>
                 (<["date" := FTimestamp (mkTimestamp t)]> ∅))
    /\ DateFromTime (@LocalTime utc_host t) = 1.
Proof.
  destruct (@submitting_the_form_stores_the_reminder utc_host "u1" "  Buy flowers " 2025 6 1
              corrupt_world)
    as (rid & t & w' & Hrun & _ & Hst & _ & _ & Hdate & _).
  - vm_compute. discriminate.
  - reflexivity.
  - vm_compute. discriminate.
  - lia.
  - lia.
  - vm_compute. split; discriminate.
  - exists rid, t, w'. split; [exact Hrun|]. split; [exact Hst|exact Hdate].
Defined.

Lemma typed_date_is_the_date_displayed_witness :
  exists w1 reminders w2 r,
    @submit_form east_host (Some "u1") None "Order cake" (date_string 2024 2 29) empty_world
    = (Return ({| errors_text := None; errors_date := None |}, Some ReminderAdded), w1)
    /\ getReminders (VString "u1") w1 = (Return reminders, w2)
    /\ r ∈ reminders
    /\ @formatDateForDisplay east_host (VDate (date r)) w2 = (Return "2024-02-29", w2).
Proof.
  destruct (@typed_date_is_the_date_displayed east_host "u1" "Order cake" 2024 2 29 empty_world)
    as (w1 & reminders & w2 & r & H1 & H2 & H3 & _ & _ & H4).
  - vm_compute. discriminate.
  - reflexivity.
  - vm_compute. discriminate.
  - lia.
  - lia.
  - vm_compute. split; discriminate.
  - exists w1, reminders, w2, r. auto.
Defined.

Ltac wp_logged :=
  wp_handler; unfold console_post, logged_failure; cbn [console];
  rewrite ?app_nil_r; reflexivity.

Lemma addReminder_console userId reminderData w :
  wp (addReminder userId reminderData) (console_post "addReminder" true w) w.
Proof.
  unfold addReminder.
  apply wp_try_catch, wp_bind, wp_validateNonEmptyString;
    [intros uid -> Huid|intros _; wp_logged].
  destruct (_ || _) eqn:Hguard; [apply wp_throw; wp_logged|].
  apply wp_bind, wp_validateNonEmptyString; [intros s Htext Hs|intros _; wp_logged].
  destruct (get reminderData "date") as [| |b|n|s'|d|ts|p|c] eqn:Hdate;
    try (apply wp_throw; wp_logged).
  destruct d as [[|ms]]; cbn [getTime]; [apply wp_throw; wp_logged|].
  apply wp_bind, wp_Timestamp_fromMillis.
  - intros Hvalid. cbv zeta. apply wp_bind, wp_collection.
    destruct (collection_path _) as [c|]; [|wp_logged].
    apply wp_addDoc. intros rid Hfresh _. reflexivity.
  - wp_logged.
Qed.

Lemma deleteReminder_console userId reminderId w :
  wp (deleteReminder userId reminderId) (console_post "deleteReminder" true w) w.
Proof.
  unfold deleteReminder.
  apply wp_try_catch, wp_bind, wp_validateNonEmptyString;
    [intros uid -> Huid|intros _; wp_logged].
  apply wp_bind, wp_validateNonEmptyString;
    [intros rid -> Hrid|intros _; wp_logged].
  apply wp_bind, wp_doc. destruct (document_path _) as [[c i]|]; [|wp_logged].
  apply wp_deleteDoc. reflexivity.
Qed.

Lemma getReminders_console userId w :
  wp (getReminders userId) (console_post "getReminders" false w) w.
Proof.
  unfold getReminders.
  apply wp_try_catch, wp_bind, wp_validateNonEmptyString;
    [intros uid -> Huid|intros _; wp_logged].
  apply wp_bind, wp_collection. destruct (collection_path _) as [c|]; [|wp_logged].
  apply wp_bind, wp_getDocs_orderBy_date, forEach_push_wp.
  intros w' _ _. exact I.
Qed.

Lemma updateReminder_console userId reminderId updatedData w :
  wp (updateReminder userId reminderId updatedData) (console_post "updateReminder" true w) w.
Proof.
  unfold updateReminder.
  apply wp_try_catch, wp_bind, wp_validateNonEmptyString;
    [intros uid -> Huid|intros _; wp_logged].
  apply wp_bind, wp_validateNonEmptyString;
    [intros rid -> Hrid|intros _; wp_logged].
  destruct (_ || _ || _) eqn:Hguard; [apply wp_throw; wp_logged|].
  destruct updatedData as [| |b|n|s|d|ts|props|c];
    try (apply wp_bind, wp_ret, wp_bind, wp_ret, wp_bind, wp_ret, wp_bind, wp_ret,
           wp_throw; wp_logged).
  destruct (props !! "hasOwnProperty") eqn:Hown.
  { apply wp_bind. unfold hasOwnProperty. rewrite Hown.
    apply wp_throw. wp_logged. }
  assert (Hfinish : forall fields,
            wp (let* reminderDocRef := doc ["users"; uid; "reminders"; rid] in
                updateDoc reminderDocRef fields)
               (fun r w1 =>
                  match r with
                  | Return a => console_post "updateReminder" true w (Return a) w1
                  | Throw e =>
                      wp (match e with
                          | TypeError message =>
                              console_error ("Validation Error in updateReminder: " +:+ message)
                          | _ => ret ()
                          end;;; throw e)
                         (@console_post unit "updateReminder" true w) w1
                  end) w).
  { intros fields. apply wp_bind, wp_doc.
    destruct (document_path _) as [[c i]|]; [|wp_logged].
    apply wp_updateDoc.
    destruct (stored_at w c i) as [d|]; [reflexivity|wp_logged]. }
  apply wp_bind, wp_hasOwnProperty_object; [exact Hown|].
  unfold get.
  destruct (props !! "text") as [vt|] eqn:Htext; cbn [from_option Datatypes.id].
  - apply wp_bind.
    destruct vt as [| |b|n|s|d|ts|p|c]; try (apply wp_throw; wp_logged).
    destruct (String.eqb_spec (trim s) "") as [Es|Es]; [apply wp_throw; wp_logged|].
    apply wp_ret, wp_bind, wp_hasOwnProperty_object; [exact Hown|].
    destruct (props !! "date") as [vd|] eqn:Hdate; cbn [from_option Datatypes.id].
    + apply wp_bind.
      destruct vd as [| |b|n|s'|d|ts|p|c]; try (apply wp_throw; wp_logged).
      destruct d as [[|ms]]; cbn [getTime]; [apply wp_throw; wp_logged|].
      apply wp_bind, wp_Timestamp_fromMillis; [intros Hvalid|wp_logged].
      apply wp_ret. rewrite size_insert_nonzero. apply Hfinish.
    + apply wp_bind, wp_ret. rewrite size_insert_nonzero. apply Hfinish.
  - apply wp_bind, wp_ret, wp_bind, wp_hasOwnProperty_object; [exact Hown|].
    destruct (props !! "date") as [vd|] eqn:Hdate; cbn [from_option Datatypes.id].
    + apply wp_bind.
      destruct vd as [| |b|n|s'|d|ts|p|c]; try (apply wp_throw; wp_logged).
      destruct d as [[|ms]]; cbn [getTime]; [apply wp_throw; wp_logged|].
      apply wp_bind, wp_Timestamp_fromMillis; [intros Hvalid|wp_logged].
      apply wp_ret. rewrite size_insert_nonzero. apply Hfinish.
    + apply wp_bind, wp_ret, wp_throw. wp_logged.
Qed.

(** X21.  What the four functions of the service write to the console: a
    call that fails with InvalidArgument leaves exactly one more line, an
    error naming the function and carrying the message of the failure; a call
    that fails with an error of the database leaves none; a Create, Update or
    Delete that succeeds leaves none.  Of a List that succeeds nothing is
    said here: it logs warnings for the documents it skips. *)
Theorem service_logs_validation_failures_only :
  (forall userId reminderData w r w',
     addReminder userId reminderData w = (r, w') ->
     console_post "addReminder" true w r w')
  /\ (forall userId w r w',
        getReminders userId w = (r, w') -> console_post "getReminders" false w r w')
  /\ (forall userId reminderId updatedData w r w',
        updateReminder userId reminderId updatedData w = (r, w') ->
        console_post "updateReminder" true w r w')
  /\ (forall userId reminderId w r w',
        deleteReminder userId reminderId w = (r, w') ->
        console_post "deleteReminder" true w r w').
Proof.
  split; [|split; [|split]]; intros; eapply wp_run; try eassumption.
  - apply addReminder_console.
  - apply getReminders_console.
  - apply updateReminder_console.
  - apply deleteReminder_console.
Qed.
